(** * The artifact test-result processor, [src/core/artifact_processor.py]

    A shallow embedding of [ArtifactProcessor]: suite-name resolution, the
    eligibility gate, the JUnit-XML, JSON, HTML and text parsers, the result
    merger and the orchestrator [process_test_files], followed by the
    properties the specification states about them.

    Conventions of the embedding.
    - A Python [str] is a [string] whose characters are the code points
      below 256; the character classes Python derives from Unicode
      ([str.lower], [str.strip], [\d], the whitespace of [int]) are given on
      these code points.
    - A Python [int] is a [Z]; a Python [float] is a primitive [float].
    - A call that may raise returns an [outcome]; [try]/[except] is a match on
      it.
    - A Python [dict] keyed by strings is an insertion-ordered association
      list without repeated keys ([PyDict]).
    - Logging has no effect on any result and is left out, but for the debug
      message of [process_test_files], whose text is built by calls on the
      file system ([process_test_files_call]). *)

From Stdlib Require Import ZArith Lia List String Ascii Bool PrimFloat.
From stdpp Require Import gmap.
Import ListNotations.

Local Open Scope string_scope.
Local Open Scope Z_scope.

(* stdpp seals [String.append] against [simpl]; the proofs below compute
   with it. *)
#[local] Arguments String.append !_ _ : simpl nomatch.

(** ** Exceptions *)

Inductive exn : Type :=
  | ValueError
  | TypeError
  | IndexError
  | KeyError
  | AttributeError
  | OSError
  | UnicodeDecodeError
  | ParseError
  | JSONDecodeError.

Inductive outcome (A : Type) : Type :=
  | Returns (a : A)
  | Raises (e : exn).
Arguments Returns {A} a.
Arguments Raises {A} e.

Definition obind {A B : Type} (m : outcome A) (k : A -> outcome B) : outcome B :=
  match m with
  | Returns a => k a
  | Raises e => Raises e
  end.

Notation "'let*' x ':=' m 'in' k" := (obind m (fun x => k))
  (at level 10, x name, m at level 100, k at level 200).

(** ** Python string builtins used by the processor *)

Module PyStr.

(** [s.startswith(p)] *)
Fixpoint startswith (s p : string) {struct p} : bool :=
  match p, s with
  | EmptyString, _ => true
  | String _ _, EmptyString => false
  | String a p', String b s' => Ascii.eqb a b && startswith s' p'
  end.

(** [s[n:]] *)
Fixpoint drop (n : nat) (s : string) : string :=
  match n, s with
  | O, _ => s
  | S _, EmptyString => EmptyString
  | S n', String _ s' => drop n' s'
  end.

(** [s[:n]] *)
Fixpoint take (n : nat) (s : string) : string :=
  match n, s with
  | O, _ => EmptyString
  | S _, EmptyString => EmptyString
  | S n', String c s' => String c (take n' s')
  end.

(** [pat in s] *)
Fixpoint contains (pat s : string) : bool :=
  startswith s pat ||
  match s with
  | EmptyString => false
  | String _ s' => contains pat s'
  end.

(** The text before and after the first occurrence of [pat] in [s]. *)
Fixpoint partition (pat s : string) : option (string * string) :=
  if startswith s pat then Some (EmptyString, drop (String.length pat) s)
  else match s with
       | EmptyString => None
       | String c s' =>
           match partition pat s' with
           | Some (before, after) => Some (String c before, after)
           | None => None
           end
       end.

(** [s.split(sep, 1)], for a non-empty [sep] *)
Definition split1 (sep s : string) : list string :=
  match partition sep s with
  | Some (before, after) => [before; after]
  | None => [s]
  end.

(** [s.split(sep)], for a non-empty [sep]: [skip] counts the characters of
    a separator just matched that are still to be passed over, [cur] is
    the piece being collected. *)
Fixpoint split_from (sep : string) (skip : nat) (cur s : string) : list string :=
  match s with
  | EmptyString => [cur]
  | String c s' =>
      match skip with
      | S k => split_from sep k cur s'
      | O =>
          if startswith s sep
          then cur :: split_from sep (String.length sep - 1) EmptyString s'
          else split_from sep O (cur ++ String c EmptyString) s'
      end
  end.

Definition split (sep s : string) : list string := split_from sep O EmptyString s.

(** [s.replace(old, new)] for a one-character [old] *)
Fixpoint replace (old : ascii) (new : string) (s : string) : string :=
  match s with
  | EmptyString => EmptyString
  | String c s' =>
      if Ascii.eqb c old then new ++ replace old new s'
      else String c (replace old new s')
  end.

(** Whitespace as [str.strip] sees it: tab, line feed, vertical tab, form
    feed, carriage return, the four separators 0x1c-0x1f, space, next line
    (0x85) and no-break space (0xa0). *)
Definition is_space (c : ascii) : bool :=
  let n := nat_of_ascii c in
  ((9 <=? n) && (n <=? 13) || (28 <=? n) && (n <=? 32)
   || (n =? 133) || (n =? 160))%nat.

Fixpoint lstrip (s : string) : string :=
  match s with
  | EmptyString => EmptyString
  | String c s' => if is_space c then lstrip s' else s
  end.

Fixpoint rstrip (s : string) : string :=
  match s with
  | EmptyString => EmptyString
  | String c s' =>
      match rstrip s' with
      | EmptyString => if is_space c then EmptyString else String c EmptyString
      | r => String c r
      end
  end.

(** [s.strip()] *)
Definition strip (s : string) : string := rstrip (lstrip s).

(** The capital letters below 256 are A-Z and 0xc0-0xde without the
    multiplication sign 0xd7; each has its small letter 32 above it. *)
Definition lower_char (c : ascii) : ascii :=
  let n := nat_of_ascii c in
  if ((65 <=? n) && (n <=? 90)
      || (192 <=? n) && (n <=? 222) && negb (n =? 215))%nat
  then ascii_of_nat (n + 32) else c.

(** [s.lower()] *)
Fixpoint lower (s : string) : string :=
  match s with
  | EmptyString => EmptyString
  | String c s' => String (lower_char c) (lower s')
  end.

(** [s.rfind(c)] for a one-character [c] *)
Fixpoint rfind (c : ascii) (s : string) : option nat :=
  match s with
  | EmptyString => None
  | String a s' =>
      match rfind c s' with
      | Some i => Some (S i)
      | None => if Ascii.eqb a c then Some O else None
      end
  end.

(** A decimal digit, as [\d] and [int] see it: below 256 the digits are
    [0] to [9] (the superscripts 0xb2, 0xb3 and 0xb9 are no decimal
    digits). *)
Definition is_digit (c : ascii) : bool :=
  let n := nat_of_ascii c in ((48 <=? n) && (n <=? 57))%nat.

Definition digit_value (c : ascii) : Z := Z.of_nat (nat_of_ascii c) - 48.

(** The longest run of digits at the head of [s], and what follows it. *)
Fixpoint span_digits (s : string) : string * string :=
  match s with
  | EmptyString => (EmptyString, EmptyString)
  | String c s' =>
      if is_digit c
      then let (d, r) := span_digits s' in (String c d, r)
      else (EmptyString, s)
  end.

(** The digits of an integer literal read left to right: [acc] is the
    value so far, [after_digit] tells whether the previous character was a
    digit (an underscore is allowed only between two digits). *)
Fixpoint int_digits (acc : Z) (after_digit : bool) (s : string) : option Z :=
  match s with
  | EmptyString => if after_digit then Some acc else None
  | String c s' =>
      if is_digit c then int_digits (10 * acc + digit_value c) true s'
      else if Ascii.eqb c "_" && after_digit then
        match s' with
        | String d _ => if is_digit d then int_digits acc false s' else None
        | EmptyString => None
        end
      else None
  end.

(** Whitespace as [int] skips it around a literal: the whitespace of
    [str.strip] without the four separators 0x1c-0x1f. *)
Definition is_int_space (c : ascii) : bool :=
  let n := nat_of_ascii c in
  ((9 <=? n) && (n <=? 13) || (n =? 32) || (n =? 133) || (n =? 160))%nat.

Fixpoint int_lstrip (s : string) : string :=
  match s with
  | EmptyString => EmptyString
  | String c s' => if is_int_space c then int_lstrip s' else s
  end.

Fixpoint int_rstrip (s : string) : string :=
  match s with
  | EmptyString => EmptyString
  | String c s' =>
      match int_rstrip s' with
      | EmptyString => if is_int_space c then EmptyString else String c EmptyString
      | r => String c r
      end
  end.

(** [sys.int_info.default_max_str_digits]: the interpreter's cap on the
    number of digits of a decimal literal that [int] converts; the program
    never changes it. *)
Definition max_str_digits : nat := 4300.

(** The number of digits of a literal: underscores do not count, leading
    zeros do. *)
Fixpoint count_digits (s : string) : nat :=
  match s with
  | EmptyString => O
  | String c s' => if is_digit c then S (count_digits s') else count_digits s'
  end.

(** [int(s)] in base ten: surrounding whitespace, an optional sign,
    digits with single underscores between them; a well-formed literal of
    more than [max_str_digits] digits raises [ValueError] too. *)
Definition int (s : string) : outcome Z :=
  let body := int_rstrip (int_lstrip s) in
  let (neg, ds) :=
    match body with
    | String "-" r => (true, r)
    | String "+" r => (false, r)
    | _ => (false, body)
    end in
  match int_digits 0 false ds with
  | Some v =>
      if (max_str_digits <? count_digits ds)%nat then Raises ValueError
      else Returns (if neg then - v else v)
  | None => Raises ValueError
  end.

End PyStr.

(** ** Python dictionaries keyed by strings *)

Module PyDict.

Definition t (V : Type) : Type := list (string * V).

Definition empty {V : Type} : t V := [].

(** [d.get(k)] *)
Fixpoint get {V : Type} (k : string) (d : t V) : option V :=
  match d with
  | [] => None
  | (k', v) :: d' => if String.eqb k k' then Some v else get k d'
  end.

(** [d[k] = v]: an existing key keeps its position, a new key goes last. *)
Fixpoint set {V : Type} (k : string) (v : V) (d : t V) : t V :=
  match d with
  | [] => [(k, v)]
  | (k', v') :: d' =>
      if String.eqb k k' then (k', v) :: d' else (k', v') :: set k v d'
  end.

Definition keys {V : Type} (d : t V) : list string := map fst d.

End PyDict.

(** ** [pathlib.Path]: the directory part and the final component ([name]) *)

Record Path : Type := mkPath {
  path_parent : string;
  path_name : string
}.

(** [p.suffix] and [p.stem]: the final component is cut at its last dot
    unless that dot is its first or its last character. *)
Definition path_suffix (p : Path) : string :=
  let name := path_name p in
  match PyStr.rfind "." name with
  | Some i =>
      if ((0 <? i) && (i <? String.length name - 1))%nat
      then PyStr.drop i name else ""
  | None => ""
  end.

Definition path_stem (p : Path) : string :=
  let name := path_name p in
  match PyStr.rfind "." name with
  | Some i =>
      if ((0 <? i) && (i <? String.length name - 1))%nat
      then PyStr.take i name else name
  | None => name
  end.

(** ** Data model *)

Record TestResult : Type := mkTestResult {
  tr_name : string;
  tr_status : string;
  tr_duration : float;
  tr_failure_message : option string;
  tr_error_message : option string;
  tr_suite : option string
}.

Record TestSuiteResult : Type := mkTestSuiteResult {
  sr_name : string;
  sr_total : Z;
  sr_passed : Z;
  sr_failed : Z;
  sr_skipped : Z;
  sr_errors : Z;
  sr_duration : float;
  sr_tests : list TestResult
}.

(** [TestSuiteResult(name=n)]: the dataclass defaults, [tests] set to a new
    empty list by [__post_init__]. *)
Definition new_suite (n : string) : TestSuiteResult :=
  {| sr_name := n; sr_total := 0; sr_passed := 0; sr_failed := 0;
     sr_skipped := 0; sr_errors := 0; sr_duration := 0%float; sr_tests := [] |}.

Definition with_total (v : Z) (r : TestSuiteResult) : TestSuiteResult :=
  {| sr_name := sr_name r; sr_total := v; sr_passed := sr_passed r;
     sr_failed := sr_failed r; sr_skipped := sr_skipped r;
     sr_errors := sr_errors r; sr_duration := sr_duration r;
     sr_tests := sr_tests r |}.

Definition with_passed (v : Z) (r : TestSuiteResult) : TestSuiteResult :=
  {| sr_name := sr_name r; sr_total := sr_total r; sr_passed := v;
     sr_failed := sr_failed r; sr_skipped := sr_skipped r;
     sr_errors := sr_errors r; sr_duration := sr_duration r;
     sr_tests := sr_tests r |}.

Definition with_failed (v : Z) (r : TestSuiteResult) : TestSuiteResult :=
  {| sr_name := sr_name r; sr_total := sr_total r; sr_passed := sr_passed r;
     sr_failed := v; sr_skipped := sr_skipped r;
     sr_errors := sr_errors r; sr_duration := sr_duration r;
     sr_tests := sr_tests r |}.

Definition with_skipped (v : Z) (r : TestSuiteResult) : TestSuiteResult :=
  {| sr_name := sr_name r; sr_total := sr_total r; sr_passed := sr_passed r;
     sr_failed := sr_failed r; sr_skipped := v;
     sr_errors := sr_errors r; sr_duration := sr_duration r;
     sr_tests := sr_tests r |}.

Definition with_errors (v : Z) (r : TestSuiteResult) : TestSuiteResult :=
  {| sr_name := sr_name r; sr_total := sr_total r; sr_passed := sr_passed r;
     sr_failed := sr_failed r; sr_skipped := sr_skipped r;
     sr_errors := v; sr_duration := sr_duration r;
     sr_tests := sr_tests r |}.

Definition with_duration (v : float) (r : TestSuiteResult) : TestSuiteResult :=
  {| sr_name := sr_name r; sr_total := sr_total r; sr_passed := sr_passed r;
     sr_failed := sr_failed r; sr_skipped := sr_skipped r;
     sr_errors := sr_errors r; sr_duration := v;
     sr_tests := sr_tests r |}.

Definition with_tests (v : list TestResult) (r : TestSuiteResult) : TestSuiteResult :=
  {| sr_name := sr_name r; sr_total := sr_total r; sr_passed := sr_passed r;
     sr_failed := sr_failed r; sr_skipped := sr_skipped r;
     sr_errors := sr_errors r; sr_duration := sr_duration r;
     sr_tests := v |}.

(** ** [ArtifactProcessor] *)

Definition supported_formats : list string :=
  [".xml"; ".json"; ".html"; ".txt"; ".log"].

(** [_has_meaningful_results] *)
Definition _has_meaningful_results (passed failed error : Z) : bool :=
  (0 <? passed) || (0 <? failed) || (0 <? error).

(** The last resort of [_extract_suite_name_from_artifact], written twice in
    the source (end of the [try] body and the [except] handler):
    [s.replace(' ', '_').replace(';', '').replace('=', '_')]. *)
Definition cleaned (s : string) : string :=
  PyStr.replace "=" "_" (PyStr.replace ";" "" (PyStr.replace " " "_" s)).

(** [l[i]] on a list: [IndexError] out of range. *)
Definition index {A : Type} (l : list A) (i : nat) : outcome A :=
  match nth_error l i with
  | Some x => Returns x
  | None => Raises IndexError
  end.

(** [clean_name]: the artifact name without a leading ['artifacts_']. *)
Definition without_prefix (artifact_name : string) : string :=
  let clean_name := artifact_name in
  if PyStr.startswith clean_name "artifacts_"
  then PyStr.drop 10 clean_name else clean_name.

(** [if '; JobAttempt=' in suite_part:
       suite_part = suite_part.split('; JobAttempt=')[0]],
    written in both pattern branches. *)
Definition cut_job_attempt (suite_part : string) : outcome string :=
  if PyStr.contains "; JobAttempt=" suite_part
  then index (PyStr.split "; JobAttempt=" suite_part) 0
  else Returns suite_part.

(** The second pattern and the last resort: what runs when the first
    pattern does not return. *)
Definition extract_from_report (clean_name : string) : outcome string :=
  let last_resort := Returns (cleaned clean_name) in
  if PyStr.contains "PyTest test_report=" clean_name then
    let parts := PyStr.split1 "PyTest test_report=" clean_name in
    if (1 <? List.length parts)%nat then
      let* suite_part := index parts 1 in
      let* suite_part := cut_job_attempt suite_part in
      let suite_part :=
        if PyStr.startswith suite_part "BFT PyTest "
        then PyStr.drop 11 suite_part else suite_part in
      Returns (PyStr.strip suite_part)
    else last_resort
  else last_resort.

(** The [try] body of [_extract_suite_name_from_artifact]. *)
Definition extract_suite_name_body (artifact_name : string) : outcome string :=
  let clean_name := without_prefix artifact_name in
  if PyStr.contains "BFT PyTest " clean_name then
    let parts := PyStr.split1 "BFT PyTest " clean_name in
    if (1 <? List.length parts)%nat then
      let* suite_part := index parts 1 in
      let* suite_part := cut_job_attempt suite_part in
      Returns (PyStr.strip suite_part)
    else extract_from_report clean_name
  else extract_from_report clean_name.

(** [try: body except Exception: handler], the shape of
    [_extract_suite_name_from_artifact]. *)
Definition try_except {A : Type} (body : outcome A) (handler : exn -> A) : A :=
  match body with
  | Returns a => a
  | Raises e => handler e
  end.

(** [_extract_suite_name_from_artifact] over any body: the handler cleans
    the original artifact name. *)
Definition extract_suite_name_with (body : string -> outcome string)
    (artifact_name : string) : string :=
  try_except (body artifact_name) (fun _ => cleaned artifact_name).

Definition _extract_suite_name_from_artifact : string -> string :=
  extract_suite_name_with extract_suite_name_body.

Definition test_patterns : list string :=
  ["test"; "result"; "report"; "junit"; "pytest"; "coverage";
   "pytr";
   "pytest-report"; "test-report"; "test_report"].

(** [_is_test_result_file] *)
Definition _is_test_result_file (file_path : Path) : bool :=
  let name := PyStr.lower (path_name file_path) in
  let suffix := PyStr.lower (path_suffix file_path) in
  if negb (existsb (String.eqb suffix) supported_formats) then false
  else existsb (fun pattern => PyStr.contains pattern name) test_patterns.

(** [_merge_suite_results] on the values of the two records. *)
Definition _merge_suite_results (existing new : TestSuiteResult) : TestSuiteResult :=
  let merged := new_suite (sr_name existing) in
  let merged := with_total (sr_total existing + sr_total new) merged in
  let merged := with_passed (sr_passed existing + sr_passed new) merged in
  let merged := with_failed (sr_failed existing + sr_failed new) merged in
  let merged := with_skipped (sr_skipped existing + sr_skipped new) merged in
  let merged := with_errors (sr_errors existing + sr_errors new) merged in
  let merged := with_duration (sr_duration existing + sr_duration new)%float merged in
  let merged := with_tests (sr_tests existing ++ sr_tests new) merged in
  merged.

(** ** The merger on the object store

    [_merge_suite_results] reads two [TestSuiteResult] objects and builds a
    third. To speak of what it leaves untouched, the objects live in a store:
    a suite object holds its counters and a reference to its [tests] list, a
    list object holds the [TestResult]s (they are never written once
    appended, so the list holds their values). *)

Module Store.

Abbreviation loc := positive.

Inductive object : Type :=
  | SuiteObject (name : string) (total passed failed skipped errors : Z)
                (duration : float) (tests : loc)
  | ListObject (items : list TestResult).

Abbreviation heap := (gmap loc object).

(** A computation on the store: it may raise, and returns the new store. *)
Definition M (A : Type) : Type := heap -> outcome (A * heap).

Definition ret {A : Type} (a : A) : M A := fun h => Returns (a, h).

Definition bind {A B : Type} (m : M A) (k : A -> M B) : M B :=
  fun h => match m h with
           | Returns (a, h') => k a h'
           | Raises e => Raises e
           end.

Notation "'do' x '<-' m ';' k" := (bind m (fun x => k))
  (at level 10, x name, m at level 100, k at level 200).

(** A new object goes to an address the store does not use. *)
Definition alloc (o : object) : M loc :=
  fun h => let l := fresh (dom h) in Returns (l, <[l := o]> h).

(** Attribute reads of a suite object; anything else has no such
    attribute. *)
Definition getattr {A : Type}
    (f : string -> Z -> Z -> Z -> Z -> Z -> float -> loc -> A) (l : loc) : M A :=
  fun h => match h !! l with
           | Some (SuiteObject n t p fl s e d ts) => Returns (f n t p fl s e d ts, h)
           | _ => Raises AttributeError
           end.

Definition get_name := getattr (fun n _ _ _ _ _ _ _ => n).
Definition get_total := getattr (fun _ t _ _ _ _ _ _ => t).
Definition get_passed := getattr (fun _ _ p _ _ _ _ _ => p).
Definition get_failed := getattr (fun _ _ _ f _ _ _ _ => f).
Definition get_skipped := getattr (fun _ _ _ _ s _ _ _ => s).
Definition get_errors := getattr (fun _ _ _ _ _ e _ _ => e).
Definition get_duration := getattr (fun _ _ _ _ _ _ d _ => d).
Definition get_tests := getattr (fun _ _ _ _ _ _ _ ts => ts).

(** Attribute writes of a suite object. *)
Definition setattr (upd : object -> object) (l : loc) : M unit :=
  fun h => match h !! l with
           | Some (SuiteObject n t p fl s e d ts) =>
               Returns (tt, <[l := upd (SuiteObject n t p fl s e d ts)]> h)
           | _ => Raises AttributeError
           end.

Definition set_total (v : Z) := setattr (fun o =>
  match o with SuiteObject n _ p f s e d ts => SuiteObject n v p f s e d ts | _ => o end).
Definition set_passed (v : Z) := setattr (fun o =>
  match o with SuiteObject n t _ f s e d ts => SuiteObject n t v f s e d ts | _ => o end).
Definition set_failed (v : Z) := setattr (fun o =>
  match o with SuiteObject n t p _ s e d ts => SuiteObject n t p v s e d ts | _ => o end).
Definition set_skipped (v : Z) := setattr (fun o =>
  match o with SuiteObject n t p f _ e d ts => SuiteObject n t p f v e d ts | _ => o end).
Definition set_errors (v : Z) := setattr (fun o =>
  match o with SuiteObject n t p f s _ d ts => SuiteObject n t p f s v d ts | _ => o end).
Definition set_duration (v : float) := setattr (fun o =>
  match o with SuiteObject n t p f s e _ ts => SuiteObject n t p f s e v ts | _ => o end).
Definition set_tests (v : loc) := setattr (fun o =>
  match o with SuiteObject n t p f s e d _ => SuiteObject n t p f s e d v | _ => o end).

(** The items of a list object. *)
Definition items (l : loc) : M (list TestResult) :=
  fun h => match h !! l with
           | Some (ListObject xs) => Returns (xs, h)
           | _ => Raises TypeError
           end.

(** [xs + ys] on lists: a new list object. *)
Definition list_add (xs ys : loc) : M loc :=
  do a <- items xs; do b <- items ys; alloc (ListObject (a ++ b)).

(** [TestSuiteResult(name=n)]: [__post_init__] replaces the [None] default
    of [tests] by a new empty list. *)
Definition TestSuiteResult_init (n : string) : M loc :=
  do ts <- alloc (ListObject []);
  alloc (SuiteObject n 0 0 0 0 0 0%float ts).

(** [_merge_suite_results], statement by statement. *)
Definition _merge_suite_results (existing new : loc) : M loc :=
  do n <- get_name existing;
  do merged <- TestSuiteResult_init n;
  do a <- get_total existing; do b <- get_total new;
  do _ <- set_total (a + b) merged;
  do a <- get_passed existing; do b <- get_passed new;
  do _ <- set_passed (a + b) merged;
  do a <- get_failed existing; do b <- get_failed new;
  do _ <- set_failed (a + b) merged;
  do a <- get_skipped existing; do b <- get_skipped new;
  do _ <- set_skipped (a + b) merged;
  do a <- get_errors existing; do b <- get_errors new;
  do _ <- set_errors (a + b) merged;
  do a <- get_duration existing; do b <- get_duration new;
  do _ <- set_duration (a + b)%float merged;
  do a <- get_tests existing; do b <- get_tests new;
  do ts <- list_add a b;
  do _ <- set_tests ts merged;
  ret merged.

(** The record a suite object stands for: its attributes, with the items
    of its [tests] list. *)
Definition suite_at (h : heap) (l : loc) : option TestSuiteResult :=
  match h !! l with
  | Some (SuiteObject n t p f s e d ts) =>
      match h !! ts with
      | Some (ListObject xs) => Some (mkTestSuiteResult n t p f s e d xs)
      | _ => None
      end
  | _ => None
  end.

End Store.

(** ** The documents the parsers read *)

(** An [xml.etree.ElementTree] element: tag, attributes, text, children. *)
#[local] Set Warnings "-register-all".
Inductive Element : Type :=
  | mkElement (tag : string) (attrib : PyDict.t string) (text : option string)
              (children : list Element).

Definition elem_tag (e : Element) : string :=
  match e with mkElement t _ _ _ => t end.
Definition elem_attrib (e : Element) : PyDict.t string :=
  match e with mkElement _ a _ _ => a end.
Definition elem_text (e : Element) : option string :=
  match e with mkElement _ _ t _ => t end.
Definition elem_children (e : Element) : list Element :=
  match e with mkElement _ _ _ c => c end.

(** [e.findall(tag)] and [e.find(tag)]: the children with that tag, in
    document order, and the first of them. *)
Definition findall (tag : string) (e : Element) : list Element :=
  filter (fun c => String.eqb (elem_tag c) tag) (elem_children e).

Definition find (tag : string) (e : Element) : option Element :=
  hd_error (findall tag e).

(** A loaded JSON report, as far as [_parse_json_report] reads it: an
    object with a [tests] list, else an object with a [summary] object,
    both with the field types the dataclasses declare and an absent field
    as [None]; else a document that holds neither (an object without them,
    or a list or a string in which neither word occurs); else a document
    the reading of which raises an exception that the parser does not
    handle: [TypeError] for a number, [true], [false] or [null] and for a
    list or a string in which ['tests'] or ['summary'] occurs (the
    membership test or the subscript raises), [AttributeError] for a
    [summary] or a test that is no object and for an outcome that is no
    string ([.get] or [.lower] is missing). *)
Record JsonTest : Type := mkJsonTest {
  jt_nodeid : option string;
  jt_outcome : option string;
  jt_duration : option float;
  jt_call_longrepr : option string
}.

Inductive JsonReport : Type :=
  | JsonTests (tests : list JsonTest) (duration : option float)
  | JsonSummary (total passed failed skipped error : option Z)
                (duration : option float)
  | JsonOther
  | JsonIllTyped (attribute_missing : bool).

(** The counters of an HTML report's suite record after the markup has been
    scanned (by BeautifulSoup when installed, by regular expressions
    otherwise), before the total is completed. *)
Record HtmlCounts : Type := mkHtmlCounts {
  hc_total : Z;
  hc_passed : Z;
  hc_failed : Z;
  hc_skipped : Z;
  hc_errors : Z
}.

(** What the processor takes from its surroundings: the [float] builtin on
    strings ([None] where it raises [ValueError]) and, for each path, what
    [ET.parse], [json.load] on the opened file and [open(...).read()]
    give; [html_scan] is the markup scan of an HTML report's content. *)
Record Env : Type := mkEnv {
  py_float : string -> option float;
  et_parse : Path -> outcome Element;
  json_load : Path -> outcome JsonReport;
  read_text : Path -> outcome string;
  html_scan : string -> outcome HtmlCounts
}.

(** ** [_parse_junit_xml] *)

Section Parsers.

Variable env : Env.

(** [int(e.get(key, 0))] and [float(e.get(key, 0))] *)
Definition int_attr (e : Element) (key : string) : outcome Z :=
  match PyDict.get key (elem_attrib e) with
  | Some s => PyStr.int s
  | None => Returns 0
  end.

Definition float_attr (e : Element) (key : string) : outcome float :=
  match PyDict.get key (elem_attrib e) with
  | Some s =>
      match py_float env s with
      | Some f => Returns f
      | None => Raises ValueError
      end
  | None => Returns 0%float
  end.

(** [e.get(key, default)] *)
Definition attr_or {A : Type} (e : Element) (key : string) (inj : string -> A)
    (default : A) : A :=
  match PyDict.get key (elem_attrib e) with
  | Some s => inj s
  | None => default
  end.

(** One [testcase] element. *)
Definition parse_testcase (suite_name : string) (testcase : Element)
    : outcome TestResult :=
  let* duration := float_attr testcase "time" in
  let test :=
    {| tr_name := attr_or testcase "name" id "Unknown";
       tr_status := "passed";
       tr_duration := duration;
       tr_failure_message := None;
       tr_error_message := None;
       tr_suite := Some suite_name |} in
  let failure := find "failure" testcase in
  let error := find "error" testcase in
  let skipped := find "skipped" testcase in
  Returns
    match failure, error, skipped with
    | Some failure, _, _ =>
        {| tr_name := tr_name test; tr_status := "failed";
           tr_duration := tr_duration test;
           tr_failure_message :=
             attr_or failure "message" Some (elem_text failure);
           tr_error_message := tr_error_message test;
           tr_suite := tr_suite test |}
    | None, Some error, _ =>
        {| tr_name := tr_name test; tr_status := "error";
           tr_duration := tr_duration test;
           tr_failure_message := tr_failure_message test;
           tr_error_message :=
             attr_or error "message" Some (elem_text error);
           tr_suite := tr_suite test |}
    | None, None, Some _ =>
        {| tr_name := tr_name test; tr_status := "skipped";
           tr_duration := tr_duration test;
           tr_failure_message := tr_failure_message test;
           tr_error_message := tr_error_message test;
           tr_suite := tr_suite test |}
    | None, None, None => test
    end.

(** The loop over the [testcase] children, appending to [tests]. *)
Fixpoint parse_testcases (suite_name : string) (tests : list TestResult)
    (testcases : list Element) : outcome (list TestResult) :=
  match testcases with
  | [] => Returns tests
  | testcase :: rest =>
      let* test := parse_testcase suite_name testcase in
      parse_testcases suite_name (tests ++ [test]) rest
  end.

(** The body of the loop over the suite elements: [results] before the
    iteration, [results] after it. *)
Definition parse_suite_elem (file_path : Path)
    (results : PyDict.t TestSuiteResult) (suite_elem : Element)
    : outcome (PyDict.t TestSuiteResult) :=
  let suite_name := attr_or suite_elem "name" id (path_stem file_path) in
  let suite_result := new_suite suite_name in
  let* total := int_attr suite_elem "tests" in
  let suite_result := with_total total suite_result in
  let* failed := int_attr suite_elem "failures" in
  let suite_result := with_failed failed suite_result in
  let* errors := int_attr suite_elem "errors" in
  let suite_result := with_errors errors suite_result in
  let* skipped := int_attr suite_elem "skipped" in
  let suite_result := with_skipped skipped suite_result in
  let* duration := float_attr suite_elem "time" in
  let suite_result := with_duration duration suite_result in
  let suite_result :=
    with_passed (sr_total suite_result - sr_failed suite_result
                 - sr_errors suite_result - sr_skipped suite_result)
                suite_result in
  if negb (_has_meaningful_results (sr_passed suite_result)
             (sr_failed suite_result) (sr_errors suite_result))
  then Returns results
  else
    let* tests := parse_testcases suite_name (sr_tests suite_result)
                    (findall "testcase" suite_elem) in
    let suite_result := with_tests tests suite_result in
    Returns (PyDict.set suite_name suite_result results).

Fixpoint parse_suite_elems (file_path : Path)
    (results : PyDict.t TestSuiteResult) (suites : list Element)
    : outcome (PyDict.t TestSuiteResult) :=
  match suites with
  | [] => Returns results
  | suite_elem :: rest =>
      let* results := parse_suite_elem file_path results suite_elem in
      parse_suite_elems file_path results rest
  end.

(** [suites]: the [testsuite] children of a [testsuites] root, else the
    root itself. *)
Definition suite_elements (root : Element) : list Element :=
  if String.eqb (elem_tag root) "testsuites"
  then findall "testsuite" root else [root].

(** [_parse_junit_xml]: only [ET.ParseError] is handled, and only
    [ET.parse] raises it, when [results] is still empty. *)
Definition _parse_junit_xml (file_path : Path)
    : outcome (PyDict.t TestSuiteResult) :=
  let results := PyDict.empty in
  match et_parse env file_path with
  | Raises ParseError => Returns results
  | Raises e => Raises e
  | Returns root =>
      let suites := suite_elements root in
      parse_suite_elems file_path results suites
  end.

End Parsers.

(** ** The regular expressions of [_parse_text_report] *)

Module Re.

(** A match of [(\d+) word] starting at the head of [s]: the digits. The
    greedy [\d+] takes the whole run of digits; giving some back leaves a
    digit where the space must be, so no shorter run can match. *)
Definition match_count (word s : string) : option string :=
  let (digits, rest) := PyStr.span_digits s in
  match digits with
  | EmptyString => None
  | String _ _ =>
      if PyStr.startswith rest (String " " word) then Some digits else None
  end.

(** [re.search(r'(\d+) word', s)]: group 1 of the leftmost match. *)
Fixpoint search_count (word s : string) : option string :=
  match match_count word s with
  | Some digits => Some digits
  | None =>
      match s with
      | EmptyString => None
      | String _ s' => search_count word s'
      end
  end.

(** [(.+?) -] at the head of [s]: the shortest non-empty run of
    characters other than a line feed that is followed by [" -"]. *)
Fixpoint lazy_name (s : string) : option string :=
  match s with
  | EmptyString => None
  | String c s' =>
      if Ascii.eqb c "010" then None
      else if PyStr.startswith s' " -" then Some (String c EmptyString)
      else match lazy_name s' with
           | Some n => Some (String c n)
           | None => None
           end
  end.

(** A match of [FAILED (.+?) -] starting at the head of [s]: group 1. *)
Definition match_failed (s : string) : option string :=
  if PyStr.startswith s "FAILED " then lazy_name (PyStr.drop 7 s) else None.

(** [re.findall(r'FAILED (.+?) -', s)]: the matches from left to right,
    each search resuming where the previous match ended ([skip] counts the
    characters of that match still to be passed over). *)
Fixpoint findall_failed_from (skip : nat) (s : string) : list string :=
  match s with
  | EmptyString => []
  | String _ s' =>
      match skip with
      | S k => findall_failed_from k s'
      | O =>
          match match_failed s with
          | Some n => n :: findall_failed_from (7 + String.length n + 1) s'
          | None => findall_failed_from O s'
          end
      end
  end.

Definition findall_failed (s : string) : list string := findall_failed_from O s.

End Re.

(** ** [_parse_json_report], [_parse_html_report], [_parse_text_report] *)

Section MoreParsers.

Variable env : Env.

Definition or_default {A : Type} (o : option A) (d : A) : A :=
  match o with Some a => a | None => d end.

(** One element of the [tests] array. *)
Definition json_test_step (suite_name : string) (suite_result : TestSuiteResult)
    (test_data : JsonTest) : TestSuiteResult :=
  let status := PyStr.lower (or_default (jt_outcome test_data) "unknown") in
  let test :=
    {| tr_name := or_default (jt_nodeid test_data) "Unknown";
       tr_status := status;
       tr_duration := or_default (jt_duration test_data) 0%float;
       tr_failure_message :=
         match jt_call_longrepr test_data with
         | Some longrepr =>
             if String.eqb status "failed" then Some longrepr else None
         | None => None
         end;
       tr_error_message := None;
       tr_suite := Some suite_name |} in
  let suite_result := with_tests (sr_tests suite_result ++ [test]) suite_result in
  if String.eqb status "passed" then
    with_passed (sr_passed suite_result + 1) suite_result
  else if String.eqb status "failed" then
    with_failed (sr_failed suite_result + 1) suite_result
  else if String.eqb status "skipped" then
    with_skipped (sr_skipped suite_result + 1) suite_result
  else
    with_errors (sr_errors suite_result + 1) suite_result.

(** [_parse_json_report]: [JSONDecodeError] and [KeyError] are handled,
    with [results] still empty. *)
Definition _parse_json_report (file_path : Path)
    : outcome (PyDict.t TestSuiteResult) :=
  let results := PyDict.empty in
  match json_load env file_path with
  | Raises JSONDecodeError => Returns results
  | Raises KeyError => Returns results
  | Raises e => Raises e
  | Returns (JsonTests tests duration) =>
      let suite_name := path_stem file_path in
      let suite_result := new_suite suite_name in
      let suite_result := fold_left (json_test_step suite_name) tests suite_result in
      let suite_result :=
        with_total (Z.of_nat (List.length (sr_tests suite_result))) suite_result in
      let suite_result := with_duration (or_default duration 0%float) suite_result in
      if _has_meaningful_results (sr_passed suite_result) (sr_failed suite_result)
           (sr_errors suite_result)
      then Returns (PyDict.set suite_name suite_result results)
      else Returns results
  | Returns (JsonSummary total passed failed skipped error duration) =>
      let suite_name := path_stem file_path in
      let suite_result :=
        {| sr_name := suite_name;
           sr_total := or_default total 0;
           sr_passed := or_default passed 0;
           sr_failed := or_default failed 0;
           sr_skipped := or_default skipped 0;
           sr_errors := or_default error 0;
           sr_duration := or_default duration 0%float;
           sr_tests := [] |} in
      if _has_meaningful_results (sr_passed suite_result) (sr_failed suite_result)
           (sr_errors suite_result)
      then Returns (PyDict.set suite_name suite_result results)
      else Returns results
  | Returns JsonOther => Returns results
  | Returns (JsonIllTyped attribute_missing) =>
      Raises (if attribute_missing then AttributeError else TypeError)
  end.

(** [_parse_html_report]: every exception is handled, with [results]
    still empty. *)
Definition _parse_html_report (file_path : Path) : PyDict.t TestSuiteResult :=
  let results := PyDict.empty in
  try_except
    (let* content := read_text env file_path in
     let suite_name := path_stem file_path in
     let suite_result := new_suite suite_name in
     let* counts := html_scan env content in
     let suite_result :=
       with_errors (hc_errors counts)
         (with_skipped (hc_skipped counts)
            (with_failed (hc_failed counts)
               (with_passed (hc_passed counts)
                  (with_total (hc_total counts) suite_result)))) in
     let suite_result :=
       if sr_total suite_result =? 0
       then with_total (sr_passed suite_result + sr_failed suite_result
                        + sr_skipped suite_result + sr_errors suite_result)
              suite_result
       else suite_result in
     if negb (_has_meaningful_results (sr_passed suite_result)
                (sr_failed suite_result) (sr_errors suite_result))
     then Returns results
     else if 0 <? sr_total suite_result
          then Returns (PyDict.set suite_name suite_result results)
          else Returns results)
    (fun _ => results).

(** [if m: field = int(m.group(1))] *)
Definition count_of (m : option string) (current : Z) : outcome Z :=
  match m with
  | Some group1 => PyStr.int group1
  | None => Returns current
  end.

(** [TestResult(name=test_name, status='failed', suite=suite_name)] *)
Definition failed_test (suite_name test_name : string) : TestResult :=
  {| tr_name := test_name; tr_status := "failed";
     tr_duration := 0%float; tr_failure_message := None;
     tr_error_message := None; tr_suite := Some suite_name |}.

(** [suite_result] as [_parse_text_report] builds it from the content,
    up to the assignment of [total]. *)
Definition text_suite_result (suite_name content : string)
    : outcome TestSuiteResult :=
  let suite_result := new_suite suite_name in
  let failed_tests := Re.findall_failed content in
  let suite_result :=
    fold_left
      (fun suite_result test_name =>
         let test := failed_test suite_name test_name in
         with_tests (sr_tests suite_result ++ [test]) suite_result)
      failed_tests suite_result in
  let passed_match := Re.search_count "passed" content in
  let failed_match := Re.search_count "failed" content in
  let skipped_match := Re.search_count "skipped" content in
  let error_match := Re.search_count "error" content in
  let* passed := count_of passed_match (sr_passed suite_result) in
  let suite_result := with_passed passed suite_result in
  let* failed := count_of failed_match (sr_failed suite_result) in
  let suite_result := with_failed failed suite_result in
  let* skipped := count_of skipped_match (sr_skipped suite_result) in
  let suite_result := with_skipped skipped suite_result in
  let* errors := count_of error_match (sr_errors suite_result) in
  let suite_result := with_errors errors suite_result in
  let suite_result :=
    with_total (sr_passed suite_result + sr_failed suite_result
                + sr_skipped suite_result + sr_errors suite_result)
      suite_result in
  Returns suite_result.

(** [_parse_text_report]: every exception is handled, with [results]
    still empty. *)
Definition _parse_text_report (file_path : Path) : PyDict.t TestSuiteResult :=
  let results := PyDict.empty in
  try_except
    (let* content := read_text env file_path in
     let suite_name := path_stem file_path in
     let* suite_result := text_suite_result suite_name content in
     if 0 <? sr_total suite_result
     then Returns (PyDict.set suite_name suite_result results)
     else Returns results)
    (fun _ => results).

End MoreParsers.

(** ** [process_test_files] *)

(** The four parser methods the orchestrator calls. *)
Record Parsers : Type := mkParsers {
  parse_junit_xml : Path -> outcome (PyDict.t TestSuiteResult);
  parse_json_report : Path -> outcome (PyDict.t TestSuiteResult);
  parse_html_report : Path -> outcome (PyDict.t TestSuiteResult);
  parse_text_report : Path -> outcome (PyDict.t TestSuiteResult)
}.

Definition parsers_of (env : Env) : Parsers :=
  {| parse_junit_xml := _parse_junit_xml env;
     parse_json_report := _parse_json_report env;
     parse_html_report := fun p => Returns (_parse_html_report env p);
     parse_text_report := fun p => Returns (_parse_text_report env p) |}.

(** One iteration of the [# Merge results] loop: the membership test and
    the lookup of [test_results[suite_name]] are one [get]. *)
Definition merge_entry (test_results : PyDict.t TestSuiteResult)
    (item : string * TestSuiteResult) : PyDict.t TestSuiteResult :=
  let (suite_name, suite_result) := item in
  match PyDict.get suite_name test_results with
  | Some existing =>
      PyDict.set suite_name (_merge_suite_results existing suite_result) test_results
  | None => PyDict.set suite_name suite_result test_results
  end.

Definition merge_results (test_results suite_results : PyDict.t TestSuiteResult)
    : PyDict.t TestSuiteResult :=
  fold_left merge_entry suite_results test_results.

(** The dispatch on the lower-cased suffix; [None] is the final [else],
    which skips the file. *)
Definition dispatch (P : Parsers) (file_path : Path)
    : option (outcome (PyDict.t TestSuiteResult)) :=
  let suffix := PyStr.lower (path_suffix file_path) in
  if String.eqb suffix ".xml" then Some (parse_junit_xml P file_path)
  else if String.eqb suffix ".json" then Some (parse_json_report P file_path)
  else if String.eqb suffix ".html" then Some (parse_html_report P file_path)
  else if existsb (String.eqb suffix) [".txt"; ".log"]
       then Some (parse_text_report P file_path)
  else None.

(** The body of the loop over [files]: [test_results] before and after. *)
Definition process_file (P : Parsers) (test_results : PyDict.t TestSuiteResult)
    (file_path : Path) : PyDict.t TestSuiteResult :=
  if negb (_is_test_result_file file_path) then test_results
  else
    match dispatch P file_path with
    | None => test_results
    | Some parsed =>
        try_except
          (let* suite_results := parsed in
           Returns (merge_results test_results suite_results))
          (fun _ => test_results)
    end.

(** The loop over [files] (lines 186-226) and the map it leaves in
    [test_results]: what the call returns when the debug loop before it
    has not raised (see [process_test_files_call]). *)
Definition process_test_files_with (P : Parsers) (files : list Path)
    : PyDict.t TestSuiteResult :=
  fold_left (process_file P) files PyDict.empty.

Definition process_test_files (env : Env) (files : list Path)
    : PyDict.t TestSuiteResult :=
  process_test_files_with (parsers_of env) files.

(** ** Reading the results *)

(** [f c] for each character [c] of [s], joined. *)
Fixpoint concat_map (f : ascii -> string) (s : string) : string :=
  match s with
  | EmptyString => EmptyString
  | String c s' => f c ++ concat_map f s'
  end.

(** What [cleaned] does to one character: a space and an equals sign
    become an underscore, a semicolon goes, anything else stays. *)
Definition clean_char (c : ascii) : string :=
  if Ascii.eqb c " " then "_"
  else if Ascii.eqb c ";" then ""
  else if Ascii.eqb c "=" then "_"
  else String c EmptyString.

(** The sanitization in the specification's words: spaces become
    underscores, [;] and [=] are removed. *)
Definition specified_char (c : ascii) : string :=
  if Ascii.eqb c " " then "_"
  else if Ascii.eqb c ";" then ""
  else if Ascii.eqb c "=" then ""
  else String c EmptyString.

Definition sanitize_as_specified (s : string) : string :=
  concat_map specified_char s.

(** No pattern of [_extract_suite_name_from_artifact] occurs in the name
    once its prefix is removed. *)
Definition no_pattern (artifact_name : string) : Prop :=
  PyStr.contains "BFT PyTest " (without_prefix artifact_name) = false
  /\ PyStr.contains "PyTest test_report=" (without_prefix artifact_name) = false.

(** A store with two suite records of one test each, at addresses 1 and 3. *)
Definition two_suites : Store.heap :=
  <[1%positive := Store.SuiteObject "s" 1 1 0 0 0 1.5 2%positive]>
    (<[2%positive := Store.ListObject [mkTestResult "t" "passed" 1.5 None None (Some "s")]]>
       (<[3%positive := Store.SuiteObject "s" 1 0 1 0 0 2 4%positive]>
          (<[4%positive := Store.ListObject [mkTestResult "t" "failed" 2 None None (Some "s")]]>
             ∅))).

(** [suite_name] in [_parse_junit_xml]: the [name] attribute, else the
    file's stem. *)
Definition junit_suite_name (file_path : Path) (suite_elem : Element) : string :=
  attr_or suite_elem "name" id (path_stem file_path).

(** The counter attributes of a suite element all convert, to [t], [f],
    [e], [s], and its [time] converts to [d]. *)
Definition counters_read (env : Env) (suite_elem : Element)
    (t f e s : Z) (d : float) : Prop :=
  int_attr suite_elem "tests" = Returns t
  /\ int_attr suite_elem "failures" = Returns f
  /\ int_attr suite_elem "errors" = Returns e
  /\ int_attr suite_elem "skipped" = Returns s
  /\ float_attr env suite_elem "time" = Returns d.

(** A suite element whose derived passed count, failures and errors are
    all zero. *)
Definition all_skipped (env : Env) (suite_elem : Element) : Prop :=
  exists t f e s d,
    counters_read env suite_elem t f e s d
    /\ t - f - e - s = 0 /\ f = 0 /\ e = 0.

(** Every record of a dictionary passes the meaningfulness filter. *)
Definition all_meaningful (d : PyDict.t TestSuiteResult) : Prop :=
  forall k r, PyDict.get k d = Some r ->
    _has_meaningful_results (sr_passed r) (sr_failed r) (sr_errors r) = true.

(** Example documents: a suite element with the given counter attributes. *)
Definition suite_with (name tests failures errors skipped : string) : Element :=
  mkElement "testsuite"
    [("name", name); ("tests", tests); ("failures", failures);
     ("errors", errors); ("skipped", skipped)]
    None [].

(** An example environment: [pytest_report.xml] holds an all-skipped suite,
    [junit.xml] a suite of five tests, [pytest_log.txt] a log with a failure
    line and a skipped count only, [test_failures.log] a log with failure
    lines and no count; nothing else can be read. *)
Definition example_env : Env :=
  {| py_float := fun _ => None;
     et_parse := fun p =>
       if String.eqb (path_name p) "pytest_report.xml"
       then Returns (suite_with "suiteA" "3" "0" "0" "3")
       else if String.eqb (path_name p) "junit.xml"
       then Returns (suite_with "suiteB" "5" "1" "0" "1")
       else Raises OSError;
     json_load := fun _ => Raises OSError;
     read_text := fun p =>
       if String.eqb (path_name p) "pytest_log.txt"
       then Returns "FAILED test_a - boom, 3 skipped in 0.1s"
       else if String.eqb (path_name p) "test_failures.log"
       then Returns "FAILED test_a - boom"
       else Raises OSError;
     html_scan := fun _ => Raises ValueError |}.

(** The number a count pattern's first match stands for, zero when there
    is none, and whether [int] converts it: whether it has at most
    [max_str_digits] digits. *)
Definition match_value (m : option string) : Z :=
  match m with
  | Some group1 =>
      match PyStr.int_digits 0 false group1 with
      | Some v => v
      | None => 0
      end
  | None => 0
  end.

Definition match_short (m : option string) : bool :=
  match m with
  | Some group1 => (String.length group1 <=? PyStr.max_str_digits)%nat
  | None => true
  end.

(** All four first matches of a content are converted. *)
Definition counts_short (content : string) : bool :=
  match_short (Re.search_count "passed" content)
  && match_short (Re.search_count "failed" content)
  && match_short (Re.search_count "skipped" content)
  && match_short (Re.search_count "error" content).

(** The record of a content whose counts are converted: the counters are
    the numbers of the first matches, the total is their sum, the tests are
    the [FAILED] lines. *)
Definition text_record (suite_name content : string) : TestSuiteResult :=
  {| sr_name := suite_name;
     sr_total := match_value (Re.search_count "passed" content)
                 + match_value (Re.search_count "failed" content)
                 + match_value (Re.search_count "skipped" content)
                 + match_value (Re.search_count "error" content);
     sr_passed := match_value (Re.search_count "passed" content);
     sr_failed := match_value (Re.search_count "failed" content);
     sr_skipped := match_value (Re.search_count "skipped" content);
     sr_errors := match_value (Re.search_count "error" content);
     sr_duration := 0%float;
     sr_tests := map (failed_test suite_name) (Re.findall_failed content) |}.

Fixpoint all_digits (s : string) : bool :=
  match s with
  | EmptyString => true
  | String c s' => PyStr.is_digit c && all_digits s'
  end.

(** A file from which the orchestrator gets no suite: the gate refuses it,
    or no parser is selected, or the selected parser raises, or it returns
    the empty map. *)
Definition yields_nothing (P : Parsers) (file_path : Path) : Prop :=
  _is_test_result_file file_path = false
  \/ dispatch P file_path = None
  \/ (exists e, dispatch P file_path = Some (Raises e))
  \/ dispatch P file_path = Some (Returns PyDict.empty).

(** Example parsers: the XML and the JSON report of one suite, a text
    report that cannot be read. *)
Definition example_parsers : Parsers :=
  {| parse_junit_xml := fun _ =>
       Returns [("suiteA", mkTestSuiteResult "suiteA" 10 8 2 0 0 1.5 [])];
     parse_json_report := fun _ =>
       Returns [("suiteA", mkTestSuiteResult "suiteA" 5 4 1 0 0 0.5 [])];
     parse_html_report := fun _ => Returns PyDict.empty;
     parse_text_report := fun _ => Raises UnicodeDecodeError |}.

(** ** The callers' loop over the artifacts of a run

    [publisher.py], [daily_publisher.py] and [multi_publisher.py] run the
    same loop: artifacts whose name does not start with
    ['PyTest test_report='] are skipped, the others are downloaded,
    extracted and processed, and a non-empty result is stored under the
    artifact's name. *)

Record Artifact : Type := mkArtifact {
  art_name : string;
  art_id : Z
}.

(** [artifact['name'].startswith("PyTest test_report=")] *)
Definition is_pytest_artifact (artifact_name : string) : bool :=
  PyStr.startswith artifact_name "PyTest test_report=".

(** One iteration. [fetch] stands for the download and the extraction: it
    gives the extracted files together with what reading them gives, or
    raises. *)
Definition collect_step (fetch : Artifact -> outcome (Env * list Path))
    (all_test_results : PyDict.t (PyDict.t TestSuiteResult))
    (artifact : Artifact) : outcome (PyDict.t (PyDict.t TestSuiteResult)) :=
  if negb (is_pytest_artifact (art_name artifact)) then Returns all_test_results
  else
    let* extracted := fetch artifact in
    let test_results := process_test_files (fst extracted) (snd extracted) in
    match test_results with
    | [] => Returns all_test_results
    | _ :: _ => Returns (PyDict.set (art_name artifact) test_results all_test_results)
    end.

Fixpoint collect_from (fetch : Artifact -> outcome (Env * list Path))
    (all_test_results : PyDict.t (PyDict.t TestSuiteResult))
    (artifacts : list Artifact) : outcome (PyDict.t (PyDict.t TestSuiteResult)) :=
  match artifacts with
  | [] => Returns all_test_results
  | artifact :: rest =>
      let* all_test_results := collect_step fetch all_test_results artifact in
      collect_from fetch all_test_results rest
  end.

Definition collect_test_results (fetch : Artifact -> outcome (Env * list Path))
    (artifacts : list Artifact) : outcome (PyDict.t (PyDict.t TestSuiteResult)) :=
  collect_from fetch PyDict.empty artifacts.

(** An example test case, with a skipped, an error and a failure child. *)
Definition failing_testcase : Element :=
  mkElement "testcase" [("name", "test_boot")] None
    [mkElement "skipped" [] None [];
     mkElement "error" [("message", "crashed")] None [];
     mkElement "failure" [] (Some "assert 1 == 2") []].

(** What the XML parser makes of [failing_testcase] in a suite named
    [boot]. *)
Definition failing_testcase_result : TestResult :=
  mkTestResult "test_boot" "failed" 0 (Some "assert 1 == 2") None (Some "boot").

(** [testcase.get('name', 'Unknown')] *)
Definition testcase_name (testcase : Element) : string :=
  attr_or testcase "name" id "Unknown".

(** A suite element one of whose counters or whose [time] does not
    convert. *)
Definition conversion_fails (env : Env) (suite_elem : Element) : Prop :=
  int_attr suite_elem "tests" = Raises ValueError
  \/ int_attr suite_elem "failures" = Raises ValueError
  \/ int_attr suite_elem "errors" = Raises ValueError
  \/ int_attr suite_elem "skipped" = Raises ValueError
  \/ float_attr env suite_elem "time" = Raises ValueError.

(** An example environment in which every XML file holds two suites, the
    second with a counter that is not a number. *)
Definition broken_counter_env : Env :=
  {| py_float := fun _ => None;
     et_parse := fun _ =>
       Returns (mkElement "testsuites" [] None
                  [suite_with "good" "5" "1" "0" "1";
                   suite_with "bad" "five" "0" "0" "0"]);
     json_load := fun _ => Raises OSError;
     read_text := fun _ => Raises OSError;
     html_scan := fun _ => Raises ValueError |}.

(** [test.status] in [_parse_json_report]: the lower-cased [outcome],
    ['unknown'] when there is none. *)
Definition json_status (test_data : JsonTest) : string :=
  PyStr.lower (or_default (jt_outcome test_data) "unknown").

(** The number of tests with a given status, and with a status that is
    none of [passed], [failed], [skipped]. *)
Definition count_status (status : string) (tests : list JsonTest) : Z :=
  Z.of_nat (List.length
              (List.filter (fun t => String.eqb (json_status t) status) tests)).

Definition is_other_status (status : string) : bool :=
  negb (String.eqb status "passed") && negb (String.eqb status "failed")
  && negb (String.eqb status "skipped").

Definition count_other (tests : list JsonTest) : Z :=
  Z.of_nat (List.length
              (List.filter (fun t => is_other_status (json_status t)) tests)).

(** Example JSON reports: four tests (passed in capitals, skipped, one with
    an outcome of its own, one without outcome) and what the parser makes of
    them, and two skipped tests. *)
Definition mixed_report_tests : list JsonTest :=
  [mkJsonTest (Some "a") (Some "PASSED") None None;
   mkJsonTest (Some "b") (Some "skipped") None None;
   mkJsonTest (Some "c") (Some "xfailed") None (Some "why");
   mkJsonTest None None None None].

Definition mixed_report_result : TestSuiteResult :=
  mkTestSuiteResult "mixed_report" 4 1 0 1 2 0
    [mkTestResult "a" "passed" 0 None None (Some "mixed_report");
     mkTestResult "b" "skipped" 0 None None (Some "mixed_report");
     mkTestResult "c" "xfailed" 0 None None (Some "mixed_report");
     mkTestResult "Unknown" "unknown" 0 None None (Some "mixed_report")].

Definition skipped_report_tests : list JsonTest :=
  [mkJsonTest (Some "a") (Some "skipped") None None;
   mkJsonTest (Some "b") (Some "SKIPPED") None None].

Definition json_tests_env : Env :=
  {| py_float := fun _ => None;
     et_parse := fun _ => Raises OSError;
     json_load := fun p =>
       if String.eqb (path_name p) "skipped_report.json"
       then Returns (JsonTests skipped_report_tests None)
       else Returns (JsonTests mixed_report_tests None);
     read_text := fun _ => Raises OSError;
     html_scan := fun _ => Raises ValueError |}.

(** ** [_calculate_overall_stats] of the report generators

    The same function in [report_generator.py], [email_report_generator.py]
    and [regression_report_generator.py]. *)

(** A [for] loop whose body may raise. *)
Fixpoint for_each {A B : Type} (body : A -> B -> outcome A) (items : list B)
    (a : A) : outcome A :=
  match items with
  | [] => Returns a
  | item :: rest => let* a := body a item in for_each body rest a
  end.

(** [stats[key] += v] *)
Definition dict_add (key : string) (v : Z) (stats : PyDict.t Z)
    : outcome (PyDict.t Z) :=
  match PyDict.get key stats with
  | Some x => Returns (PyDict.set key (x + v) stats)
  | None => Raises KeyError
  end.

(** The body of the inner loop. *)
Definition stats_add_suite (stats : PyDict.t Z) (item : string * TestSuiteResult)
    : outcome (PyDict.t Z) :=
  let (suite_name, suite_result) := item in
  let* stats := dict_add "total" (sr_total suite_result) stats in
  let* stats := dict_add "passed" (sr_passed suite_result) stats in
  let* stats := dict_add "failed" (sr_failed suite_result) stats in
  let* stats := dict_add "skipped" (sr_skipped suite_result) stats in
  let* stats := dict_add "errors" (sr_errors suite_result) stats in
  Returns stats.

Definition _calculate_overall_stats
    (test_results : PyDict.t (PyDict.t TestSuiteResult)) : outcome (PyDict.t Z) :=
  let stats :=
    [("total", 0); ("passed", 0); ("failed", 0); ("skipped", 0); ("errors", 0)] in
  for_each
    (fun stats (item : string * PyDict.t TestSuiteResult) =>
       let (artifact_name, suites) := item in
       for_each stats_add_suite suites stats)
    test_results stats.

(** The sum of a field over the records of a suite map, and over the suite
    maps of the artifacts. *)
Definition sum_over (field : TestSuiteResult -> Z)
    (suites : PyDict.t TestSuiteResult) : Z :=
  fold_right (fun item acc => field (snd item) + acc) 0 suites.

Definition sum_over_artifacts (field : TestSuiteResult -> Z)
    (test_results : PyDict.t (PyDict.t TestSuiteResult)) : Z :=
  fold_right (fun item acc => sum_over field (snd item) + acc) 0 test_results.

(** What the orchestrator merges for one file: the suites its parser
    returns, nothing when the gate refuses the file, no parser is selected
    or the parser raises. *)
Definition file_suites (P : Parsers) (file_path : Path)
    : PyDict.t TestSuiteResult :=
  if _is_test_result_file file_path then
    match dispatch P file_path with
    | Some (Returns suite_results) => suite_results
    | _ => []
    end
  else [].

(** The number of tests a record lists. *)
Definition tests_count (r : TestSuiteResult) : Z :=
  Z.of_nat (List.length (sr_tests r)).

(** Every record of a suite map is stored under its own name. *)
Definition entries_named (d : PyDict.t TestSuiteResult) : Prop :=
  Forall (fun item => sr_name (snd item) = fst item) d.

(** Example runs: the artifacts of a run, a download that gives the JUnit
    file of [example_env], and one that fails for the artifact with id 3. *)
Definition example_artifacts : list Artifact :=
  [mkArtifact "PyTest test_report=BFT PyTest A; JobAttempt=1" 1;
   mkArtifact "build-logs" 2;
   mkArtifact "PyTest test_report=BFT PyTest B; JobAttempt=1" 3].

Definition example_fetch (artifact : Artifact) : outcome (Env * list Path) :=
  if art_id artifact =? 3
  then Returns (example_env, [mkPath "suite_B" "pytest_report.xml"])
  else Returns (example_env, [mkPath "suite_A" "junit.xml"]).

Definition failing_fetch (artifact : Artifact) : outcome (Env * list Path) :=
  if art_id artifact =? 3 then Raises OSError else example_fetch artifact.

(** ** [extract_artifact]

    The archive is taken as [zipfile] presents it: [None] when
    [zipfile.ZipFile] raises [BadZipFile], else its entries in order, each
    with its name, whether it is a directory, and what opening and reading
    it gives. The file system is followed by the calls made on it;
    [fs_fails] tells which of them raise. *)

Inductive ZipRead : Type :=
  | ReadOk (data : string)
  | BadAtOpen
  | BadAtRead.

Record ZipInfo : Type := mkZipInfo {
  zi_filename : string;
  zi_is_dir : bool;
  zi_read : ZipRead
}.

Inductive fs_call : Type :=
  | Mkdir (p : Path)
  | OpenForWrite (p : Path)
  | Write (p : Path) (data : string).

(** How an attempt at the body of the [try] ends: normally, by
    [BadZipFile], or by another exception; the calls made are kept in the
    first two cases. *)
Inductive attempt (A : Type) : Type :=
  | Done (a : A)
  | BadZipFile (calls : list fs_call)
  | Failed (e : exn).
Arguments Done {A} a.
Arguments BadZipFile {A} calls.
Arguments Failed {A} e.

Section ExtractArtifact.

(** [pathlib]'s [/] and [.parent]. The entry names are joined as they
    stand: [extract_artifact] does not look at them, and what [/] makes of
    an absolute name or of [..] is the join's affair. *)
Variable joinpath : Path -> string -> Path.
Variable parent_of : Path -> Path.
Variable fs_fails : fs_call -> option exn.

Definition fs_do (call : fs_call) (calls : list fs_call) : outcome (list fs_call) :=
  match fs_fails call with
  | Some e => Raises e
  | None => Returns (calls ++ [call])%list
  end.

(** The loop over [zip_file.infolist()]. *)
Fixpoint extract_entries (suite_dir : Path) (entries : list ZipInfo)
    (extracted_files : list Path) (calls : list fs_call)
    : attempt (list Path * list fs_call) :=
  match entries with
  | [] => Done (extracted_files, calls)
  | file_info :: rest =>
      if zi_is_dir file_info
      then extract_entries suite_dir rest extracted_files calls
      else
        let extracted_path := joinpath suite_dir (zi_filename file_info) in
        match fs_do (Mkdir (parent_of extracted_path)) calls with
        | Raises e => Failed e
        | Returns calls =>
            match zi_read file_info with
            | BadAtOpen => BadZipFile calls
            | BadAtRead =>
                match fs_do (OpenForWrite extracted_path) calls with
                | Raises e => Failed e
                | Returns calls => BadZipFile calls
                end
            | ReadOk data =>
                match fs_do (OpenForWrite extracted_path) calls with
                | Raises e => Failed e
                | Returns calls =>
                    match fs_do (Write extracted_path data) calls with
                    | Raises e => Failed e
                    | Returns calls =>
                        extract_entries suite_dir rest
                          (extracted_files ++ [extracted_path])%list calls
                    end
                end
            end
        end
  end.

(** [extract_artifact]: the extracted files and the calls made on the file
    system. *)
Definition extract_artifact (archive : option (list ZipInfo))
    (artifact_name : string) (output_dir : Path)
    : outcome (list Path * list fs_call) :=
  let extracted_files := [] in
  let suite_name := _extract_suite_name_from_artifact artifact_name in
  let suite_dir := joinpath output_dir ("suite_" ++ suite_name) in
  let* calls := fs_do (Mkdir suite_dir) [] in
  match archive with
  | None => Returns ([], calls)
  | Some entries =>
      match extract_entries suite_dir entries extracted_files calls with
      | Done (extracted_files, calls) => Returns (extracted_files, calls)
      | BadZipFile calls => Returns ([], calls)
      | Failed e => Raises e
      end
  end.

End ExtractArtifact.

(** The entries of an archive that are files. *)
Definition file_entries (entries : list ZipInfo) : list ZipInfo :=
  List.filter (fun file_info => negb (zi_is_dir file_info)) entries.

(** A simple way to join paths and to name a parent, for the examples. *)
Definition example_join (dir : Path) (name : string) : Path :=
  mkPath (path_parent dir ++ path_name dir ++ "/") name.

Definition example_parent (p : Path) : Path := mkPath "" (path_parent p).

(** The calls [extract_artifact] makes for the entries it extracts. *)
Definition calls_of (joinpath : Path -> string -> Path) (parent_of : Path -> Path)
    (suite_dir : Path) (entries : list ZipInfo) : list fs_call :=
  flat_map
    (fun file_info =>
       let extracted_path := joinpath suite_dir (zi_filename file_info) in
       if zi_is_dir file_info then []
       else match zi_read file_info with
            | ReadOk data =>
                [Mkdir (parent_of extracted_path); OpenForWrite extracted_path;
                 Write extracted_path data]
            | _ => []
            end)
    entries.

(** An entry that is a directory or can be read. *)
Definition readable (file_info : ZipInfo) : Prop :=
  zi_is_dir file_info = true \/ exists data, zi_read file_info = ReadOk data.

Definition no_failure (call : fs_call) : option exn := None.

(** An example archive, a directory and a report, and the calls its
    extraction makes under [out]. *)
Definition sound_archive : list ZipInfo :=
  [mkZipInfo "reports/" true (ReadOk "");
   mkZipInfo "junit.xml" false (ReadOk "<testsuite/>")].

Definition example_artifact_name : string :=
  "PyTest test_report=BFT PyTest A; JobAttempt=1".

Definition sound_calls : list fs_call :=
  [Mkdir (mkPath "out/" "suite_A");
   Mkdir (mkPath "" "out/suite_A/");
   OpenForWrite (mkPath "out/suite_A/" "junit.xml");
   Write (mkPath "out/suite_A/" "junit.xml") "<testsuite/>"].

(** ** [_get_all_failures] of [report_generator.py] *)

(** [t.status in ['failed', 'error']] *)
Definition status_is_failure (status : string) : bool :=
  String.eqb status "failed" || String.eqb status "error".

Definition is_failure (t : TestResult) : bool := status_is_failure (tr_status t).

(** The body of the inner loop; [compound] is [len(test_results) > 1]. *)
Definition failures_add (compound : bool) (artifact_name : string)
    (all_failures : PyDict.t (list TestResult))
    (item : string * TestSuiteResult) : PyDict.t (list TestResult) :=
  let (suite_name, suite_result) := item in
  let failures := List.filter is_failure (sr_tests suite_result) in
  match failures with
  | [] => all_failures
  | _ :: _ =>
      let key :=
        if compound then (artifact_name ++ "::" ++ suite_name)%string
        else suite_name in
      PyDict.set key failures all_failures
  end.

Definition _get_all_failures
    (test_results : PyDict.t (PyDict.t TestSuiteResult))
    : PyDict.t (list TestResult) :=
  fold_left
    (fun all_failures (item : string * PyDict.t TestSuiteResult) =>
       let (artifact_name, suites) := item in
       fold_left
         (failures_add (1 <? List.length test_results)%nat artifact_name)
         suites all_failures)
    test_results PyDict.empty.

(** The number of tests listed in a failure map, and the number of tests of
    a JSON report whose status is none of [passed], [failed], [skipped],
    [error]. *)
Definition listed_count (all_failures : PyDict.t (list TestResult)) : Z :=
  fold_right (fun item acc => Z.of_nat (List.length (snd item)) + acc) 0
    all_failures.

Definition count_unlisted (tests : list JsonTest) : Z :=
  Z.of_nat
    (List.length
       (List.filter
          (fun t => is_other_status (json_status t)
                    && negb (String.eqb (json_status t) "error"))
          tests)).

(** What [_get_all_failures] lists for one suite when the key is the suite
    name, and the number of failing tests of a record. *)
Definition suite_failures (item : string * TestSuiteResult)
    : PyDict.t (list TestResult) :=
  match List.filter is_failure (sr_tests (snd item)) with
  | [] => []
  | t :: failures => [(fst item, t :: failures)]
  end.

Definition failing_count (r : TestSuiteResult) : Z :=
  Z.of_nat (List.length (List.filter is_failure (sr_tests r))).

(** ** [_clean_error_message] of [email_report_generator.py] *)

Definition LF : string := String "010"%char "".

(** [message] is a string or [None]; both [None] and the empty string are
    false. [lines[0]] raises [IndexError] on an empty list. *)
Definition _clean_error_message (message : option string) : outcome string :=
  match message with
  | None | Some "" => Returns "No error details available"
  | Some message =>
      let lines := PyStr.split LF (PyStr.strip message) in
      match lines with
      | [] => Raises IndexError
      | line :: _ =>
          let first_line := PyStr.strip line in
          if (100 <? String.length first_line)%nat
          then Returns (PyStr.take 97 first_line ++ "...")
          else Returns first_line
      end
  end.

(** [c * n], a string of [n] copies of a character. *)
Fixpoint copies (n : nat) (c : ascii) : string :=
  match n with
  | O => EmptyString
  | S n' => String c (copies n' c)
  end.

(** A log whose passed count has one digit more than [int] converts, and a
    surrounding in which every text file reads as a given content. *)
Definition long_count_log : string := copies 4301 "1" ++ " passed".

Definition text_env (content : string) : Env :=
  {| py_float := fun _ => None;
     et_parse := fun _ => Raises OSError;
     json_load := fun _ => Raises OSError;
     read_text := fun _ => Returns content;
     html_scan := fun _ => Raises ValueError |}.

(** No character of the string is a digit. *)
Fixpoint no_digit (s : string) : bool :=
  match s with
  | EmptyString => true
  | String c s' => negb (PyStr.is_digit c) && no_digit s'
  end.

(** ** [process_test_files] from its first line

    Before its loop over the files the function logs every file at debug
    level (lines 183-184). The message is an f-string, built whatever the
    logging level, and it calls [file_path.exists()] and, for a file that
    exists, [file_path.stat()], outside any [try]. [exists()] answers
    [False] for a missing file and raises the [OSError] of any other
    failure (a name that is too long, a directory that cannot be
    searched); [stat()] raises when the file has gone since. *)
Record FileSystem : Type := mkFileSystem {
  path_exists : Path -> outcome bool;
  path_size : Path -> outcome Z
}.

(** The f-string of line 184 for one file. *)
Definition debug_file (fs : FileSystem) (file_path : Path) : outcome unit :=
  let* found := path_exists fs file_path in
  if found then
    let* size := path_size fs file_path in
    Returns tt
  else Returns tt.

Fixpoint debug_files (fs : FileSystem) (files : list Path) : outcome unit :=
  match files with
  | [] => Returns tt
  | file_path :: rest =>
      let* done := debug_file fs file_path in
      debug_files fs rest
  end.

(** The whole call: the debug loop, then the processing loop
    [process_test_files_with], whose result is returned. *)
Definition process_test_files_call (fs : FileSystem) (P : Parsers)
    (files : list Path) : outcome (PyDict.t TestSuiteResult) :=
  let* done := debug_files fs files in
  Returns (process_test_files_with P files).

(** A file that the debug loop passes: it is missing, or it exists and its
    size can be read. *)
Definition examined (fs : FileSystem) (file_path : Path) : Prop :=
  path_exists fs file_path = Returns false
  \/ (path_exists fs file_path = Returns true
      /\ exists size, path_size fs file_path = Returns size).

(** The longest run of characters other than ['/'] in a path. *)
Fixpoint longest_component (current longest : nat) (s : string) : nat :=
  match s with
  | EmptyString => Nat.max current longest
  | String c s' =>
      if Ascii.eqb c "/" then longest_component 0 (Nat.max current longest) s'
      else longest_component (S current) longest s'
  end.

(** A file system without files in which a name of more than 255
    characters cannot be looked up, and a path with such a name. *)
Definition empty_file_system : FileSystem :=
  {| path_exists := fun p =>
       if (255 <? longest_component 0 0 (path_parent p ++ path_name p))%nat
       then Raises OSError else Returns false;
     path_size := fun _ => Raises OSError |}.

Definition long_name_path : Path := mkPath (copies 300 "a" ++ "/") "summary.xml".

(** The text before the first ['; JobAttempt='] of a suite part, the whole
    part when there is none: what [cut_job_attempt] leaves. *)
Definition before_job_attempt (suite_part : string) : string :=
  match PyStr.partition "; JobAttempt=" suite_part with
  | Some (before, _) => before
  | None => suite_part
  end.

(** The part of an artifact name that a pattern selects: what follows the
    first ['BFT PyTest '] of the name without its prefix or, when there is
    none, what follows its first ['PyTest test_report='], in both cases up
    to the first ['; JobAttempt=']. [None] when neither pattern occurs. *)
Definition selected_part (artifact_name : string) : option string :=
  let clean_name := without_prefix artifact_name in
  match PyStr.partition "BFT PyTest " clean_name with
  | Some (_, after) => Some (before_job_attempt after)
  | None =>
      match PyStr.partition "PyTest test_report=" clean_name with
      | Some (_, after) => Some (before_job_attempt after)
      | None => None
      end
  end.

(** A suite element whose counters convert and fail the meaningfulness
    filter: the parser passes over it. *)
Definition filtered_out (env : Env) (suite_elem : Element) : Prop :=
  exists t f e s d,
    counters_read env suite_elem t f e s d
    /\ _has_meaningful_results (t - f - e - s) f e = false.

(** Example suite elements: a suite of five with two test cases, and the
    record the XML parser makes of it. *)
Definition suite_with_cases : Element :=
  mkElement "testsuite"
    [("name", "suiteB"); ("tests", "5"); ("failures", "1");
     ("errors", "0"); ("skipped", "1")]
    None
    [failing_testcase; mkElement "testcase" [("name", "test_ok")] None []].

Definition suite_with_cases_result : TestSuiteResult :=
  mkTestSuiteResult "suiteB" 5 3 1 1 0 0
    [mkTestResult "test_boot" "failed" 0 (Some "assert 1 == 2") None
       (Some "suiteB");
     mkTestResult "test_ok" "passed" 0 None None (Some "suiteB")].

(** * Properties *)

(** ** Strings *)

Section StringFacts.

Local Open Scope string_scope.

Lemma append_nil_r (s : string) : s ++ "" = s.
Proof. induction s as [|c s IH]; simpl; [reflexivity | now rewrite IH]. Qed.

Lemma append_assoc (s t u : string) : (s ++ t) ++ u = s ++ (t ++ u).
Proof. induction s as [|c s IH]; simpl; [reflexivity | now rewrite IH]. Qed.

Lemma startswith_iff (s p : string) :
  PyStr.startswith s p = true <-> exists post, s = p ++ post.
Proof.
  revert s. induction p as [|a p IH]; intros s; simpl.
  - split; [intros _; now exists s | reflexivity].
  - destruct s as [|b s].
    + split; [discriminate | intros [post H]; discriminate].
    + rewrite andb_true_iff, Ascii.eqb_eq, IH. split.
      * intros [-> [post ->]]. now exists post.
      * intros [post H]. injection H as -> ->. split; [reflexivity | now exists post].
Qed.

Lemma startswith_drop (s p : string) :
  PyStr.startswith s p = true -> s = p ++ PyStr.drop (String.length p) s.
Proof.
  revert s. induction p as [|a p IH]; intros s; simpl; [reflexivity|].
  destruct s as [|b s]; [discriminate|].
  rewrite andb_true_iff, Ascii.eqb_eq. intros [-> H]. f_equal. now apply IH.
Qed.

(** [pat in s] holds exactly when [s] splits around a copy of [pat]. *)
Lemma contains_iff (pat s : string) :
  PyStr.contains pat s = true <-> exists pre post, s = pre ++ pat ++ post.
Proof.
  induction s as [|c s IH].
  - simpl. rewrite orb_false_r, startswith_iff. split.
    + intros [post H]. now exists "", post.
    + intros [pre [post H]]. destruct pre; [now exists post | discriminate].
  - cbn [PyStr.contains]. rewrite orb_true_iff, startswith_iff, IH. split.
    + intros [[post H] | [pre [post H]]].
      * now exists "", post.
      * exists (String c pre), post. simpl. now rewrite H.
    + intros [pre [post H]]. destruct pre as [|a pre].
      * left. now exists post.
      * right. injection H as -> ->. now exists pre, post.
Qed.

Lemma partition_contains (pat s : string) :
  PyStr.contains pat s = true ->
  exists before after, PyStr.partition pat s = Some (before, after).
Proof.
  induction s as [|c s IH]; cbn [PyStr.contains PyStr.partition].
  - rewrite orb_false_r. intros ->. eauto.
  - destruct (PyStr.startswith (String c s) pat); [eauto|].
    simpl. intros H. destruct (IH H) as [b [a ->]]. eauto.
Qed.

Lemma partition_eq (pat s before after : string) :
  PyStr.partition pat s = Some (before, after) -> s = before ++ pat ++ after.
Proof.
  revert before. induction s as [|c s IH]; intros before; cbn [PyStr.partition].
  - destruct (PyStr.startswith "" pat) eqn:E; [|discriminate].
    intros [= <- <-]. now apply startswith_drop.
  - destruct (PyStr.startswith (String c s) pat) eqn:E.
    + intros [= <- <-]. now apply startswith_drop.
    + destruct (PyStr.partition pat s) as [[b a]|]; [|discriminate].
      intros [= <- <-]. simpl. f_equal. now apply IH.
Qed.

End StringFacts.

(** ** The meaningfulness filter and the eligibility gate *)

(** C6. [_has_meaningful_results passed failed error] is true exactly when
    one of the three counts is greater than zero. This holds for all
    integers, so in particular for the non-negative ones; it is false at
    (0,0,0) and true at (1,0,0), (0,1,0) and (0,0,1). *)
Theorem has_meaningful_results_iff :
  (forall passed failed error : Z,
      _has_meaningful_results passed failed error = true
      <-> (0 < passed \/ 0 < failed \/ 0 < error))
  /\ _has_meaningful_results 0 0 0 = false
  /\ _has_meaningful_results 1 0 0 = true
  /\ _has_meaningful_results 0 1 0 = true
  /\ _has_meaningful_results 0 0 1 = true.
Proof.
  split; [|repeat split].
  intros passed failed error. unfold _has_meaningful_results.
  rewrite !orb_true_iff, !Z.ltb_lt. tauto.
Qed.

Lemma not_meaningful_iff (passed failed error : Z) :
  _has_meaningful_results passed failed error = false
  <-> (passed <= 0 /\ failed <= 0 /\ error <= 0).
Proof.
  unfold _has_meaningful_results. rewrite !orb_false_iff, !Z.ltb_ge. tauto.
Qed.

Lemma fold_process_app (P : Parsers) (acc : PyDict.t TestSuiteResult)
    (before after : list Path) :
  fold_left (process_file P) (before ++ after) acc
  = fold_left (process_file P) after (fold_left (process_file P) before acc).
Proof. apply fold_left_app. Qed.

(** A file on which [process_file] changes nothing can be taken out of the
    list. *)
Lemma process_skip (P : Parsers) (file_path : Path) (before after : list Path) :
  (forall acc, process_file P acc file_path = acc) ->
  process_test_files_with P (before ++ file_path :: after)
  = process_test_files_with P (before ++ after).
Proof.
  intros H. unfold process_test_files_with.
  rewrite !fold_process_app. simpl. now rewrite H.
Qed.

Lemma ineligible_skipped (P : Parsers) (file_path : Path)
    (acc : PyDict.t TestSuiteResult) :
  _is_test_result_file file_path = false -> process_file P acc file_path = acc.
Proof. intros H. unfold process_file. now rewrite H. Qed.

(** C7. The gate accepts a path exactly when its lower-cased suffix is a
    supported format and its lower-cased file name contains one of the test
    patterns. [summary.xml] is refused, and a refused file leaves the
    orchestrator's output as it is without the file; [pytest_report.xml] is
    accepted. *)
Theorem is_test_result_file_iff :
  (forall file_path : Path,
      _is_test_result_file file_path = true
      <-> (In (PyStr.lower (path_suffix file_path))
              [".xml"; ".json"; ".html"; ".txt"; ".log"]
           /\ exists pattern pre post,
                In pattern ["test"; "result"; "report"; "junit"; "pytest";
                            "coverage"; "pytr"; "pytest-report"; "test-report";
                            "test_report"]
                /\ PyStr.lower (path_name file_path) = pre ++ pattern ++ post))
  /\ (forall dir, _is_test_result_file (mkPath dir "summary.xml") = false)
  /\ (forall P dir before after,
         process_test_files_with P (before ++ mkPath dir "summary.xml" :: after)
         = process_test_files_with P (before ++ after))
  /\ (forall dir, _is_test_result_file (mkPath dir "pytest_report.xml") = true).
Proof.
  split; [|split; [|split]].
  - intros file_path. unfold _is_test_result_file.
    change [".xml"; ".json"; ".html"; ".txt"; ".log"] with supported_formats.
    destruct (existsb _ supported_formats) eqn:Hext; cbn [negb].
    + rewrite existsb_exists. apply existsb_exists in Hext.
      destruct Hext as [x [Hin Hx]]. apply String.eqb_eq in Hx. subst x.
      split.
      * intros [pattern [Hp Hc]]. split; [exact Hin|].
        apply contains_iff in Hc. destruct Hc as [pre [post Hc]].
        now exists pattern, pre, post.
      * intros [_ [pattern [pre [post [Hp Hc]]]]]. exists pattern.
        split; [exact Hp|]. apply contains_iff. now exists pre, post.
    + split; [discriminate|]. intros [Hin _].
      assert (existsb (String.eqb (PyStr.lower (path_suffix file_path)))
                supported_formats = true) as E.
      { apply existsb_exists. eexists. split; [exact Hin|]. apply String.eqb_refl. }
      congruence.
  - reflexivity.
  - intros P dir before after. apply process_skip. intros acc.
    now apply ineligible_skipped.
  - reflexivity.
Qed.

(** ** Suite-name resolution *)

Lemma no_pattern_last_resort (artifact_name : string) :
  no_pattern artifact_name ->
  extract_suite_name_body artifact_name
  = Returns (cleaned (without_prefix artifact_name)).
Proof.
  intros [H1 H2]. unfold extract_suite_name_body, extract_from_report.
  now rewrite H1, H2.
Qed.

(** [cleaned] works character by character. *)
Lemma cleaned_chars (s : string) : cleaned s = concat_map clean_char s.
Proof.
  unfold cleaned. induction s as [|c s IH]; [reflexivity|].
  cbn [PyStr.replace concat_map]. unfold clean_char at 1.
  destruct (Ascii.eqb c " ") eqn:E1; [simpl; now rewrite IH|].
  cbn [PyStr.replace]. destruct (Ascii.eqb c ";") eqn:E2; [simpl; now rewrite IH|].
  cbn [PyStr.replace]. destruct (Ascii.eqb c "=") eqn:E3; simpl; now rewrite IH.
Qed.

Lemma in_append (c : ascii) (s t : string) :
  In c (list_ascii_of_string (s ++ t))
  <-> In c (list_ascii_of_string s) \/ In c (list_ascii_of_string t).
Proof.
  induction s as [|a s IH]; simpl; [tauto|]. rewrite IH. tauto.
Qed.

(** The characters of a cleaned string: those of the input that are not
    semicolons, with spaces and equals signs turned into underscores. *)
Lemma in_cleaned (c : ascii) (s : string) :
  In c (list_ascii_of_string (concat_map clean_char s))
  <-> exists a, In a (list_ascii_of_string s) /\ a <> ";"%char
                /\ c = (if Ascii.eqb a " " || Ascii.eqb a "=" then "_"%char else a).
Proof.
  induction s as [|b s IH].
  - simpl. split; [tauto | intros [a [[] _]]].
  - cbn [concat_map]. rewrite in_append, IH. clear IH. split.
    + intros [H | [a [Ha Hc]]].
      * exists b. split; [now left|]. unfold clean_char in H.
        destruct (Ascii.eqb b " ") eqn:E1.
        { apply Ascii.eqb_eq in E1. subst b. simpl in H.
          destruct H as [<- | []]. split; [discriminate | reflexivity]. }
        destruct (Ascii.eqb b ";") eqn:E2; [destruct H|].
        apply Ascii.eqb_neq in E2.
        destruct (Ascii.eqb b "=") eqn:E3; simpl in H; destruct H as [<- | []];
          split; auto.
      * exists a. split; [now right | exact Hc].
    + intros [a [[<- | Ha] [Hne Hc]]].
      * left. unfold clean_char. apply Ascii.eqb_neq in Hne. rewrite Hne.
        destruct (Ascii.eqb b " "); simpl in *; [now left|].
        destruct (Ascii.eqb b "="); simpl; now left.
      * right. exists a. auto.
Qed.

Lemma string_nonempty_in (s : string) :
  s <> "" <-> exists c, In c (list_ascii_of_string s).
Proof.
  destruct s as [|a s]; simpl.
  - split; [congruence | intros [c []]].
  - split; [intros _; exists a; now left | discriminate].
Qed.

(** C2, as the specification states it, fails: the empty name resolves to
    the empty string. *)
Lemma extract_suite_name_empty_counterexample :
  ~ (_extract_suite_name_from_artifact "" <> "").
Proof. intros H. apply H. reflexivity. Qed.

Section SelectedPart.

Local Open Scope string_scope.

Lemma partition_none (pat s : string) :
  PyStr.contains pat s = false -> PyStr.partition pat s = None.
Proof.
  induction s as [|c s IH]; cbn [PyStr.contains PyStr.partition].
  - rewrite orb_false_r. now intros ->.
  - intros H. apply orb_false_elim in H as [-> H]. now rewrite (IH H).
Qed.

(** The first piece of [s.split(sep)] is the text before the first [sep]. *)
Lemma split_from_partition (a : ascii) (sep s : string) :
  forall cur before after,
    PyStr.partition (String a sep) s = Some (before, after) ->
    exists rest,
      PyStr.split_from (String a sep) 0 cur s = (cur ++ before) :: rest.
Proof.
  induction s as [|c s IH]; intros cur before after.
  - cbn. discriminate.
  - cbn [PyStr.partition PyStr.split_from].
    destruct (PyStr.startswith (String c s) (String a sep)).
    + intros [= <- <-]. rewrite append_nil_r. eauto.
    + destruct (PyStr.partition (String a sep) s) as [[b' a']|] eqn:E;
        [|discriminate].
      intros [= <- <-]. destruct (IH (cur ++ String c "") b' a' eq_refl)
        as [rest ->].
      exists rest. now rewrite append_assoc.
Qed.

Lemma cut_job_attempt_eq (suite_part : string) :
  cut_job_attempt suite_part = Returns (before_job_attempt suite_part).
Proof.
  unfold cut_job_attempt, before_job_attempt.
  destruct (PyStr.contains "; JobAttempt=" suite_part) eqn:E.
  - destruct (partition_contains _ _ E) as [before [after Hp]]. rewrite Hp.
    unfold PyStr.split.
    destruct (split_from_partition _ _ _ "" _ _ Hp) as [rest ->].
    reflexivity.
  - now rewrite (partition_none _ _ E).
Qed.

Lemma before_job_attempt_prefix (suite_part : string) :
  exists post, suite_part = before_job_attempt suite_part ++ post.
Proof.
  unfold before_job_attempt.
  destruct (PyStr.partition "; JobAttempt=" suite_part) as [[before after]|]
    eqn:E.
  - apply partition_eq in E. eauto.
  - exists "". now rewrite append_nil_r.
Qed.

(** In the second pattern's branch the test for a leading ['BFT PyTest ']
    never holds: the first pattern would have matched. *)
Lemma second_pattern_no_marker (clean_name before after : string) :
  PyStr.contains "BFT PyTest " clean_name = false ->
  PyStr.partition "PyTest test_report=" clean_name = Some (before, after) ->
  PyStr.startswith (before_job_attempt after) "BFT PyTest " = false.
Proof.
  intros Hno Hp.
  destruct (PyStr.startswith (before_job_attempt after) "BFT PyTest ") eqn:E;
    [|reflexivity].
  apply startswith_iff in E as [post E].
  destruct (before_job_attempt_prefix after) as [post' Hafter].
  apply partition_eq in Hp. rewrite Hafter, E in Hp.
  assert (PyStr.contains "BFT PyTest " clean_name = true) as H; [|congruence].
  apply contains_iff.
  exists (before ++ "PyTest test_report="), (post ++ post').
  rewrite Hp, !append_assoc. reflexivity.
Qed.

(** What the [try] body returns, pattern by pattern. *)
Lemma extract_suite_name_body_eq (artifact_name : string) :
  extract_suite_name_body artifact_name
  = Returns match selected_part artifact_name with
            | Some suite_part => PyStr.strip suite_part
            | None => cleaned (without_prefix artifact_name)
            end.
Proof.
  unfold extract_suite_name_body, selected_part.
  destruct (PyStr.contains "BFT PyTest " (without_prefix artifact_name)) eqn:E1.
  - destruct (partition_contains _ _ E1) as [b [a Hp]].
    unfold PyStr.split1. rewrite Hp. cbn [List.length Nat.ltb Nat.leb index
      nth_error obind].
    now rewrite cut_job_attempt_eq.
  - rewrite (partition_none _ _ E1). unfold extract_from_report.
    destruct (PyStr.contains "PyTest test_report=" (without_prefix artifact_name))
      eqn:E2.
    + destruct (partition_contains _ _ E2) as [b [a Hp]].
      unfold PyStr.split1. rewrite Hp. cbn [List.length Nat.ltb Nat.leb index
        nth_error obind].
      rewrite cut_job_attempt_eq. cbn [obind].
      now rewrite (second_pattern_no_marker _ _ _ E1 Hp).
    + now rewrite (partition_none _ _ E2).
Qed.

Lemma selected_part_none (artifact_name : string) :
  selected_part artifact_name = None <-> no_pattern artifact_name.
Proof.
  unfold selected_part, no_pattern. split.
  - intros H. split.
    + destruct (PyStr.contains "BFT PyTest " _) eqn:E; [|reflexivity].
      destruct (partition_contains _ _ E) as [b [a Hp]].
      rewrite Hp in H. discriminate.
    + destruct (PyStr.partition "BFT PyTest " _) as [[b a]|]; [discriminate|].
      destruct (PyStr.contains "PyTest test_report=" _) eqn:E; [|reflexivity].
      destruct (partition_contains _ _ E) as [b [a Hp]].
      rewrite Hp in H. discriminate.
  - intros [H1 H2]. now rewrite (partition_none _ _ H1), (partition_none _ _ H2).
Qed.

(** What is left of a string once its surrounding whitespace is removed is
    not empty exactly when the string has a character that is no
    whitespace. *)
Lemma lstrip_nonempty (s : string) :
  PyStr.lstrip s <> ""
  <-> exists c, In c (list_ascii_of_string s) /\ PyStr.is_space c = false.
Proof.
  induction s as [|a s IH]; cbn [PyStr.lstrip list_ascii_of_string In].
  - split; [congruence | intros [c [[] _]]].
  - destruct (PyStr.is_space a) eqn:E.
    + rewrite IH. split.
      * intros [c [Hc Hs]]. exists c. auto.
      * intros [c [[<- | Hc] Hs]]; [congruence | eauto].
    + split; [intros _; exists a; auto | discriminate].
Qed.

Lemma rstrip_nonempty (s : string) :
  PyStr.rstrip s <> ""
  <-> exists c, In c (list_ascii_of_string s) /\ PyStr.is_space c = false.
Proof.
  induction s as [|a s IH]; cbn [PyStr.rstrip list_ascii_of_string In].
  - split; [congruence | intros [c [[] _]]].
  - destruct (PyStr.rstrip s) as [|d r] eqn:Er.
    + destruct (PyStr.is_space a) eqn:E.
      * split; [congruence|]. intros [c [[<- | Hc] Hs]]; [congruence|].
        exfalso. apply (proj2 IH); eauto.
      * split; [intros _; exists a; auto | discriminate].
    + split; [|discriminate]. intros _.
      destruct (proj1 IH) as [c [Hc Hs]]; [discriminate|]. exists c. auto.
Qed.

Lemma lstrip_chars (s : string) (c : ascii) :
  PyStr.is_space c = false ->
  (In c (list_ascii_of_string (PyStr.lstrip s))
   <-> In c (list_ascii_of_string s)).
Proof.
  intros Hc. induction s as [|a s IH]; cbn [PyStr.lstrip]; [tauto|].
  destruct (PyStr.is_space a) eqn:E; [|tauto].
  rewrite IH. cbn [list_ascii_of_string In]. split; [auto|].
  intros [<- | H]; [congruence | exact H].
Qed.

Lemma strip_nonempty (s : string) :
  PyStr.strip s <> ""
  <-> exists c, In c (list_ascii_of_string s) /\ PyStr.is_space c = false.
Proof.
  unfold PyStr.strip. rewrite rstrip_nonempty. split.
  - intros [c [Hc Hs]]. exists c. split; [|exact Hs].
    now apply (lstrip_chars s c Hs).
  - intros [c [Hc Hs]]. exists c. split; [|exact Hs].
    now apply (lstrip_chars s c Hs).
Qed.

End SelectedPart.

(** C2, amended. Suite-name resolution is total: for every string the
    [try] body returns without raising, and its value is the resolver's
    result. The result is not always non-empty. When a pattern occurs in
    the name, the result is the part the pattern selects with its
    surrounding whitespace removed, and it is non-empty exactly when that
    part has a character that is no whitespace. When no pattern occurs,
    the result is the cleaned name without its prefix, and it is non-empty
    exactly when that name has a character other than a semicolon. *)
Theorem extract_suite_name_total :
  forall artifact_name : string,
    exists r : string,
      extract_suite_name_body artifact_name = Returns r
      /\ _extract_suite_name_from_artifact artifact_name = r
      /\ (selected_part artifact_name = None <-> no_pattern artifact_name)
      /\ match selected_part artifact_name with
         | Some suite_part =>
             r = PyStr.strip suite_part
             /\ (r <> ""
                 <-> exists c, In c (list_ascii_of_string suite_part)
                               /\ PyStr.is_space c = false)
         | None =>
             r = cleaned (without_prefix artifact_name)
             /\ (r <> ""
                 <-> exists c,
                       In c (list_ascii_of_string (without_prefix artifact_name))
                       /\ c <> ";"%char)
         end.
Proof.
  intros artifact_name.
  pose proof (extract_suite_name_body_eq artifact_name) as Hr.
  eexists. split; [exact Hr|]. split.
  { unfold _extract_suite_name_from_artifact, extract_suite_name_with.
    now rewrite Hr. }
  split; [apply selected_part_none|].
  destruct (selected_part artifact_name) as [suite_part|].
  - split; [reflexivity | apply strip_nonempty].
  - split; [reflexivity|].
    rewrite cleaned_chars, string_nonempty_in. split.
    + intros [c Hc]. apply in_cleaned in Hc. destruct Hc as [a [Ha [Hne _]]].
      now exists a.
    + intros [a [Ha Hne]]. eexists. apply in_cleaned. exists a. eauto.
Qed.

(** The resolver on the names C2 mentions and on the docstring's. *)
Example extract_suite_name_examples :
  _extract_suite_name_from_artifact "artifacts_" = ""
  /\ _extract_suite_name_from_artifact "BFT PyTest " = ""
  /\ _extract_suite_name_from_artifact ";" = ""
  /\ _extract_suite_name_from_artifact "random name" = "random_name"
  /\ _extract_suite_name_from_artifact
       "PyTest test_report=BFT PyTest Cert_Test; JobAttempt=1" = "Cert_Test"
  /\ _extract_suite_name_from_artifact
       "artifacts_PyTest test_report=BFT PyTest Rest_ExtFlashDCINV_Test; JobAttempt=1"
     = "Rest_ExtFlashDCINV_Test".
Proof. repeat split. Qed.

(** C3, as the specification states it, fails: ["a=b"] matches no pattern
    and the resolver returns ["a_b"], where removing the equals sign gives
    ["ab"]. *)
Lemma fallback_equals_counterexample :
  no_pattern "a=b"
  /\ _extract_suite_name_from_artifact "a=b" = "a_b"
  /\ sanitize_as_specified (without_prefix "a=b") = "ab"
  /\ _extract_suite_name_from_artifact "a=b"
     <> sanitize_as_specified (without_prefix "a=b").
Proof. repeat split. discriminate. Qed.

(** C3, amended. When no pattern matches, the resolver returns the name
    without its prefix, each space and each equals sign replaced by an
    underscore and each semicolon removed; when the body raises, the same
    is done to the original name. Either way the result of the last resort
    has no equals sign, no space and no semicolon. *)
Theorem fallback_cleaning :
  (forall artifact_name : string,
      no_pattern artifact_name ->
      _extract_suite_name_from_artifact artifact_name
      = concat_map clean_char (without_prefix artifact_name))
  /\ (forall (body : string -> outcome string) (artifact_name : string) (e : exn),
         body artifact_name = Raises e ->
         extract_suite_name_with body artifact_name
         = concat_map clean_char artifact_name)
  /\ (forall (artifact_name : string) (c : ascii),
         no_pattern artifact_name ->
         In c (list_ascii_of_string (_extract_suite_name_from_artifact artifact_name)) ->
         c <> "="%char /\ c <> " "%char /\ c <> ";"%char).
Proof.
  assert (forall artifact_name : string,
             no_pattern artifact_name ->
             _extract_suite_name_from_artifact artifact_name
             = concat_map clean_char (without_prefix artifact_name)) as Hlast.
  { intros artifact_name Hno.
    unfold _extract_suite_name_from_artifact, extract_suite_name_with.
    rewrite (no_pattern_last_resort _ Hno). simpl. apply cleaned_chars. }
  split; [exact Hlast | split].
  - intros body artifact_name e Hraise. unfold extract_suite_name_with.
    rewrite Hraise. simpl. apply cleaned_chars.
  - intros artifact_name c Hno Hc. rewrite (Hlast _ Hno) in Hc.
    apply in_cleaned in Hc. destruct Hc as [a [_ [Hne ->]]].
    destruct (Ascii.eqb a " ") eqn:E1; simpl.
    { repeat split; discriminate. }
    destruct (Ascii.eqb a "=") eqn:E2.
    { repeat split; discriminate. }
    apply Ascii.eqb_neq in E1, E2. auto.
Qed.

(** The last resort on names with the three characters, by both routes. *)
Example fallback_cleaning_examples :
  _extract_suite_name_from_artifact "a=b; c" = "a_b_c"
  /\ _extract_suite_name_from_artifact "artifacts_run 7;x=1" = "run_7x_1"
  /\ extract_suite_name_with (fun _ => Raises TypeError) "artifacts_run 7;x=1"
     = "artifacts_run_7x_1".
Proof. repeat split. Qed.

(** ** The result merger *)

Section StoreFacts.

Lemma fresh_lookup (h : Store.heap) : h !! fresh (dom h) = None.
Proof. apply not_elem_of_dom, is_fresh. Qed.

Lemma suite_at_inv (h : Store.heap) (l : Store.loc) (r : TestSuiteResult) :
  Store.suite_at h l = Some r ->
  exists ts,
    h !! l = Some (Store.SuiteObject (sr_name r) (sr_total r) (sr_passed r)
                     (sr_failed r) (sr_skipped r) (sr_errors r)
                     (sr_duration r) ts)
    /\ h !! ts = Some (Store.ListObject (sr_tests r)).
Proof.
  unfold Store.suite_at. intros H.
  destruct (h !! l) as [[n t p f s e d ts|]|] eqn:E; try discriminate.
  destruct (h !! ts) as [[|xs]|] eqn:E'; try discriminate.
  injection H as <-. exists ts. simpl. auto.
Qed.

(** [suite_at] reads two addresses only. *)
Lemma suite_at_frame (h h' : Store.heap) (l : Store.loc) (r : TestSuiteResult) :
  (forall l, is_Some (h !! l) -> h' !! l = h !! l) ->
  Store.suite_at h l = Some r -> Store.suite_at h' l = Some r.
Proof.
  intros Hframe H. destruct (suite_at_inv _ _ _ H) as [ts [H1 H2]].
  unfold Store.suite_at.
  rewrite (Hframe l) by (rewrite H1; eauto). rewrite H1.
  rewrite (Hframe ts) by (rewrite H2; eauto). rewrite H2.
  now destruct r.
Qed.

Lemma bind_getattr {A B : Type}
    (f : string -> Z -> Z -> Z -> Z -> Z -> float -> Store.loc -> A)
    (l : Store.loc) (k : A -> Store.M B) (h : Store.heap) n t p fl s e d ts :
  h !! l = Some (Store.SuiteObject n t p fl s e d ts) ->
  Store.bind (Store.getattr f l) k h = k (f n t p fl s e d ts) h.
Proof. intros H. unfold Store.bind, Store.getattr. now rewrite H. Qed.

Lemma bind_setattr {B : Type} (upd : Store.object -> Store.object)
    (l : Store.loc) (k : unit -> Store.M B) (h : Store.heap) n t p fl s e d ts :
  h !! l = Some (Store.SuiteObject n t p fl s e d ts) ->
  Store.bind (Store.setattr upd l) k h
  = k tt (<[l := upd (Store.SuiteObject n t p fl s e d ts)]> h).
Proof. intros H. unfold Store.bind, Store.setattr. now rewrite H. Qed.

Lemma bind_alloc {B : Type} (o : Store.object) (k : Store.loc -> Store.M B)
    (h : Store.heap) :
  Store.bind (Store.alloc o) k h = k (fresh (dom h)) (<[fresh (dom h) := o]> h).
Proof. reflexivity. Qed.

Lemma bind_items {B : Type} (l : Store.loc) (k : list TestResult -> Store.M B)
    (h : Store.heap) (xs : list TestResult) :
  h !! l = Some (Store.ListObject xs) -> Store.bind (Store.items l) k h = k xs h.
Proof. intros H. unfold Store.bind, Store.items. now rewrite H. Qed.

Lemma bind_bind {A B C : Type} (m : Store.M A) (f : A -> Store.M B)
    (g : B -> Store.M C) (h : Store.heap) :
  Store.bind (Store.bind m f) g h = Store.bind m (fun x => Store.bind (f x) g) h.
Proof. unfold Store.bind. destruct (m h) as [[a h']|]; reflexivity. Qed.

Ltac lookup_old :=
  rewrite ?lookup_insert_ne by assumption; eassumption.

(** What the merger does on the store, when it is given two suite
    objects: a new suite object and two new lists are added, nothing
    else changes. *)
Lemma merge_on_store (h : Store.heap) (a b : Store.loc) (ra rb : TestSuiteResult) :
  Store.suite_at h a = Some ra ->
  Store.suite_at h b = Some rb ->
  exists (m : Store.loc) (h' : Store.heap),
    Store._merge_suite_results a b h = Returns (m, h')
    /\ h !! m = None
    /\ (forall l, is_Some (h !! l) -> h' !! l = h !! l)
    /\ Store.suite_at h' m = Some (_merge_suite_results ra rb).
Proof.
  intros Ha Hb.
  destruct (suite_at_inv _ _ _ Ha) as [tsa [Ha1 Ha2]].
  destruct (suite_at_inv _ _ _ Hb) as [tsb [Hb1 Hb2]].
  unfold Store._merge_suite_results, Store.get_name, Store.get_total,
    Store.get_passed, Store.get_failed, Store.get_skipped, Store.get_errors,
    Store.get_duration, Store.get_tests, Store.set_total, Store.set_passed,
    Store.set_failed, Store.set_skipped, Store.set_errors,
    Store.set_duration, Store.set_tests, Store.list_add.
  erewrite bind_getattr by eassumption.
  unfold Store.TestSuiteResult_init. rewrite bind_bind, !bind_alloc.
  set (l1 := fresh (dom h)).
  assert (h !! l1 = None) as F1 by apply fresh_lookup.
  set (l2 := fresh (dom (<[l1 := Store.ListObject []]> h))).
  assert ((<[l1 := Store.ListObject []]> h) !! l2 = None) as F2
      by apply fresh_lookup.
  assert (l1 <> l2) as N12.
  { intros E. rewrite <- E, lookup_insert_eq in F2. discriminate. }
  rewrite lookup_insert_ne in F2 by assumption.
  assert (forall l, is_Some (h !! l) -> l1 <> l /\ l2 <> l) as N.
  { intros l [x Hx]. split; intros <-; congruence. }
  destruct (N a) as [Na1 Na2]; [eauto|]. destruct (N b) as [Nb1 Nb2]; [eauto|].
  destruct (N tsa) as [Nta1 Nta2]; [eauto|].
  destruct (N tsb) as [Ntb1 Ntb2]; [eauto|].
  repeat
    (erewrite (bind_getattr _ a) by lookup_old;
     erewrite (bind_getattr _ b) by lookup_old;
     erewrite (bind_setattr _ l2) by (apply lookup_insert_eq);
     rewrite insert_insert_eq; cbn beta iota).
  erewrite (bind_getattr _ a) by lookup_old.
  erewrite (bind_getattr _ b) by lookup_old.
  rewrite bind_bind. erewrite bind_items by lookup_old.
  rewrite bind_bind. erewrite bind_items by lookup_old.
  rewrite bind_alloc.
  match goal with |- context [fresh (dom ?hh)] =>
    set (l3 := fresh (dom hh));
    assert (hh !! l3 = None) as F3 by apply fresh_lookup
  end.
  assert (l2 <> l3) as N23.
  { intros E. rewrite <- E, lookup_insert_eq in F3. discriminate. }
  rewrite lookup_insert_ne in F3 by assumption.
  assert (l1 <> l3) as N13.
  { intros E. rewrite <- E, lookup_insert_eq in F3. discriminate. }
  rewrite lookup_insert_ne in F3 by assumption.
  erewrite (bind_setattr _ l2)
    by (rewrite lookup_insert_ne by (apply not_eq_sym; assumption);
        apply lookup_insert_eq).
  cbn beta iota. unfold Store.ret.
  eexists _, _. split; [reflexivity|]. split; [exact F2|]. split.
  - intros l Hl. destruct (N l Hl) as [Nl1 Nl2].
    assert (l3 <> l) as Nl3. { destruct Hl as [x Hx]. intros <-. congruence. }
    now rewrite !lookup_insert_ne by assumption.
  - unfold Store.suite_at. rewrite lookup_insert_eq.
    rewrite lookup_insert_ne by assumption. rewrite lookup_insert_eq.
    reflexivity.
Qed.

End StoreFacts.

(** C1. For two suite records [a] and [b] in the store, the merger returns
    a new record: its name is [a]'s, each of total, passed, failed, skipped,
    errors and duration is the sum of the two inputs' fields, and its tests
    are [a]'s tests followed by [b]'s, nothing removed. Every object that
    was in the store is unchanged; in particular the two inputs read as
    before. *)
Theorem merge_suite_results_sums
    (h : Store.heap) (a b : Store.loc) (ra rb : TestSuiteResult) :
  Store.suite_at h a = Some ra ->
  Store.suite_at h b = Some rb ->
  exists (m : Store.loc) (h' : Store.heap) (merged : TestSuiteResult),
    Store._merge_suite_results a b h = Returns (m, h')
    /\ h !! m = None
    /\ Store.suite_at h' m = Some merged
    /\ merged = _merge_suite_results ra rb
    /\ sr_name merged = sr_name ra
    /\ sr_total merged = sr_total ra + sr_total rb
    /\ sr_passed merged = sr_passed ra + sr_passed rb
    /\ sr_failed merged = sr_failed ra + sr_failed rb
    /\ sr_skipped merged = sr_skipped ra + sr_skipped rb
    /\ sr_errors merged = sr_errors ra + sr_errors rb
    /\ sr_duration merged = (sr_duration ra + sr_duration rb)%float
    /\ sr_tests merged = (sr_tests ra ++ sr_tests rb)%list
    /\ (forall l, is_Some (h !! l) -> h' !! l = h !! l)
    /\ Store.suite_at h' a = Some ra
    /\ Store.suite_at h' b = Some rb.
Proof.
  intros Ha Hb.
  destruct (merge_on_store h a b ra rb Ha Hb) as [m [h' [Hrun [Hnew [Hframe Hm]]]]].
  exists m, h', (_merge_suite_results ra rb).
  repeat (split; [first [assumption | reflexivity]|]).
  split; eapply suite_at_frame; eassumption.
Qed.

(** Merging is not symmetric in the tests, and keeps tests of the same
    name from both sides. *)
Example merge_tests_order :
  let t1 := mkTestResult "t" "passed" 0 None None None in
  let t2 := mkTestResult "t" "failed" 0 None None None in
  let a := mkTestSuiteResult "s" 1 1 0 0 0 1.5 [t1] in
  let b := mkTestSuiteResult "s" 1 0 1 0 0 2 [t2] in
  sr_tests (_merge_suite_results a b) = [t1; t2]
  /\ sr_tests (_merge_suite_results b a) = [t2; t1]
  /\ sr_duration (_merge_suite_results a b) = 3.5%float
  /\ sr_total (_merge_suite_results a b) = 2.
Proof. repeat split. Qed.

Lemma merge_suite_results_sums_witness :
  exists (m : Store.loc) (h' : Store.heap) (merged : TestSuiteResult),
    Store._merge_suite_results 1%positive 3%positive two_suites = Returns (m, h')
    /\ two_suites !! m = None
    /\ Store.suite_at h' m = Some merged
    /\ merged
       = _merge_suite_results
           (mkTestSuiteResult "s" 1 1 0 0 0 1.5
              [mkTestResult "t" "passed" 1.5 None None (Some "s")])
           (mkTestSuiteResult "s" 1 0 1 0 0 2
              [mkTestResult "t" "failed" 2 None None (Some "s")])
    /\ sr_name merged = "s"
    /\ sr_total merged = 1 + 1
    /\ sr_passed merged = 1 + 0
    /\ sr_failed merged = 0 + 1
    /\ sr_skipped merged = 0 + 0
    /\ sr_errors merged = 0 + 0
    /\ sr_duration merged = (1.5 + 2)%float
    /\ sr_tests merged
       = ([mkTestResult "t" "passed" 1.5 None None (Some "s")]
          ++ [mkTestResult "t" "failed" 2 None None (Some "s")])%list
    /\ (forall l, is_Some (two_suites !! l) -> h' !! l = two_suites !! l)
    /\ Store.suite_at h' 1%positive
       = Some (mkTestSuiteResult "s" 1 1 0 0 0 1.5
                 [mkTestResult "t" "passed" 1.5 None None (Some "s")])
    /\ Store.suite_at h' 3%positive
       = Some (mkTestSuiteResult "s" 1 0 1 0 0 2
                 [mkTestResult "t" "failed" 2 None None (Some "s")]).
Proof.
  exact (merge_suite_results_sums two_suites 1%positive 3%positive
           (mkTestSuiteResult "s" 1 1 0 0 0 1.5
              [mkTestResult "t" "passed" 1.5 None None (Some "s")])
           (mkTestSuiteResult "s" 1 0 1 0 0 2
              [mkTestResult "t" "failed" 2 None None (Some "s")])
           eq_refl eq_refl).
Defined.

(** ** Dictionaries *)

Section DictFacts.

Context {V : Type}.

Lemma get_set_eq (k : string) (v : V) (d : PyDict.t V) :
  PyDict.get k (PyDict.set k v d) = Some v.
Proof.
  induction d as [|[k' v'] d IH]; simpl.
  - now rewrite String.eqb_refl.
  - destruct (String.eqb k k') eqn:E; simpl; rewrite E; [reflexivity | exact IH].
Qed.

Lemma get_set_ne (k k' : string) (v : V) (d : PyDict.t V) :
  k <> k' -> PyDict.get k' (PyDict.set k v d) = PyDict.get k' d.
Proof.
  intros Hne. induction d as [|[k0 v0] d IH]; simpl.
  - apply not_eq_sym, String.eqb_neq in Hne. now rewrite Hne.
  - destruct (String.eqb k k0) eqn:E; simpl.
    + apply String.eqb_eq in E. subst k0.
      apply not_eq_sym, String.eqb_neq in Hne. now rewrite Hne.
    + now rewrite IH.
Qed.

Lemma get_set (k k' : string) (v : V) (d : PyDict.t V) :
  PyDict.get k' (PyDict.set k v d)
  = if String.eqb k k' then Some v else PyDict.get k' d.
Proof.
  destruct (String.eqb k k') eqn:E.
  - apply String.eqb_eq in E. subst. apply get_set_eq.
  - apply String.eqb_neq in E. now apply get_set_ne.
Qed.

Lemma get_none_keys (k : string) (d : PyDict.t V) :
  PyDict.get k d = None <-> ~ In k (PyDict.keys d).
Proof.
  induction d as [|[k' v'] d IH]; simpl; [tauto|].
  destruct (String.eqb k k') eqn:E.
  - apply String.eqb_eq in E. subst. split; [discriminate | tauto].
  - apply String.eqb_neq in E. rewrite IH. split; [intros H [H'|H']; congruence | tauto].
Qed.

(** Assignment keeps the keys in their order and adds a new key last. *)
Lemma set_keys (k : string) (v : V) (d : PyDict.t V) :
  PyDict.keys (PyDict.set k v d)
  = match PyDict.get k d with
    | Some _ => PyDict.keys d
    | None => (PyDict.keys d ++ [k])%list
    end.
Proof.
  induction d as [|[k' v'] d IH]; simpl; [reflexivity|].
  destruct (String.eqb k k') eqn:E; simpl; [reflexivity|].
  rewrite IH. now destruct (PyDict.get k d).
Qed.

(** Assignment never repeats a key. *)
Lemma set_keys_nodup (k : string) (v : V) (d : PyDict.t V) :
  NoDup (PyDict.keys d) -> NoDup (PyDict.keys (PyDict.set k v d)).
Proof.
  intros H. rewrite set_keys. destruct (PyDict.get k d) eqn:E; [exact H|].
  apply get_none_keys in E. apply NoDup_app. split; [exact H|].
  split; [|apply NoDup_singleton].
  intros x Hx Hx'. apply list_elem_of_singleton in Hx'. subst x.
  apply E. now apply list_elem_of_In.
Qed.

End DictFacts.

(** ** The JUnit-XML parser *)

Section JUnitFacts.

Variable env : Env.

(** A suite element whose attributes convert: the iteration is decided by
    the derived passed count. *)
Lemma parse_suite_elem_eq (file_path : Path) (results : PyDict.t TestSuiteResult)
    (suite_elem : Element) (t f e s : Z) (d : float) :
  counters_read env suite_elem t f e s d ->
  parse_suite_elem env file_path results suite_elem
  = if _has_meaningful_results (t - f - e - s) f e
    then
      let* tests := parse_testcases env (junit_suite_name file_path suite_elem) []
                      (findall "testcase" suite_elem) in
      Returns
        (PyDict.set (junit_suite_name file_path suite_elem)
           {| sr_name := junit_suite_name file_path suite_elem;
              sr_total := t; sr_passed := t - f - e - s; sr_failed := f;
              sr_skipped := s; sr_errors := e; sr_duration := d;
              sr_tests := tests |}
           results)
    else Returns results.
Proof.
  intros (Ht & Hf & He & Hs & Hd). unfold parse_suite_elem.
  rewrite Ht, Hf, He, Hs, Hd. cbn [obind]. cbn.
  destruct (_has_meaningful_results (t - f - e - s) f e); reflexivity.
Qed.

Lemma all_skipped_dropped (file_path : Path) (results : PyDict.t TestSuiteResult)
    (suite_elem : Element) :
  all_skipped env suite_elem ->
  parse_suite_elem env file_path results suite_elem = Returns results.
Proof.
  intros (t & f & e & s & d & Hread & Hp & -> & ->).
  rewrite (parse_suite_elem_eq _ _ _ _ _ _ _ _ Hread). now rewrite Hp.
Qed.

Lemma parse_suite_elems_app (file_path : Path) (results : PyDict.t TestSuiteResult)
    (before after : list Element) :
  parse_suite_elems env file_path results (before ++ after)
  = let* results := parse_suite_elems env file_path results before in
    parse_suite_elems env file_path results after.
Proof.
  revert results. induction before as [|x before IH]; intros results; simpl.
  - reflexivity.
  - destruct (parse_suite_elem env file_path results x); simpl; [apply IH | reflexivity].
Qed.

Lemma all_skipped_file (file_path : Path) (results : PyDict.t TestSuiteResult)
    (suites : list Element) :
  Forall (all_skipped env) suites ->
  parse_suite_elems env file_path results suites = Returns results.
Proof.
  induction 1 as [|x suites Hx _ IH]; simpl; [reflexivity|].
  now rewrite (all_skipped_dropped _ _ _ Hx).
Qed.

(** Every record the XML parser stores passed the filter. *)
Lemma parse_suite_elem_meaningful (file_path : Path)
    (results results' : PyDict.t TestSuiteResult) (suite_elem : Element) :
  all_meaningful results ->
  parse_suite_elem env file_path results suite_elem = Returns results' ->
  all_meaningful results'.
Proof.
  intros Hall. unfold parse_suite_elem.
  destruct (int_attr suite_elem "tests") as [t|]; [|discriminate].
  destruct (int_attr suite_elem "failures") as [f|]; [|discriminate].
  destruct (int_attr suite_elem "errors") as [e|]; [|discriminate].
  destruct (int_attr suite_elem "skipped") as [s|]; [|discriminate].
  destruct (float_attr env suite_elem "time") as [d|]; [|discriminate].
  cbn.
  destruct (_has_meaningful_results (t - f - e - s) f e) eqn:M; cbn.
  - destruct (parse_testcases _ _ _ _) as [tests|]; [|discriminate].
    cbn. intros [= <-]. intros k r. rewrite get_set.
    destruct (String.eqb _ k); [|apply Hall]. intros [= <-]. exact M.
  - now intros [= <-].
Qed.

Lemma parse_suite_elems_meaningful (file_path : Path) (suites : list Element) :
  forall results results' : PyDict.t TestSuiteResult,
    all_meaningful results ->
    parse_suite_elems env file_path results suites = Returns results' ->
    all_meaningful results'.
Proof.
  induction suites as [|x suites IH]; intros results results' Hall; simpl.
  - now intros [= <-].
  - destruct (parse_suite_elem env file_path results x) as [r1|] eqn:E;
      [|discriminate].
    simpl. apply IH. eapply parse_suite_elem_meaningful; eassumption.
Qed.

Lemma parse_junit_xml_meaningful (file_path : Path)
    (results : PyDict.t TestSuiteResult) :
  _parse_junit_xml env file_path = Returns results -> all_meaningful results.
Proof.
  unfold _parse_junit_xml.
  destruct (et_parse env file_path) as [root|ex].
  - apply parse_suite_elems_meaningful. intros k r. discriminate.
  - destruct ex; try discriminate. intros [= <-]. intros k r. discriminate.
Qed.

End JUnitFacts.

(** C4. For a suite element whose counter attributes convert to [t], [f],
    [e], [s], the parser's record has passed = t - f - e - s as an integer,
    with no clamping (so it is negative when the attributes make it so),
    total, failed, errors and skipped as read; the record is stored under
    the suite name when it passes the filter, and dropped otherwise. The
    element with tests="5" failures="1" errors="0" skipped="1" is the
    witness: passed is 3. *)
Theorem junit_passed_is_derived
    (env : Env) (file_path : Path) (results : PyDict.t TestSuiteResult)
    (suite_elem : Element) (t f e s : Z) (d : float) (tests : list TestResult) :
  counters_read env suite_elem t f e s d ->
  parse_testcases env (junit_suite_name file_path suite_elem) []
    (findall "testcase" suite_elem) = Returns tests ->
  exists r : TestSuiteResult,
    sr_passed r = t - f - e - s
    /\ sr_total r = t /\ sr_failed r = f /\ sr_errors r = e /\ sr_skipped r = s
    /\ sr_duration r = d /\ sr_tests r = tests
    /\ parse_suite_elem env file_path results suite_elem
       = Returns
           (if _has_meaningful_results (sr_passed r) (sr_failed r) (sr_errors r)
            then PyDict.set (junit_suite_name file_path suite_elem) r results
            else results)
    /\ PyDict.get (junit_suite_name file_path suite_elem)
         (PyDict.set (junit_suite_name file_path suite_elem) r results)
       = Some r.
Proof.
  intros Hread Htests.
  exists {| sr_name := junit_suite_name file_path suite_elem;
            sr_total := t; sr_passed := t - f - e - s; sr_failed := f;
            sr_skipped := s; sr_errors := e; sr_duration := d;
            sr_tests := tests |}.
  repeat (split; [reflexivity|]). split; [|apply get_set_eq].
  rewrite (parse_suite_elem_eq _ _ _ _ _ _ _ _ _ Hread), Htests. cbn.
  now destruct (_has_meaningful_results _ _ _).
Qed.

Lemma junit_passed_is_derived_witness :
  exists r : TestSuiteResult,
    sr_passed r = 3
    /\ sr_total r = 5 /\ sr_failed r = 1 /\ sr_errors r = 0 /\ sr_skipped r = 1
    /\ sr_duration r = 0%float /\ sr_tests r = []
    /\ parse_suite_elem example_env (mkPath "run" "junit.xml") PyDict.empty
         (suite_with "suiteB" "5" "1" "0" "1")
       = Returns
           (if _has_meaningful_results (sr_passed r) (sr_failed r) (sr_errors r)
            then PyDict.set "suiteB" r PyDict.empty
            else PyDict.empty)
    /\ PyDict.get "suiteB" (PyDict.set "suiteB" r PyDict.empty) = Some r.
Proof.
  exact (junit_passed_is_derived example_env (mkPath "run" "junit.xml")
           PyDict.empty (suite_with "suiteB" "5" "1" "0" "1") 5 1 0 1 0%float []
           (conj eq_refl (conj eq_refl (conj eq_refl (conj eq_refl eq_refl))))
           eq_refl).
Defined.

(** The derived count is kept when it is negative, and the file of the
    specification's example gives passed = 3 through the whole parser. *)
Example junit_passed_examples :
  parse_suite_elem example_env (mkPath "run" "junit.xml") PyDict.empty
    (suite_with "odd" "1" "3" "0" "0")
  = Returns [("odd", mkTestSuiteResult "odd" 1 (-2) 3 0 0 0 [])]
  /\ _parse_junit_xml example_env (mkPath "run" "junit.xml")
     = Returns [("suiteB", mkTestSuiteResult "suiteB" 5 3 1 1 0 0 [])].
Proof. split; reflexivity. Qed.

Lemma merge_results_empty (test_results : PyDict.t TestSuiteResult) :
  merge_results test_results PyDict.empty = test_results.
Proof. reflexivity. Qed.

Lemma process_file_empty (P : Parsers) (acc : PyDict.t TestSuiteResult)
    (file_path : Path) :
  dispatch P file_path = Some (Returns PyDict.empty) ->
  process_file P acc file_path = acc.
Proof.
  intros H. unfold process_file. rewrite H.
  now destruct (_is_test_result_file file_path).
Qed.

(** C5. A suite element whose derived passed count, failures and errors
    are all zero leaves the parser's results as they were: the per-file
    output is the same as without the element, and an XML file whose suite
    elements are all of this kind yields the empty map and leaves the
    orchestrator's output as it is without the file. *)
Theorem all_skipped_suite_excluded (env : Env) (suite_elem : Element) :
  all_skipped env suite_elem ->
  (forall file_path results,
      parse_suite_elem env file_path results suite_elem = Returns results)
  /\ (forall file_path results before after,
         parse_suite_elems env file_path results (before ++ suite_elem :: after)
         = parse_suite_elems env file_path results (before ++ after))
  /\ (forall file_path root,
         et_parse env file_path = Returns root ->
         In suite_elem (suite_elements root) ->
         Forall (all_skipped env) (suite_elements root) ->
         _parse_junit_xml env file_path = Returns PyDict.empty
         /\ (PyStr.lower (path_suffix file_path) = ".xml" ->
             forall before after,
               process_test_files env (before ++ file_path :: after)
               = process_test_files env (before ++ after))).
Proof.
  intros Hskip. split; [|split].
  - intros file_path results. now apply all_skipped_dropped.
  - intros file_path results before after.
    rewrite !parse_suite_elems_app. simpl.
    destruct (parse_suite_elems env file_path results before) as [r|]; simpl;
      [|reflexivity].
    now rewrite (all_skipped_dropped env file_path r suite_elem Hskip).
  - intros file_path root Hroot _ Hall.
    assert (_parse_junit_xml env file_path = Returns PyDict.empty) as Hempty.
    { unfold _parse_junit_xml. rewrite Hroot. now apply all_skipped_file. }
    split; [exact Hempty|]. intros Hxml before after.
    apply process_skip. intros acc. apply process_file_empty.
    unfold dispatch. rewrite Hxml. simpl. now rewrite Hempty.
Qed.

Lemma all_skipped_suite_excluded_witness :
  (forall file_path results,
      parse_suite_elem example_env file_path results
        (suite_with "suiteA" "3" "0" "0" "3") = Returns results)
  /\ (forall file_path results before after,
         parse_suite_elems example_env file_path results
           (before ++ suite_with "suiteA" "3" "0" "0" "3" :: after)
         = parse_suite_elems example_env file_path results (before ++ after))
  /\ (forall file_path root,
         et_parse example_env file_path = Returns root ->
         In (suite_with "suiteA" "3" "0" "0" "3") (suite_elements root) ->
         Forall (all_skipped example_env) (suite_elements root) ->
         _parse_junit_xml example_env file_path = Returns PyDict.empty
         /\ (PyStr.lower (path_suffix file_path) = ".xml" ->
             forall before after,
               process_test_files example_env (before ++ file_path :: after)
               = process_test_files example_env (before ++ after))).
Proof.
  exact (all_skipped_suite_excluded example_env
           (suite_with "suiteA" "3" "0" "0" "3")
           (ex_intro _ 3 (ex_intro _ 0 (ex_intro _ 0 (ex_intro _ 3
              (ex_intro _ 0%float
                 (conj (conj eq_refl (conj eq_refl (conj eq_refl
                                                      (conj eq_refl eq_refl))))
                       (conj eq_refl (conj eq_refl eq_refl))))))))).
Defined.

(** The all-skipped file of the specification, through the orchestrator:
    alone it gives the empty map, and next to another report it adds
    nothing. *)
Example all_skipped_examples :
  process_test_files example_env [mkPath "run" "pytest_report.xml"] = PyDict.empty
  /\ process_test_files example_env
       [mkPath "run" "pytest_report.xml"; mkPath "run" "junit.xml"]
     = [("suiteB", mkTestSuiteResult "suiteB" 5 3 1 1 0 0 [])].
Proof. split; reflexivity. Qed.

(** ** The text parser *)

Section TextFacts.

Lemma span_digits_all (s d r : string) :
  PyStr.span_digits s = (d, r) -> all_digits d = true.
Proof.
  revert d r. induction s as [|c s IH]; intros d r; simpl.
  - now intros [= <- <-].
  - destruct (PyStr.is_digit c) eqn:E.
    + destruct (PyStr.span_digits s) as [d' r'].
      intros [= <- <-]. simpl. rewrite E. now apply (IH d' r').
    + now intros [= <- <-].
Qed.

Lemma search_count_digits (word s d : string) :
  Re.search_count word s = Some d -> d <> "" /\ all_digits d = true.
Proof.
  assert (forall s, Re.match_count word s = Some d ->
                    d <> "" /\ all_digits d = true) as Hmatch.
  { intros s0. unfold Re.match_count.
    destruct (PyStr.span_digits s0) as [d0 r0] eqn:E.
    destruct d0 as [|c d0]; [discriminate|].
    destruct (PyStr.startswith r0 _); [|discriminate].
    intros [= <-]. split; [discriminate | now apply (span_digits_all _ _ _ E)]. }
  induction s as [|c s IH]; cbn [Re.search_count].
  - destruct (Re.match_count word "") eqn:E; [|discriminate].
    intros [= ->]. now apply (Hmatch "").
  - destruct (Re.match_count word (String c s)) eqn:E.
    + intros [= ->]. now apply (Hmatch (String c s)).
    + exact IH.
Qed.

Lemma digit_not_int_space (c : ascii) :
  PyStr.is_digit c = true -> PyStr.is_int_space c = false.
Proof.
  unfold PyStr.is_digit, PyStr.is_int_space.
  rewrite andb_true_iff, !Nat.leb_le. intros [H1 H2].
  repeat (apply orb_false_iff; split);
    first [apply andb_false_iff; right; apply Nat.leb_gt; lia
          | apply Nat.eqb_neq; lia].
Qed.

Lemma int_rstrip_digits (d : string) :
  all_digits d = true -> PyStr.int_rstrip d = d.
Proof.
  induction d as [|c d IH]; simpl; [reflexivity|].
  rewrite andb_true_iff. intros [Hc Hd]. rewrite (IH Hd).
  destruct d; [|reflexivity]. now rewrite (digit_not_int_space _ Hc).
Qed.

Lemma int_strip_digits (d : string) :
  all_digits d = true -> PyStr.int_rstrip (PyStr.int_lstrip d) = d.
Proof.
  intros H.
  assert (PyStr.int_lstrip d = d) as ->; [|now apply int_rstrip_digits].
  destruct d as [|c d]; [reflexivity|]. simpl in *.
  apply andb_true_iff in H. destruct H as [Hc _].
  now rewrite (digit_not_int_space _ Hc).
Qed.

Lemma count_digits_all (d : string) :
  all_digits d = true -> PyStr.count_digits d = String.length d.
Proof.
  induction d as [|c d IH]; simpl; [reflexivity|].
  rewrite andb_true_iff. intros [-> Hd]. now rewrite IH.
Qed.

Lemma digit_value_nonneg (c : ascii) : PyStr.is_digit c = true -> 0 <= PyStr.digit_value c.
Proof.
  unfold PyStr.is_digit, PyStr.digit_value.
  rewrite andb_true_iff, !Nat.leb_le. lia.
Qed.

Lemma int_digits_all (d : string) :
  forall (acc : Z) (after_digit : bool),
    all_digits d = true -> 0 <= acc -> (d <> "" \/ after_digit = true) ->
    exists v, PyStr.int_digits acc after_digit d = Some v /\ 0 <= v.
Proof.
  induction d as [|c d IH]; intros acc after_digit Hall Hacc Hne; simpl.
  - destruct Hne as [Hne | ->]; [congruence | eauto].
  - simpl in Hall. apply andb_true_iff in Hall. destruct Hall as [Hc Hd].
    rewrite Hc. apply IH; [exact Hd | | now right].
    pose proof (digit_value_nonneg _ Hc). lia.
Qed.

(** A sign is not a digit, so [int] reads a run of digits as it stands. *)
Lemma sign_of_digits (c : ascii) (d : string) :
  PyStr.is_digit c = true ->
  match String c d with
  | String "-" r => (true, r)
  | String "+" r => (false, r)
  | _ => (false, String c d)
  end = (false, String c d).
Proof.
  intros H.
  destruct c as [[] [] [] [] [] [] [] []];
    first [reflexivity | vm_compute in H; discriminate].
Qed.

(** On a run of digits [int] gives the number the digits stand for, unless
    the run is longer than the interpreter's cap. *)
Lemma int_of_digits (d : string) :
  d <> "" -> all_digits d = true ->
  PyStr.int d
  = (if match_short (Some d) then Returns (match_value (Some d))
     else Raises ValueError)
  /\ 0 <= match_value (Some d).
Proof.
  intros Hne Hall. unfold PyStr.int. rewrite (int_strip_digits _ Hall).
  destruct d as [|c d]; [congruence|].
  assert (PyStr.is_digit c = true) as Hc.
  { simpl in Hall. now apply andb_true_iff in Hall. }
  rewrite (sign_of_digits c d Hc).
  destruct (int_digits_all (String c d) 0 false Hall) as [v [Hv Hpos]];
    [lia | now left |].
  rewrite (count_digits_all _ Hall). cbn [match_short match_value].
  rewrite Hv. split; [|exact Hpos].
  rewrite Nat.ltb_antisym. now destruct (_ <=? _)%nat.
Qed.

(** What [int] makes of what a count pattern captured. *)
Lemma count_of_search (word content : string) (current : Z) (m : option string) :
  Re.search_count word content = m ->
  count_of m current
  = (if match_short m
     then Returns (match m with Some _ => match_value m | None => current end)
     else Raises ValueError)
  /\ 0 <= match_value m.
Proof.
  intros H. destruct m as [d|]; [|split; [reflexivity | cbn; lia]].
  destruct (search_count_digits _ _ _ H) as [Hne Hall].
  cbn [count_of]. now apply int_of_digits.
Qed.

Lemma fold_failed_tests (suite_name : string) (names : list string) :
  forall suite_result : TestSuiteResult,
    fold_left
      (fun suite_result test_name =>
         with_tests (sr_tests suite_result ++ [failed_test suite_name test_name])
           suite_result)
      names suite_result
    = with_tests (sr_tests suite_result ++ map (failed_test suite_name) names)
        suite_result.
Proof.
  induction names as [|n names IH]; intros suite_result; simpl.
  - rewrite app_nil_r. now destruct suite_result.
  - rewrite IH. simpl. now rewrite <- app_assoc.
Qed.

(** The record the text parser builds: the counters are the numbers of the
    four count patterns' first matches and nothing else, the tests are the
    [FAILED] lines; a first match that [int] does not convert makes the
    assignment raise. *)
Lemma text_suite_result_eq (suite_name content : string) :
  text_suite_result suite_name content
  = if counts_short content then Returns (text_record suite_name content)
    else Raises ValueError.
Proof.
  unfold text_suite_result, counts_short, text_record.
  rewrite fold_failed_tests. cbn [new_suite sr_tests app].
  destruct (count_of_search "passed" content 0 _ eq_refl) as [Hp _].
  destruct (count_of_search "failed" content 0 _ eq_refl) as [Hf _].
  destruct (count_of_search "skipped" content 0 _ eq_refl) as [Hs _].
  destruct (count_of_search "error" content 0 _ eq_refl) as [He _].
  cbn. rewrite Hp.
  destruct (match_short (Re.search_count "passed" content)); [|reflexivity].
  cbn. rewrite Hf.
  destruct (match_short (Re.search_count "failed" content)); [|reflexivity].
  cbn. rewrite Hs.
  destruct (match_short (Re.search_count "skipped" content)); [|reflexivity].
  cbn. rewrite He.
  destruct (match_short (Re.search_count "error" content)); [|reflexivity].
  cbn.
  destruct (Re.search_count "passed" content),
    (Re.search_count "failed" content),
    (Re.search_count "skipped" content),
    (Re.search_count "error" content); reflexivity.
Qed.

(** A record that is returned is the record of the content. *)
Lemma text_suite_result_returns (suite_name content : string)
    (r : TestSuiteResult) :
  text_suite_result suite_name content = Returns r ->
  counts_short content = true /\ r = text_record suite_name content.
Proof.
  rewrite text_suite_result_eq. destruct (counts_short content);
    [intros [= <-]; auto | discriminate].
Qed.

End TextFacts.

Lemma parse_text_report_eq (env : Env) (file_path : Path) (content : string)
    (r : TestSuiteResult) :
  read_text env file_path = Returns content ->
  text_suite_result (path_stem file_path) content = Returns r ->
  _parse_text_report env file_path
  = if 0 <? sr_total r then [(path_stem file_path, r)] else [].
Proof.
  intros Hread Hr. unfold _parse_text_report. rewrite Hread. cbn [obind].
  rewrite Hr. cbn [obind]. now destruct (0 <? sr_total r).
Qed.

Lemma parse_json_report_meaningful (env : Env) (file_path : Path)
    (results : PyDict.t TestSuiteResult) :
  _parse_json_report env file_path = Returns results -> all_meaningful results.
Proof.
  assert (all_meaningful (@PyDict.empty TestSuiteResult)) as Hempty
      by (intros k r; discriminate).
  assert (forall name r,
             _has_meaningful_results (sr_passed r) (sr_failed r) (sr_errors r) = true ->
             all_meaningful (PyDict.set name r PyDict.empty)) as Hone.
  { intros name r M k r'. simpl. destruct (String.eqb k name); [|discriminate].
    now intros [= <-]. }
  unfold _parse_json_report.
  destruct (json_load env file_path) as [[tests d|t p f s e d| |a]|ex].
  - match goal with |- context [_has_meaningful_results ?a ?b ?c] =>
      destruct (_has_meaningful_results a b c) eqn:M end;
      intros [= <-]; [now apply Hone | exact Hempty].
  - match goal with |- context [_has_meaningful_results ?a ?b ?c] =>
      destruct (_has_meaningful_results a b c) eqn:M end;
      intros [= <-]; [now apply Hone | exact Hempty].
  - now intros [= <-].
  - discriminate.
  - destruct ex; try discriminate; now intros [= <-].
Qed.

Lemma parse_html_report_meaningful (env : Env) (file_path : Path) :
  all_meaningful (_parse_html_report env file_path).
Proof.
  assert (all_meaningful (@PyDict.empty TestSuiteResult)) as Hempty
      by (intros k r; discriminate).
  unfold _parse_html_report.
  destruct (read_text env file_path) as [content|]; [|exact Hempty].
  cbn [obind]. destruct (html_scan env content) as [counts|]; [|exact Hempty].
  cbn [obind].
  match goal with |- context [_has_meaningful_results ?a ?b ?c] =>
    destruct (_has_meaningful_results a b c) eqn:M end; [|exact Hempty].
  cbn [negb]. match goal with |- context [0 <? ?t] => destruct (0 <? t) end;
    [|exact Hempty].
  intros k r. simpl. destruct (String.eqb k _); [|discriminate].
  intros [= <-]. exact M.
Qed.

Section CountSearch.

Variable word : string.

Lemma match_count_no_digit (c : ascii) (s : string) :
  PyStr.is_digit c = false -> Re.match_count word (String c s) = None.
Proof.
  intros H. unfold Re.match_count. cbn [PyStr.span_digits]. now rewrite H.
Qed.

(** A text without digits holds no count, before a text or alone. *)
Lemma search_count_skip (pre s : string) :
  no_digit pre = true ->
  Re.search_count word (pre ++ s) = Re.search_count word s.
Proof.
  induction pre as [|c pre IH]; [reflexivity|].
  cbn [no_digit String.append Re.search_count]. rewrite andb_true_iff.
  intros [Hc Hpre]. apply negb_true_iff in Hc.
  now rewrite (match_count_no_digit c _ Hc), IH.
Qed.

Lemma search_count_no_digit (s : string) :
  no_digit s = true -> Re.search_count word s = None.
Proof.
  induction s as [|c s IH]; [reflexivity|].
  cbn [Re.search_count no_digit].
  rewrite andb_true_iff. intros [Hc Hs]. apply negb_true_iff in Hc.
  rewrite (match_count_no_digit c _ Hc). now apply IH.
Qed.

Lemma span_digits_run (d : string) (c : ascii) (rest : string) :
  all_digits d = true -> PyStr.is_digit c = false ->
  PyStr.span_digits (d ++ String c rest) = (d, String c rest).
Proof.
  intros Hd Hc. induction d as [|a d IH]; cbn [String.append PyStr.span_digits].
  - now rewrite Hc.
  - cbn [all_digits] in Hd. apply andb_true_iff in Hd as [Ha Hd].
    now rewrite Ha, (IH Hd).
Qed.

(** A run of digits before a character that is no digit is captured when
    the word follows it, and holds no count otherwise. *)
Lemma search_count_run (d : string) (c : ascii) (rest : string) :
  all_digits d = true -> PyStr.is_digit c = false ->
  Re.search_count word (d ++ String c rest)
  = match d with
    | String _ _ =>
        if PyStr.startswith (String c rest) (String " " word) then Some d
        else Re.search_count word (String c rest)
    | EmptyString => Re.search_count word (String c rest)
    end.
Proof.
  intros Hd Hc. induction d as [|a d IH]; [reflexivity|].
  pose proof Hd as Hd'. cbn [all_digits] in Hd'.
  apply andb_true_iff in Hd' as [Ha Hd'].
  change (String a d ++ String c rest) with (String a (d ++ String c rest)).
  cbn [Re.search_count]. unfold Re.match_count at 1.
  change (String a (d ++ String c rest)) with (String a d ++ String c rest).
  rewrite (span_digits_run _ _ _ Hd Hc).
  destruct (PyStr.startswith (String c rest) (String " " word)) eqn:E;
    [reflexivity|].
  rewrite (IH Hd'). destruct d; reflexivity.
Qed.

End CountSearch.

(** A log that holds one run of digits, between a text without digits and
    a text without digits that does not start with one: the run is the
    first match of the pattern whose word follows it, and the other
    patterns match nowhere. *)
Lemma single_count_search (word pre digits : string) (c : ascii)
    (rest : string) :
  no_digit pre = true -> no_digit (String c rest) = true ->
  digits <> "" -> all_digits digits = true ->
  Re.search_count word (pre ++ digits ++ String c rest)
  = if PyStr.startswith (String c rest) (String " " word)
    then Some digits else None.
Proof.
  intros Hpre Hrest Hne Hall. rewrite (search_count_skip word pre _ Hpre).
  assert (PyStr.is_digit c = false) as Hc.
  { cbn [no_digit] in Hrest. apply andb_true_iff in Hrest as [Hc _].
    now apply negb_true_iff in Hc. }
  rewrite (search_count_run word digits c rest Hall Hc).
  destruct digits as [|a d]; [congruence|].
  now rewrite (search_count_no_digit word _ Hrest).
Qed.

Lemma skipped_only_searches (pre digits post : string) :
  no_digit pre = true -> no_digit post = true ->
  digits <> "" -> all_digits digits = true ->
  Re.search_count "skipped" (pre ++ digits ++ " skipped" ++ post) = Some digits
  /\ Re.search_count "passed" (pre ++ digits ++ " skipped" ++ post) = None
  /\ Re.search_count "failed" (pre ++ digits ++ " skipped" ++ post) = None
  /\ Re.search_count "error" (pre ++ digits ++ " skipped" ++ post) = None.
Proof.
  intros Hpre Hpost Hne Hall.
  change (" skipped" ++ post) with (String " " ("skipped" ++ post)).
  rewrite !(fun word =>
              single_count_search word pre digits " " ("skipped" ++ post)
                Hpre Hpost Hne Hall).
  repeat split.
Qed.

(** C8, as the specification states it, fails: a log whose passed count
    has 4301 digits has a first match, so the sum of the first matches is
    greater than zero, but [int] raises on it and the parser returns the
    empty map. *)
Lemma text_report_long_count_counterexample :
  ~ (PyDict.get "pytest_log"
       (_parse_text_report (text_env long_count_log)
          (mkPath "run" "pytest_log.txt"))
     <> None
     <-> 0 < match_value (Re.search_count "passed" long_count_log)
             + match_value (Re.search_count "failed" long_count_log)
             + match_value (Re.search_count "skipped" long_count_log)
             + match_value (Re.search_count "error" long_count_log)).
Proof.
  assert (all_digits (copies 4301 "1") = true) as Hall
      by (vm_compute; reflexivity).
  assert (copies 4301 "1" <> "") as Hne.
  { change (copies 4301 "1") with (String "1" (copies 4300 "1")).
    discriminate. }
  assert (forall word,
             Re.search_count word long_count_log
             = if PyStr.startswith " passed" (String " " word)
               then Some (copies 4301 "1") else None) as H.
  { intros word.
    exact (single_count_search word "" (copies 4301 "1") " " "passed"
             eq_refl eq_refl Hne Hall). }
  assert (match_short (Some (copies 4301 "1")) = false) as Hlong
      by (vm_compute; reflexivity).
  assert (0 < match_value (Some (copies 4301 "1"))) as Hpos
      by (vm_compute; reflexivity).
  intros [_ Himp]. apply Himp.
  - rewrite !H. cbn [PyStr.startswith Ascii.eqb Bool.eqb andb].
    change (match_value None) with 0. lia.
  - unfold _parse_text_report. cbn [read_text text_env obind].
    rewrite text_suite_result_eq. unfold counts_short. rewrite (H "passed").
    cbn [PyStr.startswith Ascii.eqb Bool.eqb andb]. rewrite Hlong.
    reflexivity.
Qed.

(** C8, amended. For a text file that reads as [content], the parser
    converts the first matches of the four count patterns; when each has
    at most 4300 digits its record has their numbers as counters and their
    sum as total, and the output holds the record exactly when the total
    is greater than zero. No meaningfulness filter is applied: a log with
    one count, a positive skipped count between texts without digits,
    yields a suite that fails the filter. When a first match has more than
    4300 digits the output is empty. Every record in the output of the
    XML, JSON and HTML parsers passes the filter. *)
Theorem text_report_total_gate :
  (forall (env : Env) (file_path : Path) (content : string),
      read_text env file_path = Returns content ->
      (counts_short content = true ->
       text_suite_result (path_stem file_path) content
       = Returns (text_record (path_stem file_path) content))
      /\ _parse_text_report env file_path
         = (if counts_short content
               && (0 <? sr_total (text_record (path_stem file_path) content))
            then [(path_stem file_path,
                   text_record (path_stem file_path) content)]
            else [])
      /\ (PyDict.get (path_stem file_path) (_parse_text_report env file_path)
          <> None
          <-> counts_short content = true
              /\ 0 < match_value (Re.search_count "passed" content)
                     + match_value (Re.search_count "failed" content)
                     + match_value (Re.search_count "skipped" content)
                     + match_value (Re.search_count "error" content))
      /\ (counts_short content = false ->
          _parse_text_report env file_path = PyDict.empty)
      /\ (counts_short content = true ->
          match_value (Re.search_count "passed" content) = 0 ->
          match_value (Re.search_count "failed" content) = 0 ->
          match_value (Re.search_count "error" content) = 0 ->
          0 < match_value (Re.search_count "skipped" content) ->
          _parse_text_report env file_path
          = [(path_stem file_path, text_record (path_stem file_path) content)]
          /\ _has_meaningful_results
               (sr_passed (text_record (path_stem file_path) content))
               (sr_failed (text_record (path_stem file_path) content))
               (sr_errors (text_record (path_stem file_path) content))
             = false))
  /\ (forall (env : Env) (file_path : Path) (pre digits post : string),
         no_digit pre = true -> no_digit post = true ->
         digits <> "" -> all_digits digits = true ->
         (String.length digits <= PyStr.max_str_digits)%nat ->
         0 < match_value (Some digits) ->
         read_text env file_path
         = Returns (pre ++ digits ++ " skipped" ++ post) ->
         _parse_text_report env file_path
         = [(path_stem file_path,
             mkTestSuiteResult (path_stem file_path)
               (match_value (Some digits)) 0 0 (match_value (Some digits)) 0
               0%float
               (map (failed_test (path_stem file_path))
                  (Re.findall_failed (pre ++ digits ++ " skipped" ++ post))))]
         /\ _has_meaningful_results 0 0 0 = false)
  /\ _parse_text_report (text_env "collected 3 items, 3 skipped in 0.01s")
       (mkPath "run" "pytest_log.txt")
     = [("pytest_log", mkTestSuiteResult "pytest_log" 3 0 0 3 0 0%float [])]
  /\ (forall (env : Env) (file_path : Path) (results : PyDict.t TestSuiteResult),
         _parse_junit_xml env file_path = Returns results ->
         all_meaningful results)
  /\ (forall (env : Env) (file_path : Path) (results : PyDict.t TestSuiteResult),
         _parse_json_report env file_path = Returns results ->
         all_meaningful results)
  /\ (forall (env : Env) (file_path : Path),
         all_meaningful (_parse_html_report env file_path)).
Proof.
  assert (forall env file_path content,
             read_text env file_path = Returns content ->
             _parse_text_report env file_path
             = (if counts_short content
                   && (0 <? sr_total (text_record (path_stem file_path) content))
                then [(path_stem file_path,
                       text_record (path_stem file_path) content)]
                else [])) as Hparse.
  { intros env file_path content Hread. unfold _parse_text_report.
    rewrite Hread. cbn [obind]. rewrite text_suite_result_eq.
    destruct (counts_short content); [|reflexivity].
    cbn [obind andb try_except]. now destruct (0 <? _). }
  split; [|split; [|split; [|split; [|split]]]].
  - intros env file_path content Hread.
    split; [intros H; rewrite text_suite_result_eq; now rewrite H|].
    split; [now apply Hparse|]. rewrite (Hparse _ _ _ Hread).
    cbn [text_record sr_total]. split.
    + destruct (counts_short content); cbn [andb].
      * destruct (0 <? _) eqn:E.
        -- apply Z.ltb_lt in E. cbn [PyDict.get]. rewrite String.eqb_refl.
           split; [auto | discriminate].
        -- apply Z.ltb_ge in E. cbn [PyDict.get].
           split; [congruence | intros [_ H]; lia].
      * cbn [PyDict.get]. split; [congruence | intros [H _]; discriminate].
    + split; [now intros ->|].
      intros -> Hp Hf He Hs. cbn [andb]. split.
      * rewrite Hp, Hf, He.
        assert ((0 <? 0 + 0 + match_value (Re.search_count "skipped" content)
                      + 0) = true) as ->; [apply Z.ltb_lt; lia | reflexivity].
      * unfold text_record. cbn [sr_passed sr_failed sr_errors].
        now rewrite Hp, Hf, He.
  - intros env file_path pre digits post Hpre Hpost Hne Hall Hlen Hpos Hread.
    split; [|reflexivity].
    destruct (skipped_only_searches pre digits post Hpre Hpost Hne Hall)
      as (Hs & Hp & Hf & He).
    rewrite (Hparse _ _ _ Hread). unfold counts_short, text_record.
    rewrite Hs, Hp, Hf, He. cbn [match_short andb sr_total].
    apply Nat.leb_le in Hlen. rewrite Hlen.
    change (match_value None) with 0.
    replace (0 + 0 + match_value (Some digits) + 0)
      with (match_value (Some digits)) by lia.
    apply Z.ltb_lt in Hpos. now rewrite Hpos.
  - reflexivity.
  - intros env. apply parse_junit_xml_meaningful.
  - intros env. apply parse_json_report_meaningful.
  - apply parse_html_report_meaningful.
Qed.

(** A log with only a skipped count yields a suite; the same counters in
    an XML suite element, a JSON summary or an HTML report yield none. *)
Example skipped_only_examples :
  _parse_text_report example_env (mkPath "run" "pytest_log.txt")
  = [("pytest_log",
      mkTestSuiteResult "pytest_log" 3 0 0 3 0 0
        [failed_test "pytest_log" "test_a"])]
  /\ _parse_junit_xml example_env (mkPath "run" "pytest_report.xml")
     = Returns PyDict.empty
  /\ (forall load : Path -> outcome JsonReport,
         load (mkPath "run" "report.json")
         = Returns (JsonSummary (Some 3) (Some 0) (Some 0) (Some 3) (Some 0) None) ->
         _parse_json_report
           (mkEnv (fun _ => None) (fun _ => Raises OSError) load
                  (fun _ => Raises OSError) (fun _ => Raises ValueError))
           (mkPath "run" "report.json")
         = Returns PyDict.empty)
  /\ _parse_html_report
       (mkEnv (fun _ => None) (fun _ => Raises OSError) (fun _ => Raises OSError)
              (fun _ => Returns "<html>") (fun _ => Returns (mkHtmlCounts 0 0 0 3 0)))
       (mkPath "run" "report.html")
     = PyDict.empty.
Proof.
  split; [reflexivity|]. split; [reflexivity|]. split; [|reflexivity].
  intros load H. unfold _parse_json_report. cbn [json_load]. now rewrite H.
Qed.

(** C10. For a text file that reads as [content] and in which none of the
    four count patterns matches, the record's tests are the [FAILED] lines,
    one failed test each, but every counter and the total are zero and the
    parser returns the empty map: the extracted tests are dropped with
    it. *)
Theorem failed_lines_do_not_count
    (env : Env) (file_path : Path) (content : string) :
  read_text env file_path = Returns content ->
  Re.search_count "passed" content = None ->
  Re.search_count "failed" content = None ->
  Re.search_count "skipped" content = None ->
  Re.search_count "error" content = None ->
  exists r : TestSuiteResult,
    text_suite_result (path_stem file_path) content = Returns r
    /\ sr_tests r
       = map (failed_test (path_stem file_path)) (Re.findall_failed content)
    /\ sr_passed r = 0 /\ sr_failed r = 0 /\ sr_skipped r = 0 /\ sr_errors r = 0
    /\ sr_total r = 0
    /\ _parse_text_report env file_path = PyDict.empty.
Proof.
  intros Hread Hp Hf Hs He.
  assert (text_suite_result (path_stem file_path) content
          = Returns (text_record (path_stem file_path) content)) as Hr.
  { rewrite text_suite_result_eq. unfold counts_short.
    now rewrite Hp, Hf, Hs, He. }
  eexists. split; [exact Hr|]. unfold text_record.
  cbn [sr_tests sr_passed sr_failed sr_skipped sr_errors sr_total].
  rewrite Hp, Hf, Hs, He. cbn [match_value].
  repeat (split; [reflexivity|]).
  rewrite (parse_text_report_eq env file_path content _ Hread Hr).
  unfold text_record. cbn [sr_total]. rewrite Hp, Hf, Hs, He. reflexivity.
Qed.

Lemma failed_lines_do_not_count_witness :
  exists r : TestSuiteResult,
    text_suite_result "test_failures" "FAILED test_a - boom" = Returns r
    /\ sr_tests r = [failed_test "test_failures" "test_a"]
    /\ sr_passed r = 0 /\ sr_failed r = 0 /\ sr_skipped r = 0 /\ sr_errors r = 0
    /\ sr_total r = 0
    /\ _parse_text_report example_env (mkPath "run" "test_failures.log")
       = PyDict.empty.
Proof.
  exact (failed_lines_do_not_count example_env (mkPath "run" "test_failures.log")
           "FAILED test_a - boom" eq_refl eq_refl eq_refl eq_refl eq_refl).
Defined.

(** ** The orchestrator *)

Section OrchestratorFacts.

Variable P : Parsers.

Lemma process_file_raises (acc : PyDict.t TestSuiteResult) (file_path : Path)
    (e : exn) :
  dispatch P file_path = Some (Raises e) -> process_file P acc file_path = acc.
Proof.
  intros H. unfold process_file. rewrite H.
  now destruct (_is_test_result_file file_path).
Qed.

Lemma process_file_returns (acc suite_results : PyDict.t TestSuiteResult)
    (file_path : Path) :
  _is_test_result_file file_path = true ->
  dispatch P file_path = Some (Returns suite_results) ->
  process_file P acc file_path = merge_results acc suite_results.
Proof. intros Hgate H. unfold process_file. now rewrite Hgate, H. Qed.

Lemma process_file_nothing (acc : PyDict.t TestSuiteResult) (file_path : Path) :
  yields_nothing P file_path -> process_file P acc file_path = acc.
Proof.
  intros [H | [H | [[e H] | H]]].
  - now apply ineligible_skipped.
  - unfold process_file. rewrite H. now destruct (_is_test_result_file file_path).
  - now apply (process_file_raises _ _ e).
  - now apply process_file_empty.
Qed.

Lemma merge_entry_get (test_results : PyDict.t TestSuiteResult)
    (suite_name : string) (suite_result : TestSuiteResult) :
  PyDict.get suite_name (merge_entry test_results (suite_name, suite_result))
  = Some match PyDict.get suite_name test_results with
         | Some existing => _merge_suite_results existing suite_result
         | None => suite_result
         end
  /\ forall other, other <> suite_name ->
       PyDict.get other (merge_entry test_results (suite_name, suite_result))
       = PyDict.get other test_results.
Proof.
  unfold merge_entry.
  destruct (PyDict.get suite_name test_results) as [existing|]; split;
    first [apply get_set_eq | intros other Hne; apply get_set_ne; congruence].
Qed.

(** The output never holds a suite name twice. *)
Lemma merge_results_nodup (suite_results : PyDict.t TestSuiteResult) :
  forall test_results : PyDict.t TestSuiteResult,
    NoDup (PyDict.keys test_results) ->
    NoDup (PyDict.keys (merge_results test_results suite_results)).
Proof.
  unfold merge_results.
  induction suite_results as [|[k v] rest IH]; intros test_results H; simpl;
    [exact H|].
  apply IH. unfold merge_entry.
  destruct (PyDict.get k test_results); now apply set_keys_nodup.
Qed.

Lemma process_test_files_nodup (files : list Path) :
  NoDup (PyDict.keys (process_test_files_with P files)).
Proof.
  unfold process_test_files_with.
  assert (NoDup (PyDict.keys (@PyDict.empty TestSuiteResult))) as H
      by apply NoDup_nil_2.
  revert H. generalize (@PyDict.empty TestSuiteResult) as acc.
  induction files as [|f files IH]; intros acc H; simpl; [exact H|].
  apply IH. unfold process_file.
  destruct (_is_test_result_file f); [|exact H]. cbn [negb].
  destruct (dispatch P f) as [[suite_results|e]|]; simpl;
    [now apply merge_results_nodup | exact H | exact H].
Qed.

End OrchestratorFacts.

Lemma debug_files_examined (fs : FileSystem) (files : list Path) :
  Forall (examined fs) files -> debug_files fs files = Returns tt.
Proof.
  induction 1 as [|f files Hf _ IH]; [reflexivity|].
  cbn [debug_files]. unfold debug_file.
  destruct Hf as [-> | [-> [size ->]]]; cbn [obind]; exact IH.
Qed.

Lemma debug_files_raises (fs : FileSystem) (before after : list Path)
    (bad : Path) (e : exn) :
  Forall (examined fs) before ->
  debug_file fs bad = Raises e ->
  debug_files fs (before ++ bad :: after) = Raises e.
Proof.
  intros Hbefore Hbad. induction Hbefore as [|f files Hf _ IH].
  - cbn [app debug_files]. now rewrite Hbad.
  - cbn [app debug_files]. unfold debug_file at 1.
    destruct Hf as [-> | [-> [size ->]]]; cbn [obind]; exact IH.
Qed.


(** Two reports of one suite are merged into one entry and an unreadable
    log between them changes nothing; files that the gate refuses give the
    empty map. *)
Example process_test_files_examples :
  process_test_files_with example_parsers
    [mkPath "suiteA" "results.xml"; mkPath "suiteA" "test_run.log";
     mkPath "suiteA" "results.json"]
  = [("suiteA", mkTestSuiteResult "suiteA" 15 12 3 0 0 2 [])]
  /\ process_test_files_with example_parsers
       [mkPath "suiteA" "summary.xml"; mkPath "suiteA" "notes.md"]
     = PyDict.empty.
Proof. split; reflexivity. Qed.

(** * Further properties of the code *)

(** ** Suite names on the documented naming scheme *)

Section ResolverFacts.

Local Open Scope string_scope.

Lemma in_chars_append (c : ascii) (s t : string) :
  In c (list_ascii_of_string (s ++ t))
  <-> In c (list_ascii_of_string s) \/ In c (list_ascii_of_string t).
Proof. apply in_append. Qed.

(** [a not in s], for a one-character [a], says no character of [s] is
    [a]. *)
Lemma contains_char_false (a : ascii) (s : string) :
  PyStr.contains (String a "") s = false ->
  forall c, In c (list_ascii_of_string s) -> c <> a.
Proof.
  induction s as [|b s IH]; [intros _ c []|].
  cbn [PyStr.contains PyStr.startswith]. rewrite orb_false_iff, andb_true_r.
  intros [Hb Hs] c [<- | Hc].
  - apply Ascii.eqb_neq in Hb. congruence.
  - now apply IH.
Qed.

(** An occurrence of a pattern brings its first character. *)
Lemma contains_first_char (a : ascii) (pat s : string) :
  PyStr.contains (String a pat) s = true -> In a (list_ascii_of_string s).
Proof.
  intros H. apply contains_iff in H. destruct H as [pre [post ->]].
  apply in_append. right. simpl. now left.
Qed.

Lemma drop_length_append (p s : string) : PyStr.drop (String.length p) (p ++ s) = s.
Proof. induction p as [|c p IH]; simpl; [now destruct s | exact IH]. Qed.

Lemma startswith_append (p s : string) : PyStr.startswith (p ++ s) p = true.
Proof. apply startswith_iff. now exists s. Qed.

(** The first occurrence of a pattern is where its first character appears
    for the first time, when the pattern follows. *)
Lemma partition_first (a : ascii) (pat pre rest : string) :
  PyStr.contains (String a "") pre = false ->
  PyStr.partition (String a pat) (pre ++ String a pat ++ rest) = Some (pre, rest).
Proof.
  intros Hpre. pose proof (contains_char_false _ _ Hpre) as Hno. clear Hpre.
  induction pre as [|c pre IH].
  - change ("" ++ String a pat ++ rest) with (String a pat ++ rest).
    destruct (String a pat ++ rest) eqn:E; [discriminate|].
    cbn [PyStr.partition]. rewrite <- E, startswith_append.
    now rewrite drop_length_append.
  - change (String c pre ++ String a pat ++ rest)
      with (String c (pre ++ String a pat ++ rest)).
    cbn [PyStr.partition PyStr.startswith].
    assert (Ascii.eqb a c = false) as ->.
    { apply Ascii.eqb_neq. intros ->. apply (Hno c); [now left | reflexivity]. }
    cbn [andb]. rewrite IH; [reflexivity|].
    intros x Hx. apply Hno. now right.
Qed.

(** The first piece of a split is what precedes the separator, when the
    separator's first character does not occur before it. *)
Lemma split_head (a : ascii) (sep s rest : string) :
  PyStr.contains (String a "") s = false ->
  exists tail, PyStr.split (String a sep) (s ++ String a sep ++ rest) = s :: tail.
Proof.
  intros Hs. pose proof (contains_char_false _ _ Hs) as Hno. clear Hs.
  unfold PyStr.split.
  assert (forall cur, exists tail,
             PyStr.split_from (String a sep) 0 cur (s ++ String a sep ++ rest)
             = (cur ++ s) :: tail) as H; [|apply (H "")].
  induction s as [|c s IH]; intros cur.
  - change ("" ++ String a sep ++ rest) with (String a (sep ++ rest)).
    cbn [PyStr.split_from].
    change (String a (sep ++ rest)) with (String a sep ++ rest).
    rewrite startswith_append, append_nil_r. eauto.
  - change (String c s ++ String a sep ++ rest)
      with (String c (s ++ String a sep ++ rest)).
    cbn [PyStr.split_from PyStr.startswith].
    assert (Ascii.eqb a c = false) as ->.
    { apply Ascii.eqb_neq. intros ->. apply (Hno c); [now left | reflexivity]. }
    cbn [andb]. destruct (IH (fun x Hx => Hno x (or_intror Hx))
                            (cur ++ String c "")) as [tail ->].
    exists tail. now rewrite append_assoc.
Qed.

Lemma cut_job_attempt_suffix (suite attempt : string) :
  PyStr.contains ";" suite = false ->
  cut_job_attempt (suite ++ "; JobAttempt=" ++ attempt) = Returns suite.
Proof.
  intros H. unfold cut_job_attempt.
  assert (PyStr.contains "; JobAttempt=" (suite ++ "; JobAttempt=" ++ attempt)
          = true) as ->
      by (apply contains_iff; now exists suite, attempt).
  destruct (split_head ";" " JobAttempt=" suite attempt H) as [tail ->].
  reflexivity.
Qed.

Lemma cut_job_attempt_none (suite : string) :
  PyStr.contains ";" suite = false -> cut_job_attempt suite = Returns suite.
Proof.
  intros H. unfold cut_job_attempt.
  destruct (PyStr.contains "; JobAttempt=" suite) eqn:E; [|reflexivity].
  apply contains_first_char in E.
  now destruct (contains_char_false _ _ H _ E).
Qed.

End ResolverFacts.

Section ResolverScheme.

Local Open Scope string_scope.

Lemma contains_char_tail (a c : ascii) (s : string) :
  PyStr.contains (String a "") (String c s) = false ->
  PyStr.contains (String a "") s = false.
Proof. cbn [PyStr.contains]. rewrite orb_false_iff. tauto. Qed.

(** Removing the ['artifacts_'] prefix leaves the text from the first
    ['B'] on as it is. *)
Lemma without_prefix_keeps (pre rest : string) :
  PyStr.contains "B" pre = false ->
  exists pre',
    without_prefix (pre ++ String "B" rest) = pre' ++ String "B" rest
    /\ PyStr.contains "B" pre' = false.
Proof.
  intros Hpre. unfold without_prefix.
  destruct (PyStr.startswith (pre ++ String "B" rest) "artifacts_") eqn:E;
    [|now exists pre].
  do 10 (destruct pre as [|? pre];
         [simpl in E; discriminate|];
         simpl in E; apply andb_true_iff in E; destruct E as [_ E];
         apply contains_char_tail in Hpre).
  exists pre. split; [reflexivity | exact Hpre].
Qed.

Lemma resolve_first_pattern (pre suite_part : string) (r : string) :
  PyStr.contains "B" pre = false ->
  cut_job_attempt suite_part = Returns r ->
  _extract_suite_name_from_artifact (pre ++ "BFT PyTest " ++ suite_part)
  = PyStr.strip r.
Proof.
  intros Hpre Hcut.
  unfold _extract_suite_name_from_artifact, extract_suite_name_with,
    extract_suite_name_body.
  change (pre ++ "BFT PyTest " ++ suite_part)
    with (pre ++ String "B" ("FT PyTest " ++ suite_part)).
  destruct (without_prefix_keeps pre ("FT PyTest " ++ suite_part) Hpre)
    as [pre' [-> Hpre']].
  change (pre' ++ String "B" ("FT PyTest " ++ suite_part))
    with (pre' ++ "BFT PyTest " ++ suite_part).
  assert (PyStr.contains "BFT PyTest " (pre' ++ "BFT PyTest " ++ suite_part)
          = true) as ->
      by (apply contains_iff; now exists pre', suite_part).
  unfold PyStr.split1.
  rewrite (partition_first "B" "FT PyTest " pre' suite_part Hpre').
  cbn [List.length Nat.ltb Nat.leb index nth_error obind].
  rewrite Hcut. reflexivity.
Qed.

End ResolverScheme.

(** X1. On the naming scheme of the docstring, the resolver returns the
    suite name: for a name made of a prefix without ['B'], the marker
    ['BFT PyTest '], a suite text without [';'] and optionally
    ['; JobAttempt='] with any attempt text, the result is the suite text
    with surrounding whitespace removed, whatever the prefix and the
    attempt are. *)
Theorem documented_names_resolve (pre suite attempt : string) :
  PyStr.contains "B" pre = false ->
  PyStr.contains ";" suite = false ->
  _extract_suite_name_from_artifact
    (pre ++ "BFT PyTest " ++ suite ++ "; JobAttempt=" ++ attempt)
  = PyStr.strip suite
  /\ _extract_suite_name_from_artifact (pre ++ "BFT PyTest " ++ suite)
     = PyStr.strip suite.
Proof.
  intros Hpre Hsuite. split.
  - apply resolve_first_pattern; [exact Hpre|].
    now apply cut_job_attempt_suffix.
  - apply resolve_first_pattern; [exact Hpre|].
    now apply cut_job_attempt_none.
Qed.

Lemma documented_names_resolve_witness :
  _extract_suite_name_from_artifact
    ("artifacts_PyTest test_report=" ++ "BFT PyTest " ++ " Fus_Negative_Test "
     ++ "; JobAttempt=" ++ "2")
  = "Fus_Negative_Test"
  /\ _extract_suite_name_from_artifact
       ("artifacts_PyTest test_report=" ++ "BFT PyTest " ++ " Fus_Negative_Test ")
     = "Fus_Negative_Test".
Proof.
  exact (documented_names_resolve "artifacts_PyTest test_report="
           " Fus_Negative_Test " "2" eq_refl eq_refl).
Defined.

Section StripFacts.

Local Open Scope string_scope.

Lemma rstrip_cons (c : ascii) (s : string) :
  PyStr.rstrip (String c s)
  = match PyStr.rstrip s with
    | "" => if PyStr.is_space c then "" else String c ""
    | String d r => String c (String d r)
    end.
Proof. reflexivity. Qed.

Lemma rstrip_idem (s : string) : PyStr.rstrip (PyStr.rstrip s) = PyStr.rstrip s.
Proof.
  induction s as [|c s IH]; [reflexivity|].
  rewrite (rstrip_cons c s). destruct (PyStr.rstrip s) as [|d r] eqn:E.
  - destruct (PyStr.is_space c) eqn:Hc; [reflexivity|].
    rewrite rstrip_cons. cbn [PyStr.rstrip]. now rewrite Hc.
  - rewrite rstrip_cons, IH. reflexivity.
Qed.

(** A string that does not begin with whitespace keeps its first character
    under [rstrip]. *)
Lemma rstrip_head (c : ascii) (s : string) :
  PyStr.is_space c = false -> exists r, PyStr.rstrip (String c s) = String c r.
Proof.
  intros Hc. cbn [PyStr.rstrip]. rewrite Hc.
  destruct (PyStr.rstrip s); eauto.
Qed.

Lemma lstrip_head (s : string) :
  PyStr.lstrip s = ""
  \/ exists c r, PyStr.lstrip s = String c r /\ PyStr.is_space c = false.
Proof.
  induction s as [|c s IH]; [now left|].
  cbn [PyStr.lstrip]. destruct (PyStr.is_space c) eqn:E; [exact IH|].
  right. eauto.
Qed.

(** [strip] of a stripped string changes nothing. *)
Lemma strip_idem (s : string) : PyStr.strip (PyStr.strip s) = PyStr.strip s.
Proof.
  unfold PyStr.strip. destruct (lstrip_head s) as [-> | [c [r [-> Hc]]]];
    [reflexivity|].
  destruct (rstrip_head c r Hc) as [r' E]. rewrite E.
  cbn [PyStr.lstrip]. rewrite Hc. rewrite <- E. apply rstrip_idem.
Qed.

End StripFacts.

Section PatternParts.

Local Open Scope string_scope.

Lemma partition_startswith (pat s : string) :
  PyStr.startswith s pat = true ->
  PyStr.partition pat s = Some ("", PyStr.drop (String.length pat) s).
Proof. intros H. destruct s; cbn [PyStr.partition]; now rewrite H. Qed.

Lemma startswith_prefix (s post pat : string) :
  PyStr.startswith s pat = true -> PyStr.startswith (s ++ post) pat = true.
Proof.
  rewrite !startswith_iff. intros [post' ->]. exists (post' ++ post).
  apply append_assoc.
Qed.

(** The text before the first occurrence of a separator holds no
    occurrence of it. *)
Lemma partition_before_clean (pat s : string) :
  forall before after,
    PyStr.partition pat s = Some (before, after) ->
    pat <> "" -> PyStr.contains pat before = false.
Proof.
  induction s as [|c s IH]; intros before after; cbn [PyStr.partition].
  - destruct (PyStr.startswith "" pat) eqn:E; [|discriminate].
    intros [= <- <-] Hne. destruct pat; [congruence | discriminate].
  - destruct (PyStr.startswith (String c s) pat) eqn:E.
    + intros [= <- <-] Hne. destruct pat; [congruence | reflexivity].
    + destruct (PyStr.partition pat s) as [[b a]|] eqn:Ep; [|discriminate].
      intros [= <- <-] Hne. cbn [PyStr.contains].
      rewrite (IH b a eq_refl Hne), orb_false_r.
      destruct (PyStr.startswith (String c b) pat) eqn:Eb; [|reflexivity].
      apply partition_eq in Ep.
      pose proof (startswith_prefix (String c b) (pat ++ a) pat Eb) as H.
      cbn [String.append] in H. rewrite <- Ep in H. congruence.
Qed.

Lemma before_job_attempt_clean (suite_part : string) :
  PyStr.contains "; JobAttempt=" (before_job_attempt suite_part) = false.
Proof.
  unfold before_job_attempt.
  destruct (PyStr.partition "; JobAttempt=" suite_part) as [[before after]|]
    eqn:E.
  - apply (partition_before_clean _ _ _ _ E). discriminate.
  - destruct (PyStr.contains "; JobAttempt=" suite_part) eqn:Ec; [|reflexivity].
    destruct (partition_contains _ _ Ec) as [b [a H]]. congruence.
Qed.

End PatternParts.

(** X2. The artifact names the callers pass on, those that start with
    ['PyTest test_report='], always match a pattern: the resolver never
    falls back to the cleaned name for them. Its result is a part of the
    name with its surrounding whitespace removed, so stripping it again
    changes nothing: the part is what follows the first ['BFT PyTest '] of
    the name or, when there is none, what follows the leading
    ['PyTest test_report='], up to the first ['; JobAttempt=']; it stands
    in the name as it is and holds no ['; JobAttempt=']. *)
Theorem pytest_artifact_names_match (artifact_name : string) :
  is_pytest_artifact artifact_name = true ->
  ~ no_pattern artifact_name
  /\ (exists suite_part,
         selected_part artifact_name = Some suite_part
         /\ extract_suite_name_body artifact_name
            = Returns (PyStr.strip suite_part)
         /\ _extract_suite_name_from_artifact artifact_name
            = PyStr.strip suite_part
         /\ (exists pre post,
                artifact_name = (pre ++ suite_part ++ post)%string)
         /\ PyStr.contains "; JobAttempt=" suite_part = false
         /\ (PyStr.contains "BFT PyTest " artifact_name = false ->
             suite_part = before_job_attempt (PyStr.drop 19 artifact_name))
         /\ (forall before after,
                PyStr.partition "BFT PyTest " artifact_name
                = Some (before, after) ->
                suite_part = before_job_attempt after))
  /\ PyStr.strip (_extract_suite_name_from_artifact artifact_name)
     = _extract_suite_name_from_artifact artifact_name.
Proof.
  intros H. unfold is_pytest_artifact in H.
  pose proof (startswith_drop _ _ H) as Hname.
  assert (without_prefix artifact_name = artifact_name) as E
      by (rewrite Hname; reflexivity).
  assert (~ no_pattern artifact_name) as Hpat.
  { intros [_ H2]. rewrite E in H2.
    assert (PyStr.contains "PyTest test_report=" artifact_name = true);
      [|congruence].
    apply contains_iff. exists ""%string. eexists. exact Hname. }
  split; [exact Hpat|].
  pose proof (extract_suite_name_body_eq artifact_name) as Hbody.
  assert (exists suite_part,
             selected_part artifact_name = Some suite_part
             /\ (exists pre post,
                    artifact_name = (pre ++ suite_part ++ post)%string)
             /\ PyStr.contains "; JobAttempt=" suite_part = false
             /\ (PyStr.contains "BFT PyTest " artifact_name = false ->
                 suite_part = before_job_attempt (PyStr.drop 19 artifact_name))
             /\ (forall before after,
                    PyStr.partition "BFT PyTest " artifact_name
                    = Some (before, after) ->
                    suite_part = before_job_attempt after)) as Hsel.
  { unfold selected_part. rewrite E.
    destruct (PyStr.partition "BFT PyTest " artifact_name) as [[b a]|] eqn:E1.
    - exists (before_job_attempt a). split; [reflexivity|]. split.
      + destruct (before_job_attempt_prefix a) as [post Ha].
        exists (b ++ "BFT PyTest ")%string, post.
        rewrite (partition_eq _ _ _ _ E1) at 1. rewrite Ha at 1.
        now rewrite !append_assoc.
      + split; [apply before_job_attempt_clean|]. split.
        * intros Hno. rewrite (partition_none _ _ Hno) in E1. discriminate.
        * now intros before after [= <- <-].
    - rewrite (partition_startswith _ _ H).
      exists (before_job_attempt (PyStr.drop 19 artifact_name)).
      split; [reflexivity|]. split.
      + destruct (before_job_attempt_prefix (PyStr.drop 19 artifact_name))
          as [post Ha].
        exists "PyTest test_report="%string, post.
        rewrite Hname at 1. cbn [String.length]. now rewrite Ha at 1.
      + split; [apply before_job_attempt_clean|]. split; [reflexivity|].
        discriminate. }
  destruct Hsel as (suite_part & Hs & Hsub & Hclean & Hrest & Hfirst).
  rewrite Hs in Hbody.
  assert (_extract_suite_name_from_artifact artifact_name
          = PyStr.strip suite_part) as Hres.
  { unfold _extract_suite_name_from_artifact, extract_suite_name_with.
    now rewrite Hbody. }
  split.
  - exists suite_part. repeat (split; [assumption|]). assumption.
  - rewrite Hres. apply strip_idem.
Qed.

Lemma pytest_artifact_names_match_witness :
  ~ no_pattern "PyTest test_report=nightly a=b ; JobAttempt=3"
  /\ (exists suite_part,
         selected_part "PyTest test_report=nightly a=b ; JobAttempt=3"
         = Some suite_part
         /\ extract_suite_name_body
              "PyTest test_report=nightly a=b ; JobAttempt=3"
            = Returns (PyStr.strip suite_part)
         /\ _extract_suite_name_from_artifact
              "PyTest test_report=nightly a=b ; JobAttempt=3"
            = PyStr.strip suite_part
         /\ (exists pre post,
                "PyTest test_report=nightly a=b ; JobAttempt=3"%string
                = (pre ++ suite_part ++ post)%string)
         /\ PyStr.contains "; JobAttempt=" suite_part = false
         /\ (PyStr.contains "BFT PyTest "
               "PyTest test_report=nightly a=b ; JobAttempt=3" = false ->
             suite_part
             = before_job_attempt
                 (PyStr.drop 19 "PyTest test_report=nightly a=b ; JobAttempt=3"))
         /\ (forall before after,
                PyStr.partition "BFT PyTest "
                  "PyTest test_report=nightly a=b ; JobAttempt=3"
                = Some (before, after) ->
                suite_part = before_job_attempt after))
  /\ PyStr.strip (_extract_suite_name_from_artifact
                    "PyTest test_report=nightly a=b ; JobAttempt=3")
     = _extract_suite_name_from_artifact
         "PyTest test_report=nightly a=b ; JobAttempt=3".
Proof.
  exact (pytest_artifact_names_match
           "PyTest test_report=nightly a=b ; JobAttempt=3" eq_refl).
Defined.

(** On a pattern branch the name is not cleaned: spaces and equals signs
    stay. *)
Example pattern_result_not_cleaned :
  _extract_suite_name_from_artifact "PyTest test_report=nightly a=b ; JobAttempt=3"
  = "nightly a=b"%string.
Proof. reflexivity. Qed.

(** ** Test cases of a JUnit-XML suite *)

(** X3. A test case that the XML parser reads gets one of the four
    statuses, a [failure] child winning over an [error] child and that one
    over a [skipped] child, wherever they stand among the children. A
    failure message is only ever set on a failed test and an error message
    on an errored one, never both; a test that is passed or skipped carries
    no message. *)
Theorem testcase_status_precedence
    (env : Env) (suite_name : string) (testcase : Element) (t : TestResult) :
  parse_testcase env suite_name testcase = Returns t ->
  (tr_status t = "passed" \/ tr_status t = "failed"
   \/ tr_status t = "error" \/ tr_status t = "skipped")
  /\ (tr_status t = "failed" <-> find "failure" testcase <> None)
  /\ (tr_status t = "error"
      <-> find "failure" testcase = None /\ find "error" testcase <> None)
  /\ (tr_status t = "skipped"
      <-> find "failure" testcase = None /\ find "error" testcase = None
          /\ find "skipped" testcase <> None)
  /\ (tr_failure_message t <> None -> tr_status t = "failed")
  /\ (tr_error_message t <> None -> tr_status t = "error")
  /\ (tr_failure_message t = None \/ tr_error_message t = None)
  /\ tr_suite t = Some suite_name.
Proof.
  unfold parse_testcase.
  destruct (float_attr env testcase "time") as [d|]; [|discriminate].
  cbn [obind].
  destruct (find "failure" testcase) as [fl|], (find "error" testcase) as [er|],
    (find "skipped" testcase) as [sk|];
    intros [= <-]; cbn [tr_status tr_failure_message tr_error_message tr_suite];
    repeat split;
    try solve [ tauto | discriminate | congruence
              | intros [] ; congruence
              | intros [? []]; congruence
              | intros [? [? []]]; congruence
              | intuition congruence
              | intuition discriminate ].
Qed.

Lemma testcase_status_precedence_witness :
  (tr_status failing_testcase_result = "passed"
   \/ tr_status failing_testcase_result = "failed"
   \/ tr_status failing_testcase_result = "error"
   \/ tr_status failing_testcase_result = "skipped")
  /\ (tr_status failing_testcase_result = "failed"
      <-> find "failure" failing_testcase <> None)
  /\ (tr_status failing_testcase_result = "error"
      <-> find "failure" failing_testcase = None
          /\ find "error" failing_testcase <> None)
  /\ (tr_status failing_testcase_result = "skipped"
      <-> find "failure" failing_testcase = None
          /\ find "error" failing_testcase = None
          /\ find "skipped" failing_testcase <> None)
  /\ (tr_failure_message failing_testcase_result <> None ->
      tr_status failing_testcase_result = "failed")
  /\ (tr_error_message failing_testcase_result <> None ->
      tr_status failing_testcase_result = "error")
  /\ (tr_failure_message failing_testcase_result = None
      \/ tr_error_message failing_testcase_result = None)
  /\ tr_suite failing_testcase_result = Some "boot".
Proof.
  exact (testcase_status_precedence example_env "boot" failing_testcase
           failing_testcase_result eq_refl).
Defined.

Section JUnitMoreFacts.

Variable env : Env.

Lemma parse_testcase_name (suite_name : string) (testcase : Element)
    (t : TestResult) :
  parse_testcase env suite_name testcase = Returns t ->
  tr_name t = testcase_name testcase.
Proof.
  unfold parse_testcase.
  destruct (float_attr env testcase "time") as [d|]; [|discriminate].
  cbn [obind].
  destruct (find "failure" testcase), (find "error" testcase),
    (find "skipped" testcase); now intros [= <-].
Qed.

(** The loop over the test cases appends one test per case, in order. *)
Lemma parse_testcases_names (suite_name : string) (testcases : list Element) :
  forall acc tests : list TestResult,
    parse_testcases env suite_name acc testcases = Returns tests ->
    exists ts,
      tests = (acc ++ ts)%list
      /\ map tr_name ts = map testcase_name testcases.
Proof.
  induction testcases as [|c testcases IH]; intros acc tests; simpl.
  - intros [= <-]. exists []. now rewrite app_nil_r.
  - destruct (parse_testcase env suite_name c) as [t|] eqn:E; [|discriminate].
    cbn [obind]. intros H. destruct (IH _ _ H) as [ts [-> Hts]].
    exists (t :: ts). rewrite <- app_assoc. split; [reflexivity|].
    simpl. now rewrite Hts, (parse_testcase_name _ _ _ E).
Qed.

Lemma float_attr_raises (e : Element) (key : string) (ex : exn) :
  float_attr env e key = Raises ex -> ex = ValueError.
Proof.
  unfold float_attr. destruct (PyDict.get key (elem_attrib e)); [|discriminate].
  destruct (py_float env s); [discriminate | now intros [= <-]].
Qed.

Lemma int_attr_raises (e : Element) (key : string) (ex : exn) :
  int_attr e key = Raises ex -> ex = ValueError.
Proof.
  unfold int_attr. destruct (PyDict.get key (elem_attrib e)); [|discriminate].
  unfold PyStr.int.
  destruct (match PyStr.int_rstrip (PyStr.int_lstrip s) with
            | String "-" r => (true, r)
            | String "+" r => (false, r)
            | _ => (false, PyStr.int_rstrip (PyStr.int_lstrip s))
            end) as [neg ds].
  destruct (PyStr.int_digits 0 false ds); [|now intros [= <-]].
  destruct (_ <? _)%nat; [now intros [= <-] | discriminate].
Qed.

Lemma parse_testcases_raises (suite_name : string) (testcases : list Element) :
  forall (acc : list TestResult) (ex : exn),
    parse_testcases env suite_name acc testcases = Raises ex -> ex = ValueError.
Proof.
  induction testcases as [|c testcases IH]; intros acc ex; simpl; [discriminate|].
  unfold parse_testcase at 1.
  destruct (float_attr env c "time") as [d|ex'] eqn:E; cbn [obind].
  - apply IH.
  - intros [= <-]. now apply (float_attr_raises _ _ _ E).
Qed.

(** Whatever the XML parser raises while it reads suite elements is a
    [ValueError]. *)
Lemma parse_suite_elem_raises (file_path : Path)
    (results : PyDict.t TestSuiteResult) (suite_elem : Element) (ex : exn) :
  parse_suite_elem env file_path results suite_elem = Raises ex ->
  ex = ValueError.
Proof.
  unfold parse_suite_elem.
  destruct (int_attr suite_elem "tests") as [t|e1] eqn:E1; cbn [obind];
    [|intros [= <-]; now apply (int_attr_raises _ _ _ E1)].
  destruct (int_attr suite_elem "failures") as [f|e2] eqn:E2; cbn [obind];
    [|intros [= <-]; now apply (int_attr_raises _ _ _ E2)].
  destruct (int_attr suite_elem "errors") as [e|e3] eqn:E3; cbn [obind];
    [|intros [= <-]; now apply (int_attr_raises _ _ _ E3)].
  destruct (int_attr suite_elem "skipped") as [s|e4] eqn:E4; cbn [obind];
    [|intros [= <-]; now apply (int_attr_raises _ _ _ E4)].
  destruct (float_attr env suite_elem "time") as [d|e5] eqn:E5; cbn [obind];
    [|intros [= <-]; now apply (float_attr_raises _ _ _ E5)].
  match goal with |- context [negb ?b] => destruct b end; cbn [negb];
    [|discriminate].
  match goal with |- context [parse_testcases ?a ?b ?c ?d] =>
    destruct (parse_testcases a b c d) as [tests|e6] eqn:E6 end; cbn [obind];
    [discriminate|].
  intros [= <-]. now apply (parse_testcases_raises _ _ _ _ E6).
Qed.

Lemma conversion_fails_raises (file_path : Path)
    (results : PyDict.t TestSuiteResult) (suite_elem : Element) :
  conversion_fails env suite_elem ->
  parse_suite_elem env file_path results suite_elem = Raises ValueError.
Proof.
  intros H. destruct (parse_suite_elem env file_path results suite_elem)
    as [r|ex] eqn:E.
  - exfalso. unfold parse_suite_elem in E. unfold conversion_fails in H.
    destruct (int_attr suite_elem "tests") as [t|]; cbn [obind] in E;
      [|discriminate].
    destruct (int_attr suite_elem "failures") as [f|]; cbn [obind] in E;
      [|discriminate].
    destruct (int_attr suite_elem "errors") as [e|]; cbn [obind] in E;
      [|discriminate].
    destruct (int_attr suite_elem "skipped") as [s|]; cbn [obind] in E;
      [|discriminate].
    destruct (float_attr env suite_elem "time") as [d|]; cbn [obind] in E;
      [|discriminate].
    destruct H as [H | [H | [H | [H | H]]]]; discriminate.
  - now rewrite (parse_suite_elem_raises _ _ _ _ E).
Qed.

Lemma parse_suite_elems_raises (file_path : Path) (suites : list Element)
    (bad : Element) :
  In bad suites -> conversion_fails env bad ->
  forall results, parse_suite_elems env file_path results suites = Raises ValueError.
Proof.
  intros Hin Hbad. induction suites as [|x suites IH]; [destruct Hin|].
  intros results. simpl. destruct Hin as [-> | Hin].
  - now rewrite conversion_fails_raises.
  - destruct (parse_suite_elem env file_path results x) as [r|ex] eqn:E;
      cbn [obind]; [now apply IH|].
    now rewrite (parse_suite_elem_raises _ _ _ _ E).
Qed.

(** An iteration leaves the entries of the other suite names alone. *)
Lemma parse_suite_elem_other (file_path : Path)
    (results results' : PyDict.t TestSuiteResult) (suite_elem : Element)
    (k : string) :
  parse_suite_elem env file_path results suite_elem = Returns results' ->
  junit_suite_name file_path suite_elem <> k ->
  PyDict.get k results' = PyDict.get k results.
Proof.
  unfold parse_suite_elem. fold (junit_suite_name file_path suite_elem).
  destruct (int_attr suite_elem "tests") as [t|]; cbn [obind]; [|discriminate].
  destruct (int_attr suite_elem "failures") as [f|]; cbn [obind]; [|discriminate].
  destruct (int_attr suite_elem "errors") as [e|]; cbn [obind]; [|discriminate].
  destruct (int_attr suite_elem "skipped") as [s|]; cbn [obind]; [|discriminate].
  destruct (float_attr env suite_elem "time") as [d|]; cbn [obind]; [|discriminate].
  match goal with |- context [negb ?b] => destruct b end; cbn [negb];
    [|now intros [= <-]].
  match goal with |- context [parse_testcases ?a ?b ?c ?d] =>
    destruct (parse_testcases a b c d) as [tests|] end; cbn [obind];
    [|discriminate].
  intros [= <-] Hne. now apply get_set_ne.
Qed.

(** Nor does an iteration over an element that fails the filter, and so a
    run over elements that have another name or fail the filter. *)
Lemma parse_suite_elem_filtered (file_path : Path)
    (results : PyDict.t TestSuiteResult) (suite_elem : Element) :
  filtered_out env suite_elem ->
  parse_suite_elem env file_path results suite_elem = Returns results.
Proof.
  intros (t & f & e & s & d & Hread & Hm).
  rewrite (parse_suite_elem_eq _ _ _ _ _ _ _ _ _ Hread). now rewrite Hm.
Qed.

Lemma parse_suite_elems_kept (file_path : Path) (suites : list Element)
    (k : string) :
  Forall (fun x => junit_suite_name file_path x <> k \/ filtered_out env x)
    suites ->
  forall results results',
    parse_suite_elems env file_path results suites = Returns results' ->
    PyDict.get k results' = PyDict.get k results.
Proof.
  induction 1 as [|x suites Hx _ IH]; intros results results'; simpl.
  - now intros [= <-].
  - destruct Hx as [Hx | Hx].
    + destruct (parse_suite_elem env file_path results x) as [r|] eqn:E;
        cbn [obind]; [|discriminate].
      intros H. rewrite (IH _ _ H).
      now apply (parse_suite_elem_other _ _ _ _ _ E).
    + rewrite (parse_suite_elem_filtered _ _ _ Hx). cbn [obind]. apply IH.
Qed.

End JUnitMoreFacts.

(** X4. Within one XML file, the record kept under a suite name is the one
    of the last suite element of that name that passes the filter, whatever
    stands before it and although elements of the same name that fail the
    filter may follow it: its counters are that element's attributes, its
    tests are exactly that element's test cases as the parser reads them,
    in document order, and nothing of an earlier element of the same name,
    or of an earlier entry of the accumulator, is added to it. *)
Theorem junit_last_suite_wins
    (env : Env) (file_path : Path) (results results' : PyDict.t TestSuiteResult)
    (before after : list Element) (last : Element)
    (t f e s : Z) (d : float) :
  parse_suite_elems env file_path results (before ++ last :: after)
  = Returns results' ->
  counters_read env last t f e s d ->
  _has_meaningful_results (t - f - e - s) f e = true ->
  Forall (fun x => junit_suite_name file_path x
                   <> junit_suite_name file_path last
                   \/ filtered_out env x) after ->
  exists r : TestSuiteResult,
    PyDict.get (junit_suite_name file_path last) results' = Some r
    /\ sr_name r = junit_suite_name file_path last
    /\ sr_total r = t /\ sr_passed r = t - f - e - s /\ sr_failed r = f
    /\ sr_errors r = e /\ sr_skipped r = s /\ sr_duration r = d
    /\ parse_testcases env (junit_suite_name file_path last) []
         (findall "testcase" last)
       = Returns (sr_tests r)
    /\ map tr_name (sr_tests r) = map testcase_name (findall "testcase" last).
Proof.
  intros Hrun Hread Hmean Hafter.
  rewrite parse_suite_elems_app in Hrun.
  destruct (parse_suite_elems env file_path results before) as [r1|];
    [|discriminate].
  cbn [obind parse_suite_elems] in Hrun.
  rewrite (parse_suite_elem_eq _ _ _ _ _ _ _ _ _ Hread), Hmean in Hrun.
  destruct (parse_testcases env (junit_suite_name file_path last) []
              (findall "testcase" last)) as [tests|] eqn:Et; [|discriminate].
  cbn [obind] in Hrun.
  rewrite (parse_suite_elems_kept env file_path after _ Hafter _ _ Hrun).
  rewrite get_set_eq. eexists. split; [reflexivity|].
  cbn [sr_name sr_total sr_passed sr_failed sr_errors sr_skipped sr_duration
       sr_tests].
  repeat (split; [reflexivity|]).
  destruct (parse_testcases_names _ _ _ _ _ Et) as [ts [-> Hts]]. exact Hts.
Qed.

Lemma junit_last_suite_wins_witness :
  exists r : TestSuiteResult,
    PyDict.get "suiteB"
      [("suiteB", suite_with_cases_result);
       ("other", mkTestSuiteResult "other" 2 1 1 0 0 0 [])]
    = Some r
    /\ sr_name r = "suiteB"
    /\ sr_total r = 5 /\ sr_passed r = 5 - 1 - 0 - 1 /\ sr_failed r = 1
    /\ sr_errors r = 0 /\ sr_skipped r = 1 /\ sr_duration r = 0%float
    /\ parse_testcases example_env "suiteB" [] (findall "testcase" suite_with_cases)
       = Returns (sr_tests r)
    /\ map tr_name (sr_tests r)
       = map testcase_name (findall "testcase" suite_with_cases).
Proof.
  apply (junit_last_suite_wins example_env (mkPath "run" "junit.xml")
           PyDict.empty
           [("suiteB", suite_with_cases_result);
            ("other", mkTestSuiteResult "other" 2 1 1 0 0 0 [])]
           [suite_with "suiteB" "10" "2" "0" "0"]
           [suite_with "other" "2" "1" "0" "0";
            suite_with "suiteB" "3" "0" "0" "3"]
           suite_with_cases 5 1 0 1 0%float).
  - reflexivity.
  - repeat split.
  - reflexivity.
  - constructor; [left; discriminate|].
    constructor; [|constructor].
    right. exists 3, 0, 0, 3, 0%float. repeat split.
Defined.

(** X5. One suite element with a counter attribute or a [time] that does
    not convert makes the XML parser raise [ValueError] for the whole file,
    whatever the other suite elements hold (the parser only handles
    [ParseError]); the orchestrator then takes nothing from that file, the
    suites before the bad one included. *)
Theorem junit_conversion_error_discards_file
    (env : Env) (file_path : Path) (root bad : Element) :
  et_parse env file_path = Returns root ->
  In bad (suite_elements root) ->
  conversion_fails env bad ->
  _parse_junit_xml env file_path = Raises ValueError
  /\ (PyStr.lower (path_suffix file_path) = ".xml" ->
      forall before after,
        process_test_files env (before ++ file_path :: after)
        = process_test_files env (before ++ after)).
Proof.
  intros Hroot Hin Hbad.
  assert (_parse_junit_xml env file_path = Raises ValueError) as Hraise.
  { unfold _parse_junit_xml. rewrite Hroot.
    now apply (parse_suite_elems_raises env file_path _ bad). }
  split; [exact Hraise|]. intros Hxml before after.
  apply process_skip. intros acc. apply (process_file_raises _ _ _ ValueError).
  unfold dispatch. rewrite Hxml. simpl. now rewrite Hraise.
Qed.

Lemma junit_conversion_error_discards_file_witness :
  _parse_junit_xml broken_counter_env (mkPath "run" "junit_results.xml")
  = Raises ValueError
  /\ (PyStr.lower (path_suffix (mkPath "run" "junit_results.xml")) = ".xml" ->
      forall before after,
        process_test_files broken_counter_env
          (before ++ mkPath "run" "junit_results.xml" :: after)
        = process_test_files broken_counter_env (before ++ after)).
Proof.
  apply (junit_conversion_error_discards_file broken_counter_env
           (mkPath "run" "junit_results.xml")
           (mkElement "testsuites" [] None
              [suite_with "good" "5" "1" "0" "1";
               suite_with "bad" "five" "0" "0" "0"])
           (suite_with "bad" "five" "0" "0" "0")).
  - reflexivity.
  - right. left. reflexivity.
  - left. reflexivity.
Defined.

(** ** The JSON parser on a [tests] list *)

Section JsonFacts.

Lemma json_test_step_status (suite_name : string) (r : TestSuiteResult)
    (t : JsonTest) :
  let r' := json_test_step suite_name r t in
  sr_name r' = sr_name r /\ sr_total r' = sr_total r
  /\ sr_duration r' = sr_duration r
  /\ sr_passed r' = sr_passed r + count_status "passed" [t]
  /\ sr_failed r' = sr_failed r + count_status "failed" [t]
  /\ sr_skipped r' = sr_skipped r + count_status "skipped" [t]
  /\ sr_errors r' = sr_errors r + count_other [t]
  /\ map tr_status (sr_tests r') = (map tr_status (sr_tests r) ++ [json_status t])%list.
Proof.
  unfold json_test_step, count_status, count_other, is_other_status.
  fold (json_status t). cbn [List.filter].
  destruct (String.eqb (json_status t) "passed") eqn:E1.
  { apply String.eqb_eq in E1. rewrite E1. cbn.
    rewrite map_app. repeat split; try lia; try congruence. }
  destruct (String.eqb (json_status t) "failed") eqn:E2.
  { apply String.eqb_eq in E2. rewrite E2. cbn.
    rewrite map_app. repeat split; try lia; try congruence. }
  destruct (String.eqb (json_status t) "skipped") eqn:E3.
  { apply String.eqb_eq in E3. rewrite E3. cbn.
    rewrite map_app. repeat split; try lia; try congruence. }
  cbn. rewrite map_app. repeat split; try lia; try congruence.
Qed.

Lemma count_status_cons (status : string) (t : JsonTest) (tests : list JsonTest) :
  count_status status (t :: tests)
  = count_status status [t] + count_status status tests.
Proof.
  unfold count_status. cbn [List.filter].
  destruct (String.eqb (json_status t) status); cbn [List.length]; lia.
Qed.

Lemma count_other_cons (t : JsonTest) (tests : list JsonTest) :
  count_other (t :: tests) = count_other [t] + count_other tests.
Proof.
  unfold count_other. cbn [List.filter].
  destruct (is_other_status (json_status t)); cbn [List.length]; lia.
Qed.

(** The loop over the [tests] array: every test goes to exactly one
    counter, by its lower-cased outcome. *)
Lemma json_fold_counters (suite_name : string) (tests : list JsonTest) :
  forall r : TestSuiteResult,
    let r' := fold_left (json_test_step suite_name) tests r in
    sr_name r' = sr_name r /\ sr_total r' = sr_total r
    /\ sr_duration r' = sr_duration r
    /\ sr_passed r' = sr_passed r + count_status "passed" tests
    /\ sr_failed r' = sr_failed r + count_status "failed" tests
    /\ sr_skipped r' = sr_skipped r + count_status "skipped" tests
    /\ sr_errors r' = sr_errors r + count_other tests
    /\ map tr_status (sr_tests r')
       = (map tr_status (sr_tests r) ++ map json_status tests)%list.
Proof.
  induction tests as [|t tests IH]; intros r; cbn [fold_left].
  - cbn. rewrite app_nil_r. repeat split; unfold count_status, count_other;
      cbn; lia.
  - destruct (IH (json_test_step suite_name r t))
      as (H1 & H2 & H3 & H4 & H5 & H6 & H7 & H8).
    destruct (json_test_step_status suite_name r t)
      as (G1 & G2 & G3 & G4 & G5 & G6 & G7 & G8).
    cbn zeta. rewrite H1, H2, H3, H4, H5, H6, H7, H8.
    rewrite G1, G2, G3, G4, G5, G6, G7, G8.
    rewrite (count_status_cons "passed" t tests),
      (count_status_cons "failed" t tests),
      (count_status_cons "skipped" t tests), (count_other_cons t tests).
    cbn [map]. rewrite <- app_assoc. repeat split; lia.
Qed.

(** The four counts cover the list. *)
Lemma counts_cover (tests : list JsonTest) :
  count_status "passed" tests + count_status "failed" tests
  + count_status "skipped" tests + count_other tests
  = Z.of_nat (List.length tests)
  /\ 0 <= count_status "passed" tests /\ 0 <= count_status "failed" tests
  /\ 0 <= count_status "skipped" tests /\ 0 <= count_other tests.
Proof.
  induction tests as [|t tests IH].
  - unfold count_status, count_other. cbn. lia.
  - rewrite (count_status_cons "passed"), (count_status_cons "failed"),
      (count_status_cons "skipped"), count_other_cons.
    cbn [List.length]. rewrite Nat2Z.inj_succ.
    assert (count_status "passed" [t] + count_status "failed" [t]
            + count_status "skipped" [t] + count_other [t] = 1
            /\ 0 <= count_status "passed" [t] /\ 0 <= count_status "failed" [t]
            /\ 0 <= count_status "skipped" [t] /\ 0 <= count_other [t]) as H1.
    { unfold count_status, count_other, is_other_status. cbn [List.filter].
      destruct (String.eqb (json_status t) "passed") eqn:E1.
      { apply String.eqb_eq in E1. rewrite E1. cbn. lia. }
      destruct (String.eqb (json_status t) "failed") eqn:E2.
      { apply String.eqb_eq in E2. rewrite E2. cbn. lia. }
      destruct (String.eqb (json_status t) "skipped") eqn:E3; cbn; lia. }
    lia.
Qed.

(** Nothing but skipped tests: the three counts the filter looks at are
    zero. *)
Lemma all_skipped_counts (tests : list JsonTest) :
  (count_status "passed" tests <= 0 /\ count_status "failed" tests <= 0
   /\ count_other tests <= 0)
  <-> Forall (fun t => json_status t = "skipped") tests.
Proof.
  induction tests as [|t tests IH].
  - unfold count_status, count_other. cbn. split; [constructor | lia].
  - rewrite (count_status_cons "passed"), (count_status_cons "failed"),
      count_other_cons.
    destruct (counts_cover tests) as (_ & P1 & P2 & _ & P3).
    assert ((count_status "passed" [t] = 0 /\ count_status "failed" [t] = 0
             /\ count_other [t] = 0 /\ json_status t = "skipped")
            \/ (0 < count_status "passed" [t] + count_status "failed" [t]
                    + count_other [t]
                /\ 0 <= count_status "passed" [t]
                /\ 0 <= count_status "failed" [t] /\ 0 <= count_other [t]
                /\ json_status t <> "skipped")) as [H | H].
    { unfold count_status, count_other, is_other_status. cbn [List.filter].
      destruct (String.eqb (json_status t) "passed") eqn:E1.
      { apply String.eqb_eq in E1. rewrite E1. right. cbn.
        repeat split; try lia. discriminate. }
      destruct (String.eqb (json_status t) "failed") eqn:E2.
      { apply String.eqb_eq in E2. rewrite E2. right. cbn.
        repeat split; try lia. discriminate. }
      destruct (String.eqb (json_status t) "skipped") eqn:E3.
      - apply String.eqb_eq in E3. left. cbn. auto.
      - apply String.eqb_neq in E3. right. cbn. repeat split; try lia. exact E3. }
    + destruct H as (-> & -> & -> & Hs). split.
      * intros Hc. constructor; [exact Hs|]. apply IH. lia.
      * intros Hall. inversion Hall; subst. apply IH in H2. lia.
    + split; [lia|]. intros Hall. inversion Hall; subst. tauto.
Qed.

End JsonFacts.

(** The record the JSON parser builds from a [tests] list, and what it
    returns. *)
Lemma parse_json_tests_eq (env : Env) (file_path : Path)
    (tests : list JsonTest) (duration : option float) :
  json_load env file_path = Returns (JsonTests tests duration) ->
  exists r : TestSuiteResult,
    sr_name r = path_stem file_path
    /\ sr_total r = Z.of_nat (List.length tests)
    /\ sr_passed r = count_status "passed" tests
    /\ sr_failed r = count_status "failed" tests
    /\ sr_skipped r = count_status "skipped" tests
    /\ sr_errors r = count_other tests
    /\ map tr_status (sr_tests r) = map json_status tests
    /\ _parse_json_report env file_path
       = Returns (if _has_meaningful_results (sr_passed r) (sr_failed r)
                       (sr_errors r)
                  then [(path_stem file_path, r)] else []).
Proof.
  intros Hload. unfold _parse_json_report. rewrite Hload.
  destruct (json_fold_counters (path_stem file_path) tests
              (new_suite (path_stem file_path)))
    as (H1 & H2 & H3 & H4 & H5 & H6 & H7 & H8).
  cbn zeta in H1, H2, H3, H4, H5, H6, H7, H8.
  set (folded := fold_left (json_test_step (path_stem file_path)) tests
                   (new_suite (path_stem file_path))) in *.
  exists (with_duration (or_default duration 0%float)
            (with_total (Z.of_nat (List.length (sr_tests folded))) folded)).
  cbn [sr_name sr_total sr_passed sr_failed sr_skipped sr_errors sr_tests
       with_duration with_total].
  split; [exact H1|]. split.
  { f_equal. rewrite <- (List.length_map tr_status), H8, List.length_app,
      !List.length_map. reflexivity. }
  split; [rewrite H4; cbn; lia|]. split; [rewrite H5; cbn; lia|].
  split; [rewrite H6; cbn; lia|]. split; [rewrite H7; cbn; lia|].
  split; [rewrite H8; reflexivity|].
  destruct (_has_meaningful_results _ _ _); reflexivity.
Qed.

(** X6. From a JSON report with a [tests] list, every test is counted
    exactly once: as passed, failed or skipped when its lower-cased outcome
    is that word, and as an error otherwise (a missing outcome included).
    So in the record the parser returns, the total is the number of tests
    and equals passed + failed + skipped + errors, no counter is negative,
    and the tests carry the lower-cased outcomes in the order of the
    list. *)
Theorem json_tests_counted_once
    (env : Env) (file_path : Path) (tests : list JsonTest)
    (duration : option float) (results : PyDict.t TestSuiteResult)
    (k : string) (r : TestSuiteResult) :
  json_load env file_path = Returns (JsonTests tests duration) ->
  _parse_json_report env file_path = Returns results ->
  PyDict.get k results = Some r ->
  k = path_stem file_path /\ sr_name r = k
  /\ sr_total r = Z.of_nat (List.length tests)
  /\ sr_total r = sr_passed r + sr_failed r + sr_skipped r + sr_errors r
  /\ sr_passed r = count_status "passed" tests
  /\ sr_failed r = count_status "failed" tests
  /\ sr_skipped r = count_status "skipped" tests
  /\ sr_errors r = count_other tests
  /\ 0 <= sr_passed r /\ 0 <= sr_failed r /\ 0 <= sr_skipped r
  /\ 0 <= sr_errors r
  /\ map tr_status (sr_tests r) = map json_status tests.
Proof.
  intros Hload Hrun Hget.
  destruct (parse_json_tests_eq env file_path tests duration Hload)
    as (r0 & N & T & P & F & S & E & M & Heq).
  rewrite Heq in Hrun. injection Hrun as <-.
  destruct (_has_meaningful_results _ _ _); [|discriminate].
  simpl in Hget. destruct (String.eqb k (path_stem file_path)) eqn:Ek;
    [|discriminate].
  apply String.eqb_eq in Ek. injection Hget as <-.
  destruct (counts_cover tests) as (C & C1 & C2 & C3 & C4).
  rewrite N, T, P, F, S, E, M. repeat split; try lia; congruence.
Qed.

Lemma json_tests_counted_once_witness :
  "mixed_report" = path_stem (mkPath "run" "mixed_report.json")
  /\ sr_name mixed_report_result = "mixed_report"
  /\ sr_total mixed_report_result = Z.of_nat (List.length mixed_report_tests)
  /\ sr_total mixed_report_result
     = sr_passed mixed_report_result + sr_failed mixed_report_result
       + sr_skipped mixed_report_result + sr_errors mixed_report_result
  /\ sr_passed mixed_report_result = count_status "passed" mixed_report_tests
  /\ sr_failed mixed_report_result = count_status "failed" mixed_report_tests
  /\ sr_skipped mixed_report_result = count_status "skipped" mixed_report_tests
  /\ sr_errors mixed_report_result = count_other mixed_report_tests
  /\ 0 <= sr_passed mixed_report_result /\ 0 <= sr_failed mixed_report_result
  /\ 0 <= sr_skipped mixed_report_result
  /\ 0 <= sr_errors mixed_report_result
  /\ map tr_status (sr_tests mixed_report_result)
     = map json_status mixed_report_tests.
Proof.
  apply (json_tests_counted_once json_tests_env (mkPath "run" "mixed_report.json")
           mixed_report_tests None
           [("mixed_report", mixed_report_result)] "mixed_report"
           mixed_report_result).
  - reflexivity.
  - reflexivity.
  - reflexivity.
Defined.

(** X7. A JSON report with a [tests] list is left out exactly when every
    test in it is skipped (an empty list included); otherwise the parser
    returns one suite, named after the file. A test whose outcome is
    missing or unknown counts as an error and so keeps the report. *)
Theorem json_tests_excluded_iff_all_skipped
    (env : Env) (file_path : Path) (tests : list JsonTest)
    (duration : option float) :
  json_load env file_path = Returns (JsonTests tests duration) ->
  (_parse_json_report env file_path = Returns PyDict.empty
   <-> Forall (fun t => json_status t = "skipped") tests)
  /\ (_parse_json_report env file_path = Returns PyDict.empty
      \/ exists r, _parse_json_report env file_path
                   = Returns [(path_stem file_path, r)]).
Proof.
  intros Hload.
  destruct (parse_json_tests_eq env file_path tests duration Hload)
    as (r0 & N & T & P & F & S & E & M & Heq).
  rewrite Heq. rewrite <- all_skipped_counts, <- P, <- F, <- E.
  rewrite <- not_meaningful_iff.
  destruct (_has_meaningful_results _ _ _).
  - split; [split; discriminate | right; eauto].
  - split; [split; reflexivity | left; reflexivity].
Qed.

Lemma json_tests_excluded_iff_all_skipped_witness :
  (_parse_json_report json_tests_env (mkPath "run" "skipped_report.json")
   = Returns PyDict.empty
   <-> Forall (fun t => json_status t = "skipped") skipped_report_tests)
  /\ (_parse_json_report json_tests_env (mkPath "run" "skipped_report.json")
      = Returns PyDict.empty
      \/ exists r, _parse_json_report json_tests_env
                     (mkPath "run" "skipped_report.json")
                   = Returns [(path_stem (mkPath "run" "skipped_report.json"), r)]).
Proof.
  apply (json_tests_excluded_iff_all_skipped json_tests_env
           (mkPath "run" "skipped_report.json") skipped_report_tests None).
  reflexivity.
Defined.

(** ** The HTML parser *)

(** What the HTML parser returns once the file is read and scanned. *)
Lemma parse_html_report_eq (env : Env) (file_path : Path) (content : string)
    (counts : HtmlCounts) :
  read_text env file_path = Returns content ->
  html_scan env content = Returns counts ->
  _parse_html_report env file_path
  = if _has_meaningful_results (hc_passed counts) (hc_failed counts)
         (hc_errors counts)
       && (0 <? (if hc_total counts =? 0
                 then hc_passed counts + hc_failed counts + hc_skipped counts
                      + hc_errors counts
                 else hc_total counts))
    then [(path_stem file_path,
           {| sr_name := path_stem file_path;
              sr_total := if hc_total counts =? 0
                          then hc_passed counts + hc_failed counts
                               + hc_skipped counts + hc_errors counts
                          else hc_total counts;
              sr_passed := hc_passed counts; sr_failed := hc_failed counts;
              sr_skipped := hc_skipped counts; sr_errors := hc_errors counts;
              sr_duration := 0%float; sr_tests := [] |})]
    else [].
Proof.
  intros Hread Hscan. unfold _parse_html_report. rewrite Hread. cbn [obind].
  rewrite Hscan. cbn [obind].
  cbv [with_errors with_skipped with_failed with_passed with_total new_suite
       sr_name sr_total sr_passed sr_failed sr_skipped sr_errors sr_duration
       sr_tests].
  destruct (hc_total counts =? 0);
    cbv [with_total sr_name sr_total sr_passed sr_failed sr_skipped sr_errors
         sr_duration sr_tests];
    destruct (_has_meaningful_results (hc_passed counts) (hc_failed counts)
                (hc_errors counts)); cbn [negb andb try_except];
    try reflexivity;
    match goal with |- context [0 <? ?t] => destruct (0 <? t) end; reflexivity.
Qed.

(** X8. The HTML parser never raises and returns at most one suite, named
    after the file. A returned record passed the filter and has a positive
    total, which is the scanned total unless that is zero, when it is the
    sum of the four counters; it never carries tests or a duration. When
    the file cannot be read or the scan raises, the result is empty. *)
Theorem html_report_shape (env : Env) (file_path : Path) :
  (_parse_html_report env file_path = PyDict.empty
   \/ exists content counts r,
        read_text env file_path = Returns content
        /\ html_scan env content = Returns counts
        /\ _parse_html_report env file_path = [(path_stem file_path, r)]
        /\ sr_name r = path_stem file_path
        /\ sr_passed r = hc_passed counts /\ sr_failed r = hc_failed counts
        /\ sr_skipped r = hc_skipped counts /\ sr_errors r = hc_errors counts
        /\ sr_total r
           = (if hc_total counts =? 0
              then hc_passed counts + hc_failed counts + hc_skipped counts
                   + hc_errors counts
              else hc_total counts)
        /\ 0 < sr_total r
        /\ _has_meaningful_results (sr_passed r) (sr_failed r) (sr_errors r)
           = true
        /\ sr_tests r = [] /\ sr_duration r = 0%float)
  /\ (forall e, read_text env file_path = Raises e ->
        _parse_html_report env file_path = PyDict.empty)
  /\ (forall content e,
        read_text env file_path = Returns content ->
        html_scan env content = Raises e ->
        _parse_html_report env file_path = PyDict.empty).
Proof.
  split; [|split].
  - destruct (read_text env file_path) as [content|e] eqn:Hread;
      [|left; unfold _parse_html_report; now rewrite Hread].
    destruct (html_scan env content) as [counts|e] eqn:Hscan;
      [|left; unfold _parse_html_report; rewrite Hread; cbn [obind];
        now rewrite Hscan].
    rewrite (parse_html_report_eq env file_path content counts Hread Hscan).
    destruct (_has_meaningful_results _ _ _) eqn:M; [|now left].
    cbn [andb]. destruct (0 <? _) eqn:Hpos; [|now left].
    apply Z.ltb_lt in Hpos.
    right. exists content, counts. eexists.
    split; [reflexivity|]. split; [exact Hscan|]. split; [reflexivity|].
    cbn [sr_name sr_total sr_passed sr_failed sr_skipped sr_errors sr_tests
         sr_duration].
    repeat split; auto.
  - intros e H. unfold _parse_html_report. now rewrite H.
  - intros content e H1 H2. unfold _parse_html_report. rewrite H1. cbn [obind].
    now rewrite H2.
Qed.

(** ** The names the text parser extracts *)

Section FailedNames.

Local Open Scope string_scope.

Lemma lazy_name_sound (s n : string) :
  Re.lazy_name s = Some n ->
  n <> ""
  /\ (forall c, In c (list_ascii_of_string n) -> c <> "010"%char)
  /\ exists post, s = n ++ " -" ++ post.
Proof.
  revert n. induction s as [|c s IH]; intros n; cbn [Re.lazy_name];
    [discriminate|].
  destruct (Ascii.eqb c "010") eqn:Ec; [discriminate|].
  apply Ascii.eqb_neq in Ec.
  destruct (PyStr.startswith s " -") eqn:Es.
  - intros [= <-]. split; [discriminate|]. split.
    + intros x [<- | []]. exact Ec.
    + apply startswith_iff in Es. destruct Es as [post ->]. now exists post.
  - destruct (Re.lazy_name s) as [m|]; [|discriminate].
    intros [= <-]. destruct (IH m eq_refl) as (_ & Hnl & post & ->).
    split; [discriminate|]. split.
    + intros x [<- | Hx]; [exact Ec | now apply Hnl].
    + now exists post.
Qed.

Lemma match_failed_sound (s n : string) :
  Re.match_failed s = Some n ->
  n <> ""
  /\ (forall c, In c (list_ascii_of_string n) -> c <> "010"%char)
  /\ exists post, s = "FAILED " ++ n ++ " -" ++ post.
Proof.
  unfold Re.match_failed.
  destruct (PyStr.startswith s "FAILED ") eqn:E; [|discriminate].
  intros H. destruct (lazy_name_sound _ _ H) as (Hne & Hnl & post & Hpost).
  split; [exact Hne|]. split; [exact Hnl|]. exists post.
  apply startswith_drop in E. rewrite E. cbn [String.length] in *.
  now rewrite Hpost at 1.
Qed.

(** Every name [re.findall] returns stands in the text between
    ['FAILED '] and [' -']. *)
Lemma findall_failed_sound (s : string) :
  forall (skip : nat) (n : string),
    In n (Re.findall_failed_from skip s) ->
    n <> ""
    /\ (forall c, In c (list_ascii_of_string n) -> c <> "010"%char)
    /\ PyStr.contains ("FAILED " ++ n ++ " -") s = true.
Proof.
  induction s as [|c s IH]; intros skip n; cbn [Re.findall_failed_from];
    [intros []|].
  assert (forall k, In n (Re.findall_failed_from k s) ->
                    n <> ""
                    /\ (forall c, In c (list_ascii_of_string n) -> c <> "010"%char)
                    /\ PyStr.contains ("FAILED " ++ n ++ " -") (String c s)
                       = true) as Htail.
  { intros k Hk. destruct (IH k n Hk) as (H1 & H2 & H3).
    split; [exact H1|]. split; [exact H2|].
    cbn [PyStr.contains]. rewrite H3. apply orb_true_r. }
  destruct skip as [|k]; [|apply Htail].
  destruct (Re.match_failed (String c s)) as [m|] eqn:E; [|apply Htail].
  intros [<- | Hin]; [|now apply (Htail _ Hin)].
  destruct (match_failed_sound _ _ E) as (H1 & H2 & post & H3).
  split; [exact H1|]. split; [exact H2|].
  apply contains_iff. exists "", post. rewrite H3.
  cbn [String.append]. now rewrite !append_assoc.
Qed.

End FailedNames.

(** X9. Every test the text parser records is a failed test of this suite
    whose name was really found in the log: the name is not empty, holds
    no line feed, and stands in the content between ['FAILED '] and
    [' -']. The tests come in the order of the log and carry no message
    and no duration. *)
Theorem text_tests_are_failed_lines
    (suite_name content : string) (r : TestSuiteResult) (t : TestResult) :
  text_suite_result suite_name content = Returns r ->
  In t (sr_tests r) ->
  tr_status t = "failed" /\ tr_suite t = Some suite_name
  /\ tr_failure_message t = None /\ tr_error_message t = None
  /\ tr_duration t = 0%float
  /\ tr_name t <> ""
  /\ (forall c, In c (list_ascii_of_string (tr_name t)) -> c <> "010"%char)
  /\ PyStr.contains ("FAILED " ++ tr_name t ++ " -") content = true
  /\ map tr_name (sr_tests r) = Re.findall_failed content.
Proof.
  intros Hr Hin. apply text_suite_result_returns in Hr as [_ ->].
  cbn [text_record sr_tests] in *. apply in_map_iff in Hin. destruct Hin as [n [<- Hn]].
  cbn [failed_test tr_status tr_suite tr_failure_message tr_error_message
       tr_duration tr_name].
  destruct (findall_failed_sound content 0 n Hn) as (H1 & H2 & H3).
  repeat (split; [first [reflexivity | assumption]|]).
  rewrite map_map. cbn [failed_test tr_name]. apply map_id.
Qed.

Lemma text_tests_are_failed_lines_witness :
  tr_status (failed_test "pytest_log" "test_a") = "failed"
  /\ tr_suite (failed_test "pytest_log" "test_a") = Some "pytest_log"
  /\ tr_failure_message (failed_test "pytest_log" "test_a") = None
  /\ tr_error_message (failed_test "pytest_log" "test_a") = None
  /\ tr_duration (failed_test "pytest_log" "test_a") = 0%float
  /\ tr_name (failed_test "pytest_log" "test_a") <> ""
  /\ (forall c,
        In c (list_ascii_of_string (tr_name (failed_test "pytest_log" "test_a"))) ->
        c <> "010"%char)
  /\ PyStr.contains
       ("FAILED " ++ tr_name (failed_test "pytest_log" "test_a") ++ " -")
       "FAILED test_a - boom, 3 skipped in 0.1s" = true
  /\ map tr_name
       (sr_tests (mkTestSuiteResult "pytest_log" 3 0 0 3 0 0
                    [failed_test "pytest_log" "test_a"]))
     = Re.findall_failed "FAILED test_a - boom, 3 skipped in 0.1s".
Proof.
  apply (text_tests_are_failed_lines "pytest_log"
           "FAILED test_a - boom, 3 skipped in 0.1s"
           (mkTestSuiteResult "pytest_log" 3 0 0 3 0 0
              [failed_test "pytest_log" "test_a"])
           (failed_test "pytest_log" "test_a")).
  - reflexivity.
  - left. reflexivity.
Defined.

(** X10. The counts the text parser reads are never negative (a count
    pattern captures digits only), so the record's total is at least each
    of its counters, and the suite is returned exactly when the file reads
    and at least one of the four counts is positive. *)
Theorem text_counts_nonnegative
    (env : Env) (file_path : Path) (content : string) (r : TestSuiteResult) :
  read_text env file_path = Returns content ->
  text_suite_result (path_stem file_path) content = Returns r ->
  0 <= sr_passed r /\ 0 <= sr_failed r /\ 0 <= sr_skipped r /\ 0 <= sr_errors r
  /\ sr_passed r <= sr_total r /\ sr_failed r <= sr_total r
  /\ sr_skipped r <= sr_total r /\ sr_errors r <= sr_total r
  /\ (_parse_text_report env file_path = [(path_stem file_path, r)]
      <-> (0 < sr_passed r \/ 0 < sr_failed r \/ 0 < sr_skipped r
           \/ 0 < sr_errors r))
  /\ (_parse_text_report env file_path = PyDict.empty
      <-> (sr_passed r = 0 /\ sr_failed r = 0 /\ sr_skipped r = 0
           /\ sr_errors r = 0)).
Proof.
  intros Hread Hr. rewrite (parse_text_report_eq env file_path content r Hread Hr).
  apply text_suite_result_returns in Hr as [_ ->].
  cbn [text_record sr_passed sr_failed sr_skipped sr_errors sr_total].
  destruct (count_of_search "passed" content 0 _ eq_refl) as [_ Hp].
  destruct (count_of_search "failed" content 0 _ eq_refl) as [_ Hf].
  destruct (count_of_search "skipped" content 0 _ eq_refl) as [_ Hs].
  destruct (count_of_search "error" content 0 _ eq_refl) as [_ He].
  repeat (split; [lia|]).
  destruct (0 <? _) eqn:E; [apply Z.ltb_lt in E | apply Z.ltb_ge in E];
    split; split; intros H; first [discriminate | reflexivity | lia].
Qed.

Lemma text_counts_nonnegative_witness :
  0 <= 0 /\ 0 <= 0 /\ 0 <= 3 /\ 0 <= 0
  /\ 0 <= 3 /\ 0 <= 3 /\ 3 <= 3 /\ 0 <= 3
  /\ (_parse_text_report example_env (mkPath "run" "pytest_log.txt")
      = [("pytest_log",
          mkTestSuiteResult "pytest_log" 3 0 0 3 0 0
            [failed_test "pytest_log" "test_a"])]
      <-> (0 < 0 \/ 0 < 0 \/ 0 < 3 \/ 0 < 0))
  /\ (_parse_text_report example_env (mkPath "run" "pytest_log.txt")
      = PyDict.empty
      <-> (0 = 0 /\ 0 = 0 /\ 3 = 0 /\ 0 = 0)).
Proof.
  apply (text_counts_nonnegative example_env (mkPath "run" "pytest_log.txt")
           "FAILED test_a - boom, 3 skipped in 0.1s"
           (mkTestSuiteResult "pytest_log" 3 0 0 3 0 0
              [failed_test "pytest_log" "test_a"])).
  - reflexivity.
  - reflexivity.
Defined.

(** ** Laws of the merger *)

(** X11. Merging is associative on the name, the five counters and the
    tests, so three records merged in two steps give the same counts and
    the same test order however the steps are grouped; it is commutative
    on the counters only (the name and the test order are the first
    record's first). The duration is a float sum, and there the grouping
    can show. *)
Theorem merge_laws :
  (forall a b c : TestSuiteResult,
      sr_name (_merge_suite_results (_merge_suite_results a b) c)
      = sr_name (_merge_suite_results a (_merge_suite_results b c))
      /\ sr_total (_merge_suite_results (_merge_suite_results a b) c)
         = sr_total (_merge_suite_results a (_merge_suite_results b c))
      /\ sr_passed (_merge_suite_results (_merge_suite_results a b) c)
         = sr_passed (_merge_suite_results a (_merge_suite_results b c))
      /\ sr_failed (_merge_suite_results (_merge_suite_results a b) c)
         = sr_failed (_merge_suite_results a (_merge_suite_results b c))
      /\ sr_skipped (_merge_suite_results (_merge_suite_results a b) c)
         = sr_skipped (_merge_suite_results a (_merge_suite_results b c))
      /\ sr_errors (_merge_suite_results (_merge_suite_results a b) c)
         = sr_errors (_merge_suite_results a (_merge_suite_results b c))
      /\ sr_tests (_merge_suite_results (_merge_suite_results a b) c)
         = sr_tests (_merge_suite_results a (_merge_suite_results b c)))
  /\ (forall a b : TestSuiteResult,
         sr_total (_merge_suite_results a b) = sr_total (_merge_suite_results b a)
         /\ sr_passed (_merge_suite_results a b)
            = sr_passed (_merge_suite_results b a)
         /\ sr_failed (_merge_suite_results a b)
            = sr_failed (_merge_suite_results b a)
         /\ sr_skipped (_merge_suite_results a b)
            = sr_skipped (_merge_suite_results b a)
         /\ sr_errors (_merge_suite_results a b)
            = sr_errors (_merge_suite_results b a)
         /\ sr_name (_merge_suite_results a b) = sr_name a
         /\ tests_count (_merge_suite_results a b)
            = tests_count a + tests_count b)
  /\ (exists a b c : TestSuiteResult,
         sr_duration (_merge_suite_results (_merge_suite_results a b) c)
         <> sr_duration (_merge_suite_results a (_merge_suite_results b c))).
Proof.
  split; [|split].
  - intros a b c. cbn. rewrite <- app_assoc. repeat split; lia.
  - intros a b. unfold tests_count. cbn. rewrite List.length_app.
    repeat split; lia.
  - exists (mkTestSuiteResult "s" 0 0 0 0 0 9007199254740992 []),
      (mkTestSuiteResult "s" 0 0 0 0 0 1 []),
      (mkTestSuiteResult "s" 0 0 0 0 0 1 []).
    cbn. intros H.
    apply (f_equal (fun x => PrimFloat.eqb x 9007199254740992)) in H.
    vm_compute in H. discriminate.
Qed.

(** ** What the orchestrator keeps *)

Section Conservation.

(** A field that the merger adds up. *)
Variable field : TestSuiteResult -> Z.
Hypothesis field_merge :
  forall a b, field (_merge_suite_results a b) = field a + field b.

Lemma sum_over_set (k : string) (v : TestSuiteResult)
    (d : PyDict.t TestSuiteResult) :
  sum_over field (PyDict.set k v d)
  = sum_over field d + field v
    - match PyDict.get k d with Some old => field old | None => 0 end.
Proof.
  induction d as [|[k' v'] d IH]; cbn [PyDict.set PyDict.get sum_over fold_right snd].
  - lia.
  - destruct (String.eqb k k'); cbn [sum_over fold_right snd].
    + lia.
    + fold (sum_over field (PyDict.set k v d)). fold (sum_over field d).
      rewrite IH. lia.
Qed.

Lemma sum_over_merge_entry (acc : PyDict.t TestSuiteResult)
    (item : string * TestSuiteResult) :
  sum_over field (merge_entry acc item) = sum_over field acc + field (snd item).
Proof.
  destruct item as [k v]. unfold merge_entry. cbn [snd].
  destruct (PyDict.get k acc) as [old|] eqn:E; rewrite sum_over_set, E.
  - rewrite field_merge. lia.
  - lia.
Qed.

Lemma sum_over_merge_results (suite_results : PyDict.t TestSuiteResult) :
  forall acc,
    sum_over field (merge_results acc suite_results)
    = sum_over field acc + sum_over field suite_results.
Proof.
  unfold merge_results.
  induction suite_results as [|item rest IH]; intros acc; cbn [fold_left].
  - cbn. lia.
  - rewrite IH, sum_over_merge_entry. cbn [sum_over fold_right].
    fold (sum_over field rest). lia.
Qed.

Lemma sum_over_process_file (P : Parsers) (acc : PyDict.t TestSuiteResult)
    (file_path : Path) :
  sum_over field (process_file P acc file_path)
  = sum_over field acc + sum_over field (file_suites P file_path).
Proof.
  unfold process_file, file_suites.
  destruct (_is_test_result_file file_path); cbn [negb]; [|cbn; lia].
  destruct (dispatch P file_path) as [[suite_results|e]|]; cbn [try_except obind];
    [apply sum_over_merge_results | cbn; lia | cbn; lia].
Qed.

Lemma sum_over_process (P : Parsers) (files : list Path) :
  sum_over field (process_test_files_with P files)
  = fold_right (fun file_path acc =>
                  sum_over field (file_suites P file_path) + acc) 0 files.
Proof.
  unfold process_test_files_with.
  assert (forall acc,
             sum_over field (fold_left (process_file P) files acc)
             = sum_over field acc
               + fold_right (fun file_path acc =>
                               sum_over field (file_suites P file_path) + acc)
                   0 files) as H.
  { induction files as [|f files IH]; intros acc; cbn [fold_left fold_right].
    - lia.
    - rewrite IH, sum_over_process_file. lia. }
  rewrite H. cbn. lia.
Qed.

End Conservation.

Section StatsFacts.

Lemma stats_add_suite_eq (a b c d e : Z) (item : string * TestSuiteResult) :
  stats_add_suite
    [("total", a); ("passed", b); ("failed", c); ("skipped", d); ("errors", e)]
    item
  = Returns [("total", a + sr_total (snd item));
             ("passed", b + sr_passed (snd item));
             ("failed", c + sr_failed (snd item));
             ("skipped", d + sr_skipped (snd item));
             ("errors", e + sr_errors (snd item))].
Proof. destruct item as [k r]. reflexivity. Qed.

Lemma stats_add_suites_eq (suites : PyDict.t TestSuiteResult) :
  forall a b c d e : Z,
    for_each stats_add_suite suites
      [("total", a); ("passed", b); ("failed", c); ("skipped", d); ("errors", e)]
    = Returns [("total", a + sum_over sr_total suites);
               ("passed", b + sum_over sr_passed suites);
               ("failed", c + sum_over sr_failed suites);
               ("skipped", d + sum_over sr_skipped suites);
               ("errors", e + sum_over sr_errors suites)].
Proof.
  induction suites as [|item rest IH]; intros a b c d e; cbn [for_each].
  - cbn. now rewrite !Z.add_0_r.
  - rewrite stats_add_suite_eq. cbn [obind]. rewrite IH.
    cbn [sum_over fold_right]. now rewrite !Z.add_assoc.
Qed.

(** [_calculate_overall_stats] never raises: its five keys are always
    there, and each holds the sum of its field over all suites of all
    artifacts. *)
Lemma calculate_overall_stats_eq
    (test_results : PyDict.t (PyDict.t TestSuiteResult)) :
  _calculate_overall_stats test_results
  = Returns [("total", sum_over_artifacts sr_total test_results);
             ("passed", sum_over_artifacts sr_passed test_results);
             ("failed", sum_over_artifacts sr_failed test_results);
             ("skipped", sum_over_artifacts sr_skipped test_results);
             ("errors", sum_over_artifacts sr_errors test_results)].
Proof.
  unfold _calculate_overall_stats.
  assert (forall a b c d e,
             for_each
               (fun stats (item : string * PyDict.t TestSuiteResult) =>
                  let (artifact_name, suites) := item in
                  for_each stats_add_suite suites stats)
               test_results
               [("total", a); ("passed", b); ("failed", c); ("skipped", d);
                ("errors", e)]
             = Returns [("total", a + sum_over_artifacts sr_total test_results);
                        ("passed", b + sum_over_artifacts sr_passed test_results);
                        ("failed", c + sum_over_artifacts sr_failed test_results);
                        ("skipped", d + sum_over_artifacts sr_skipped test_results);
                        ("errors", e + sum_over_artifacts sr_errors test_results)])
    as H; [|apply (H 0 0 0 0 0)].
  induction test_results as [|[artifact_name suites] rest IH]; intros a b c d e;
    cbn [for_each].
  - cbn. now rewrite !Z.add_0_r.
  - rewrite stats_add_suites_eq. cbn [obind]. rewrite IH.
    cbn [sum_over_artifacts fold_right snd]. now rewrite !Z.add_assoc.
Qed.

End StatsFacts.

(** X12. Nothing is lost or counted twice between the parsers and the
    report: for the suite map the orchestrator builds from a list of files,
    [_calculate_overall_stats] returns, under each of its five keys, the
    sum of that counter over all suites that the parsers returned for the
    files the gate accepted; the number of listed tests is kept in the
    same way. Files that are refused or whose parser raises add
    nothing. *)
Theorem overall_stats_conserved (P : Parsers) (artifact_name : string)
    (files : list Path) :
  _calculate_overall_stats [(artifact_name, process_test_files_with P files)]
  = Returns
      [("total", fold_right (fun file_path acc =>
                   sum_over sr_total (file_suites P file_path) + acc) 0 files);
       ("passed", fold_right (fun file_path acc =>
                    sum_over sr_passed (file_suites P file_path) + acc) 0 files);
       ("failed", fold_right (fun file_path acc =>
                    sum_over sr_failed (file_suites P file_path) + acc) 0 files);
       ("skipped", fold_right (fun file_path acc =>
                     sum_over sr_skipped (file_suites P file_path) + acc) 0 files);
       ("errors", fold_right (fun file_path acc =>
                    sum_over sr_errors (file_suites P file_path) + acc) 0 files)]
  /\ sum_over tests_count (process_test_files_with P files)
     = fold_right (fun file_path acc =>
                     sum_over tests_count (file_suites P file_path) + acc) 0 files.
Proof.
  split.
  - rewrite calculate_overall_stats_eq. cbn [sum_over_artifacts fold_right snd].
    rewrite !Z.add_0_r.
    rewrite (sum_over_process sr_total), (sum_over_process sr_passed),
      (sum_over_process sr_failed), (sum_over_process sr_skipped),
      (sum_over_process sr_errors); try reflexivity; intros a b; reflexivity.
  - apply sum_over_process. intros a b. unfold tests_count. cbn.
    rewrite List.length_app. lia.
Qed.

(** The two reports and the unreadable log of the example, in numbers. *)
Example overall_stats_example :
  _calculate_overall_stats
    [("PyTest test_report=A",
      process_test_files_with example_parsers
        [mkPath "suiteA" "results.xml"; mkPath "suiteA" "test_run.log";
         mkPath "suiteA" "results.json"])]
  = Returns [("total", 15); ("passed", 12); ("failed", 3); ("skipped", 0);
             ("errors", 0)].
Proof. reflexivity. Qed.

Section NamedEntries.

Lemma entries_named_set (k : string) (v : TestSuiteResult)
    (d : PyDict.t TestSuiteResult) :
  sr_name v = k -> entries_named d -> entries_named (PyDict.set k v d).
Proof.
  intros Hv. unfold entries_named.
  induction 1 as [|[k' v'] d Hx Hd IH]; cbn [PyDict.set].
  - repeat constructor. exact Hv.
  - destruct (String.eqb k k') eqn:E.
    + apply String.eqb_eq in E. subst k'. constructor; [exact Hv | exact Hd].
    + constructor; [exact Hx | exact IH].
Qed.

Lemma entries_named_get (k : string) (r : TestSuiteResult)
    (d : PyDict.t TestSuiteResult) :
  entries_named d -> PyDict.get k d = Some r -> sr_name r = k.
Proof.
  unfold entries_named. induction 1 as [|[k' v'] d Hx Hd IH]; cbn [PyDict.get];
    [discriminate|].
  destruct (String.eqb k k') eqn:E; [|exact IH].
  apply String.eqb_eq in E. subst k'. now intros [= <-].
Qed.

Lemma entries_named_merge (suite_results : PyDict.t TestSuiteResult) :
  entries_named suite_results ->
  forall acc, entries_named acc -> entries_named (merge_results acc suite_results).
Proof.
  unfold merge_results.
  induction 1 as [|[k v] rest Hx Hrest IH]; intros acc Hacc; cbn [fold_left];
    [exact Hacc|].
  apply IH. unfold merge_entry. cbn [fst snd] in Hx.
  destruct (PyDict.get k acc) as [old|] eqn:E.
  - apply entries_named_set; [|exact Hacc].
    cbn. now apply (entries_named_get k old acc).
  - now apply entries_named_set.
Qed.

Variable env : Env.

Lemma junit_entries_named (file_path : Path)
    (results : PyDict.t TestSuiteResult) :
  _parse_junit_xml env file_path = Returns results -> entries_named results.
Proof.
  unfold _parse_junit_xml.
  destruct (et_parse env file_path) as [root|ex];
    [|destruct ex; try discriminate; intros [= <-]; constructor].
  assert (entries_named (@PyDict.empty TestSuiteResult)) as H0 by constructor.
  revert H0. generalize (@PyDict.empty TestSuiteResult) as acc. revert results.
  induction (suite_elements root) as [|x suites IH]; intros results acc Hacc;
    cbn [parse_suite_elems].
  - now intros [= <-].
  - destruct (parse_suite_elem env file_path acc x) as [r1|] eqn:E;
      cbn [obind]; [|discriminate].
    apply IH. revert E. unfold parse_suite_elem.
    destruct (int_attr x "tests") as [t|]; cbn [obind]; [|discriminate].
    destruct (int_attr x "failures") as [f|]; cbn [obind]; [|discriminate].
    destruct (int_attr x "errors") as [e|]; cbn [obind]; [|discriminate].
    destruct (int_attr x "skipped") as [s|]; cbn [obind]; [|discriminate].
    destruct (float_attr env x "time") as [d|]; cbn [obind]; [|discriminate].
    match goal with |- context [negb ?b] => destruct b end; cbn [negb];
      [|now intros [= <-]].
    match goal with |- context [parse_testcases ?a ?b ?c ?d] =>
      destruct (parse_testcases a b c d) as [tests|] end; cbn [obind];
      [|discriminate].
    intros [= <-]. now apply entries_named_set.
Qed.

Lemma json_entries_named (file_path : Path)
    (results : PyDict.t TestSuiteResult) :
  _parse_json_report env file_path = Returns results -> entries_named results.
Proof.
  unfold _parse_json_report.
  destruct (json_load env file_path) as [[tests d|t p f s e d| |a]|ex].
  - destruct (json_fold_counters (path_stem file_path) tests
                (new_suite (path_stem file_path))) as (H1 & _).
    cbn zeta in H1.
    match goal with |- context [_has_meaningful_results ?a ?b ?c] =>
      destruct (_has_meaningful_results a b c) end;
      intros [= <-]; repeat constructor. cbn. exact H1.
  - match goal with |- context [_has_meaningful_results ?a ?b ?c] =>
      destruct (_has_meaningful_results a b c) end;
      intros [= <-]; repeat constructor.
  - intros [= <-]. constructor.
  - discriminate.
  - destruct ex; try discriminate; intros [= <-]; constructor.
Qed.

Lemma html_entries_named (file_path : Path) :
  entries_named (_parse_html_report env file_path).
Proof.
  destruct (read_text env file_path) as [content|e] eqn:Hread;
    [|unfold _parse_html_report; rewrite Hread; constructor].
  destruct (html_scan env content) as [counts|e] eqn:Hscan;
    [|unfold _parse_html_report; rewrite Hread; cbn [obind]; rewrite Hscan;
      constructor].
  rewrite (parse_html_report_eq env file_path content counts Hread Hscan).
  destruct (_ && _); repeat constructor.
Qed.

Lemma text_entries_named (file_path : Path) :
  entries_named (_parse_text_report env file_path).
Proof.
  unfold _parse_text_report.
  destruct (read_text env file_path) as [content|]; [|constructor].
  cbn [obind]. rewrite text_suite_result_eq.
  destruct (counts_short content); [|constructor].
  cbn [obind text_record sr_total].
  destruct (0 <? _); repeat constructor.
Qed.

End NamedEntries.

(** X13. In the orchestrator's output every record is stored under its own
    name and no name is a key twice: each parser names its record after
    the key it stores it under, and a merge keeps the name of the record
    that was there. *)
Theorem output_keys_are_names (env : Env) (files : list Path) :
  entries_named (process_test_files env files)
  /\ NoDup (PyDict.keys (process_test_files env files))
  /\ (forall k r,
        PyDict.get k (process_test_files env files) = Some r -> sr_name r = k).
Proof.
  assert (entries_named (process_test_files env files)) as Hnamed.
  { unfold process_test_files, process_test_files_with.
    assert (entries_named (@PyDict.empty TestSuiteResult)) as H0 by constructor.
    revert H0. generalize (@PyDict.empty TestSuiteResult) as acc.
    induction files as [|f files IH]; intros acc Hacc; cbn [fold_left];
      [exact Hacc|].
    apply IH. unfold process_file.
    destruct (_is_test_result_file f); cbn [negb]; [|exact Hacc].
    unfold dispatch, parsers_of.
    cbn [parse_junit_xml parse_json_report parse_html_report parse_text_report].
    destruct (String.eqb _ ".xml").
    { destruct (_parse_junit_xml env f) as [sr|] eqn:E; cbn; [|exact Hacc].
      apply entries_named_merge; [now apply (junit_entries_named env f)|exact Hacc]. }
    destruct (String.eqb _ ".json").
    { destruct (_parse_json_report env f) as [sr|] eqn:E; cbn; [|exact Hacc].
      apply entries_named_merge; [now apply (json_entries_named env f)|exact Hacc]. }
    destruct (String.eqb _ ".html").
    { cbn. apply entries_named_merge; [apply html_entries_named | exact Hacc]. }
    destruct (existsb _ _); [|exact Hacc].
    cbn. apply entries_named_merge; [apply text_entries_named | exact Hacc]. }
  split; [exact Hnamed|]. split; [apply process_test_files_nodup|].
  intros k r. now apply entries_named_get.
Qed.

(** ** The callers' loop *)

Section CollectFacts.

Variable fetch : Artifact -> outcome (Env * list Path).

(** What an entry of the collected results stands for. *)
Let collected (artifacts : list Artifact) (k : string)
    (v : PyDict.t TestSuiteResult) : Prop :=
  is_pytest_artifact k = true /\ v <> []
  /\ exists artifact extracted,
       In artifact artifacts /\ art_name artifact = k
       /\ fetch artifact = Returns extracted
       /\ v = process_test_files (fst extracted) (snd extracted).

Lemma collect_from_invariant (all_artifacts : list Artifact)
    (artifacts : list Artifact) :
  (forall a, In a artifacts -> In a all_artifacts) ->
  forall acc all,
    (forall k v, PyDict.get k acc = Some v -> collected all_artifacts k v) ->
    collect_from fetch acc artifacts = Returns all ->
    forall k v, PyDict.get k all = Some v -> collected all_artifacts k v.
Proof.
  induction artifacts as [|a artifacts IH]; intros Hsub acc all Hacc;
    cbn [collect_from].
  - now intros [= <-].
  - destruct (collect_step fetch acc a) as [acc'|] eqn:E; cbn [obind];
      [|discriminate].
    apply IH; [intros x Hx; apply Hsub; now right|].
    revert E. unfold collect_step.
    destruct (is_pytest_artifact (art_name a)) eqn:Hp; cbn [negb];
      [|now intros [= <-]].
    destruct (fetch a) as [extracted|] eqn:Hf; cbn [obind]; [|discriminate].
    destruct (process_test_files (fst extracted) (snd extracted))
      as [|item rest] eqn:Hr; intros [= <-]; [exact Hacc|].
    intros k v. rewrite get_set.
    destruct (String.eqb (art_name a) k) eqn:Ek; [|apply Hacc].
    apply String.eqb_eq in Ek. intros [= <-]. subst k.
    split; [exact Hp|]. split; [discriminate|].
    exists a, extracted. split; [apply Hsub; now left|].
    split; [reflexivity|]. split; [exact Hf | now rewrite Hr].
Qed.

Lemma collect_from_raises (artifacts : list Artifact) (bad : Artifact) (e : exn) :
  In bad artifacts ->
  is_pytest_artifact (art_name bad) = true ->
  fetch bad = Raises e ->
  forall acc, exists e', collect_from fetch acc artifacts = Raises e'.
Proof.
  intros Hin Hp Hf. induction artifacts as [|a artifacts IH]; [destruct Hin|].
  intros acc. cbn [collect_from]. destruct Hin as [-> | Hin].
  - unfold collect_step. rewrite Hp, Hf. cbn. eauto.
  - destruct (collect_step fetch acc a) as [acc'|e'']; cbn [obind];
      [now apply IH | eauto].
Qed.

End CollectFacts.

(** X14. What the callers collect for a run holds only artifacts whose name
    starts with ['PyTest test_report='], each with a suite map that is not
    empty and that is the orchestrator's output for the files extracted
    from an artifact of that name: an artifact without test results leaves
    no entry. *)
Theorem collected_results_invariant
    (fetch : Artifact -> outcome (Env * list Path)) (artifacts : list Artifact)
    (all_test_results : PyDict.t (PyDict.t TestSuiteResult))
    (k : string) (v : PyDict.t TestSuiteResult) :
  collect_test_results fetch artifacts = Returns all_test_results ->
  PyDict.get k all_test_results = Some v ->
  is_pytest_artifact k = true /\ v <> []
  /\ exists artifact extracted,
       In artifact artifacts /\ art_name artifact = k
       /\ fetch artifact = Returns extracted
       /\ v = process_test_files (fst extracted) (snd extracted).
Proof.
  intros Hrun Hget.
  apply (collect_from_invariant fetch artifacts artifacts (fun a H => H)
           PyDict.empty all_test_results); [discriminate | exact Hrun | exact Hget].
Qed.

Lemma collected_results_invariant_witness :
  is_pytest_artifact "PyTest test_report=BFT PyTest A; JobAttempt=1" = true
  /\ [("suiteB", mkTestSuiteResult "suiteB" 5 3 1 1 0 0 [])] <> []
  /\ exists artifact extracted,
       In artifact example_artifacts
       /\ art_name artifact = "PyTest test_report=BFT PyTest A; JobAttempt=1"
       /\ example_fetch artifact = Returns extracted
       /\ [("suiteB", mkTestSuiteResult "suiteB" 5 3 1 1 0 0 [])]
          = process_test_files (fst extracted) (snd extracted).
Proof.
  apply (collected_results_invariant example_fetch example_artifacts
           [("PyTest test_report=BFT PyTest A; JobAttempt=1",
             [("suiteB", mkTestSuiteResult "suiteB" 5 3 1 1 0 0 [])])]).
  - reflexivity.
  - reflexivity.
Defined.

(** X15. A download or extraction that raises for one test-report artifact
    makes the whole collection raise: unlike a file that cannot be parsed,
    which the orchestrator passes over, it ends the run without results,
    whatever the other artifacts hold. An artifact that is not a test
    report is never fetched, so it cannot do this. *)
Theorem failing_artifact_aborts_collection
    (fetch : Artifact -> outcome (Env * list Path)) (artifacts : list Artifact)
    (bad : Artifact) (e : exn) :
  In bad artifacts ->
  is_pytest_artifact (art_name bad) = true ->
  fetch bad = Raises e ->
  (exists e', collect_test_results fetch artifacts = Raises e')
  /\ (forall all_test_results other,
        is_pytest_artifact (art_name other) = false ->
        collect_step fetch all_test_results other = Returns all_test_results).
Proof.
  intros Hin Hp Hf. split.
  - now apply (collect_from_raises fetch artifacts bad e).
  - intros all_test_results other Ho. unfold collect_step. now rewrite Ho.
Qed.

Lemma failing_artifact_aborts_collection_witness :
  (exists e', collect_test_results failing_fetch example_artifacts = Raises e')
  /\ (forall all_test_results other,
        is_pytest_artifact (art_name other) = false ->
        collect_step failing_fetch all_test_results other
        = Returns all_test_results).
Proof.
  apply (failing_artifact_aborts_collection failing_fetch example_artifacts
           (mkArtifact "PyTest test_report=BFT PyTest B; JobAttempt=1" 3)
           OSError).
  - right. right. left. reflexivity.
  - reflexivity.
  - reflexivity.
Defined.

(** ** Extraction of an archive *)

Section ExtractFacts.

Variable joinpath : Path -> string -> Path.
Variable parent_of : Path -> Path.
Variable fs_fails : fs_call -> option exn.

Lemma fs_do_returns (call : fs_call) (calls calls' : list fs_call) :
  fs_do fs_fails call calls = Returns calls' -> calls' = (calls ++ [call])%list.
Proof. unfold fs_do. destruct (fs_fails call); [discriminate | now intros [= <-]]. Qed.

(** A loop that ends normally has written every file entry and lists them
    all, in the order of the archive. *)
Lemma extract_entries_done (suite_dir : Path) (entries : list ZipInfo) :
  forall (files0 : list Path) (calls0 : list fs_call) files calls,
    extract_entries joinpath parent_of fs_fails suite_dir entries files0 calls0
    = Done (files, calls) ->
    files = (files0
             ++ map (fun file_info => joinpath suite_dir (zi_filename file_info))
                  (file_entries entries))%list
    /\ exists calls',
         calls = (calls0 ++ calls')%list
         /\ forall file_info,
              In file_info (file_entries entries) ->
              exists data,
                zi_read file_info = ReadOk data
                /\ In (Write (joinpath suite_dir (zi_filename file_info)) data)
                     calls'.
Proof.
  induction entries as [|x entries IH]; intros files0 calls0 files calls;
    cbn [extract_entries file_entries List.filter].
  - intros [= <- <-]. rewrite app_nil_r. split; [reflexivity|].
    exists []. rewrite app_nil_r. split; [reflexivity | intros ? []].
  - destruct (zi_is_dir x) eqn:Hd; cbn [negb]; [apply IH|].
    destruct (fs_do fs_fails (Mkdir _) calls0) as [c1|] eqn:E1; [|discriminate].
    destruct (zi_read x) as [data| |] eqn:Hr.
    + destruct (fs_do fs_fails (OpenForWrite _) c1) as [c2|] eqn:E2;
        [|discriminate].
      destruct (fs_do fs_fails (Write _ data) c2) as [c3|] eqn:E3;
        [|discriminate].
      intros H. destruct (IH _ _ _ _ H) as [-> [calls' [-> Hw]]].
      apply fs_do_returns in E1, E2, E3. subst c1 c2 c3.
      fold (file_entries entries). cbn [map]. rewrite <- app_assoc.
      split; [reflexivity|].
      eexists. rewrite <- !app_assoc. split; [reflexivity|].
      intros file_info [<- | Hin].
      * exists data. split; [exact Hr|]. cbn. right. right. now left.
      * destruct (Hw file_info Hin) as [d [Hd1 Hd2]]. exists d.
        split; [exact Hd1|]. cbn. right. right. right. exact Hd2.
    + discriminate.
    + destruct (fs_do fs_fails (OpenForWrite _) c1); discriminate.
Qed.

End ExtractFacts.

(** X16. The list [extract_artifact] returns is all or nothing: it is
    empty, or it holds one path for every file entry of the archive, in
    the archive's order, directory entries left out: the join of the suite
    directory (the join of [output_dir] and [suite_] followed by the
    resolved suite name) and the entry's name as it stands in the archive;
    and every path it lists was written with the data read from its entry.
    The suite directory is created in either case. The name is joined
    unchecked, so this says where a path is only as far as the join
    does. *)
Theorem extract_artifact_all_or_nothing
    (joinpath : Path -> string -> Path) (parent_of : Path -> Path)
    (fs_fails : fs_call -> option exn) (archive : option (list ZipInfo))
    (artifact_name : string) (output_dir : Path)
    (files : list Path) (calls : list fs_call) :
  extract_artifact joinpath parent_of fs_fails archive artifact_name output_dir
  = Returns (files, calls) ->
  (files = []
   \/ exists entries,
        archive = Some entries
        /\ files
           = map (fun file_info =>
                    joinpath
                      (joinpath output_dir
                         ("suite_"
                          ++ _extract_suite_name_from_artifact artifact_name))
                      (zi_filename file_info))
               (file_entries entries)
        /\ forall file_info,
             In file_info (file_entries entries) ->
             exists data,
               zi_read file_info = ReadOk data
               /\ In (Write
                        (joinpath
                           (joinpath output_dir
                              ("suite_"
                               ++ _extract_suite_name_from_artifact artifact_name))
                           (zi_filename file_info))
                        data)
                    calls)
  /\ In (Mkdir (joinpath output_dir
                  ("suite_" ++ _extract_suite_name_from_artifact artifact_name)))
       calls.
Proof.
  unfold extract_artifact.
  destruct (fs_do fs_fails (Mkdir _) []) as [c0|] eqn:E0; [|discriminate].
  apply fs_do_returns in E0. cbn [app] in E0. subst c0. cbn [obind].
  destruct archive as [entries|]; [|intros [= <- <-]; split; [now left|now left]].
  destruct (extract_entries _ _ _ _ _ _ _) as [[fs cs]|cs|e] eqn:E;
    [| |discriminate].
  - intros [= <- <-].
    destruct (extract_entries_done _ _ _ _ _ _ _ _ _ E) as [-> [calls' [-> Hw]]].
    split; [|now left]. right. exists entries. split; [reflexivity|].
    split; [reflexivity|]. intros file_info Hin.
    destruct (Hw file_info Hin) as [d [H1 H2]]. exists d. split; [exact H1|].
    now right.
  - intros [= <- <-]. split; [now left|].
    clear -E. revert E.
    generalize (@nil Path) as files0.
    assert (In (Mkdir (joinpath output_dir
                         ("suite_"
                          ++ _extract_suite_name_from_artifact artifact_name)))
              [Mkdir (joinpath output_dir
                        ("suite_"
                         ++ _extract_suite_name_from_artifact artifact_name))])
      as H0 by now left.
    revert H0.
    generalize [Mkdir (joinpath output_dir
                         ("suite_"
                          ++ _extract_suite_name_from_artifact artifact_name))]
      as calls0.
    induction entries as [|x entries IH]; intros calls0 H0 files0;
      cbn [extract_entries]; [discriminate|].
    destruct (zi_is_dir x); [now apply IH|].
    destruct (fs_do fs_fails (Mkdir _) calls0) as [c1|] eqn:E1; [|discriminate].
    apply fs_do_returns in E1. subst c1.
    destruct (zi_read x) as [data| |].
    + destruct (fs_do fs_fails (OpenForWrite _) _) as [c2|] eqn:E2;
        [|discriminate].
      apply fs_do_returns in E2. subst c2.
      destruct (fs_do fs_fails (Write _ data) _) as [c3|] eqn:E3;
        [|discriminate].
      apply fs_do_returns in E3. subst c3.
      apply IH. apply in_or_app. left. apply in_or_app. left.
      apply in_or_app. now left.
    + intros [= <-]. apply in_or_app. now left.
    + destruct (fs_do fs_fails (OpenForWrite _) _) as [c2|] eqn:E2;
        [|discriminate].
      apply fs_do_returns in E2. subst c2.
      intros [= <-]. apply in_or_app. left. apply in_or_app. now left.
Qed.


Lemma extract_artifact_all_or_nothing_witness :
  ([mkPath "out/suite_A/" "junit.xml"] = []
   \/ exists entries,
        Some sound_archive = Some entries
        /\ [mkPath "out/suite_A/" "junit.xml"]
           = map (fun file_info =>
                    example_join
                      (example_join (mkPath "" "out")
                         ("suite_"
                          ++ _extract_suite_name_from_artifact
                               example_artifact_name))
                      (zi_filename file_info))
               (file_entries entries)
        /\ forall file_info,
             In file_info (file_entries entries) ->
             exists data,
               zi_read file_info = ReadOk data
               /\ In (Write
                        (example_join
                           (example_join (mkPath "" "out")
                              ("suite_"
                               ++ _extract_suite_name_from_artifact
                                    example_artifact_name))
                           (zi_filename file_info))
                        data)
                    sound_calls)
  /\ In (Mkdir (example_join (mkPath "" "out")
                  ("suite_"
                   ++ _extract_suite_name_from_artifact example_artifact_name)))
       sound_calls.
Proof.
  apply (extract_artifact_all_or_nothing example_join example_parent no_failure
           (Some sound_archive) example_artifact_name (mkPath "" "out")).
  reflexivity.
Defined.

Section DamagedArchive.

Variable joinpath : Path -> string -> Path.
Variable parent_of : Path -> Path.

(** With a file system that serves every call, the readable entries at the
    head of an archive are extracted one after the other. *)
Lemma extract_entries_readable (suite_dir : Path) (good rest : list ZipInfo) :
  Forall readable good ->
  forall files0 calls0,
    extract_entries joinpath parent_of no_failure suite_dir (good ++ rest)
      files0 calls0
    = extract_entries joinpath parent_of no_failure suite_dir rest
        (files0
         ++ map (fun file_info => joinpath suite_dir (zi_filename file_info))
              (file_entries good))
        (calls0 ++ calls_of joinpath parent_of suite_dir good).
Proof.
  induction 1 as [|x good Hx _ IH]; intros files0 calls0.
  - cbn. now rewrite !app_nil_r.
  - cbn [app extract_entries file_entries List.filter calls_of flat_map].
    fold (file_entries good). fold (calls_of joinpath parent_of suite_dir good).
    destruct (zi_is_dir x) eqn:Hd; cbn [negb]; [cbn [app]; apply IH|].
    destruct Hx as [Hx | [data Hx]]; [congruence|]. rewrite Hx.
    unfold fs_do, no_failure. rewrite IH. cbn [map].
    now rewrite <- !app_assoc.
Qed.

Lemma in_calls_of (suite_dir : Path) (entries : list ZipInfo) (p : Path)
    (data : string) :
  In (Write p data) (calls_of joinpath parent_of suite_dir entries)
  <-> exists file_info,
        In file_info entries /\ zi_is_dir file_info = false
        /\ zi_read file_info = ReadOk data
        /\ p = joinpath suite_dir (zi_filename file_info).
Proof.
  unfold calls_of. rewrite in_flat_map. split.
  - intros [x [Hx Hin]]. exists x. split; [exact Hx|].
    destruct (zi_is_dir x); [destruct Hin|].
    destruct (zi_read x) as [d| |]; try (now destruct Hin).
    destruct Hin as [H | [H | [H | []]]]; try discriminate.
    injection H as -> ->. auto.
  - intros [x (Hx & Hd & Hr & ->)]. exists x. split; [exact Hx|].
    rewrite Hd, Hr. right. right. now left.
Qed.

End DamagedArchive.

(** X17. An entry that cannot be opened or read ends the extraction with an
    empty list, although the file entries before it have been written:
    with a file system that serves every call, those files are on disk
    with their data, the damaged entry's file has been opened for writing
    (so it exists, empty) when the damage shows at reading, and nothing of
    the entries after it is written. *)
Theorem damaged_entry_empties_the_list
    (joinpath : Path -> string -> Path) (parent_of : Path -> Path)
    (good rest : list ZipInfo) (bad : ZipInfo)
    (artifact_name : string) (output_dir : Path) :
  Forall readable good ->
  zi_is_dir bad = false ->
  (forall data, zi_read bad <> ReadOk data) ->
  exists calls,
    extract_artifact joinpath parent_of no_failure
      (Some (good ++ bad :: rest)%list)
      artifact_name output_dir
    = Returns ([], calls)
    /\ (forall p data,
          In (Write p data) calls
          <-> exists file_info,
                In file_info good /\ zi_is_dir file_info = false
                /\ zi_read file_info = ReadOk data
                /\ p = joinpath
                         (joinpath output_dir
                            ("suite_"
                             ++ _extract_suite_name_from_artifact artifact_name))
                         (zi_filename file_info))
    /\ (zi_read bad = BadAtRead ->
        In (OpenForWrite
              (joinpath
                 (joinpath output_dir
                    ("suite_" ++ _extract_suite_name_from_artifact artifact_name))
                 (zi_filename bad)))
          calls).
Proof.
  intros Hgood Hdir Hbad. unfold extract_artifact.
  set (suite_dir := joinpath output_dir
                      ("suite_" ++ _extract_suite_name_from_artifact artifact_name)).
  unfold fs_do at 1. unfold no_failure at 1. cbn [obind app].
  rewrite (extract_entries_readable joinpath parent_of suite_dir good
             (bad :: rest) Hgood).
  cbn [extract_entries]. rewrite Hdir. unfold fs_do, no_failure.
  assert (forall tail p data,
             (forall d, ~ In (Write p d) tail) ->
             In (Write p data)
               (([Mkdir suite_dir]
                 ++ calls_of joinpath parent_of suite_dir good) ++ tail)
             <-> exists file_info,
                   In file_info good /\ zi_is_dir file_info = false
                   /\ zi_read file_info = ReadOk data
                   /\ p = joinpath suite_dir (zi_filename file_info)) as Hw.
  { intros tail p data Htail. rewrite <- in_calls_of.
    rewrite !in_app_iff. cbn [In]. split.
    - intros [[[H | []] | H] | H]; [discriminate | exact H | now apply Htail in H].
    - intros H. left. now right. }
  destruct (zi_read bad) as [data| |] eqn:Hr; [now destruct (Hbad data)| |].
  - eexists. split; [reflexivity|]. split; [|discriminate].
    intros p data. apply Hw. intros d [H | []]. discriminate.
  - eexists. split; [reflexivity|]. split.
    + intros p data. rewrite <- app_assoc. apply Hw.
      intros d [H | [H | []]]; discriminate.
    + intros _. apply in_or_app. right. now left.
Qed.

Lemma damaged_entry_empties_the_list_witness :
  exists calls,
    extract_artifact example_join example_parent no_failure
      (Some (sound_archive
             ++ mkZipInfo "pytest_log.txt" false BadAtRead
                :: [mkZipInfo "late.xml" false (ReadOk "<testsuite/>")])%list)
      example_artifact_name (mkPath "" "out")
    = Returns ([], calls)
    /\ (forall p data,
          In (Write p data) calls
          <-> exists file_info,
                In file_info sound_archive /\ zi_is_dir file_info = false
                /\ zi_read file_info = ReadOk data
                /\ p = example_join
                         (example_join (mkPath "" "out")
                            ("suite_"
                             ++ _extract_suite_name_from_artifact
                                  example_artifact_name))
                         (zi_filename file_info))
    /\ (zi_read (mkZipInfo "pytest_log.txt" false BadAtRead) = BadAtRead ->
        In (OpenForWrite
              (example_join
                 (example_join (mkPath "" "out")
                    ("suite_"
                     ++ _extract_suite_name_from_artifact example_artifact_name))
                 (zi_filename (mkZipInfo "pytest_log.txt" false BadAtRead))))
          calls).
Proof.
  apply (damaged_entry_empties_the_list example_join example_parent
           sound_archive [mkZipInfo "late.xml" false (ReadOk "<testsuite/>")]
           (mkZipInfo "pytest_log.txt" false BadAtRead)
           example_artifact_name (mkPath "" "out")).
  - constructor; [now left|].
    constructor; [right; now exists "<testsuite/>"%string | constructor].
  - reflexivity.
  - intros data. discriminate.
Defined.

Lemma filter_map_status (tests : list TestResult) :
  map tr_status (List.filter is_failure tests)
  = List.filter status_is_failure (map tr_status tests).
Proof.
  induction tests as [|t tests IH]; [reflexivity|].
  cbn [List.filter map]. unfold is_failure at 1.
  destruct (status_is_failure (tr_status t)); cbn [map]; now rewrite IH.
Qed.

Lemma status_classes (s : string) :
  ((if status_is_failure s then 1 else 0)
   + (if is_other_status s && negb (String.eqb s "error") then 1 else 0)
   = (if String.eqb s "failed" then 1 else 0)
     + (if is_other_status s then 1 else 0))%Z.
Proof.
  unfold status_is_failure, is_other_status.
  destruct (String.eqb_spec s "passed") as [E1|E1];
    destruct (String.eqb_spec s "failed") as [E2|E2];
    destruct (String.eqb_spec s "skipped") as [E3|E3];
    destruct (String.eqb_spec s "error") as [E4|E4];
    try (rewrite E1 in *; discriminate);
    try (rewrite E2 in *; discriminate);
    try (rewrite E3 in *; discriminate);
    reflexivity.
Qed.

Lemma filter_status_length (tests : list JsonTest) :
  Z.of_nat (List.length (List.filter status_is_failure (map json_status tests)))
  + count_unlisted tests
  = count_status "failed" tests + count_other tests.
Proof.
  unfold count_unlisted, count_status, count_other.
  induction tests as [|t tests IH]; [reflexivity|].
  cbn [List.filter map].
  pose proof (status_classes (json_status t)) as Hs.
  destruct (status_is_failure (json_status t)),
    (is_other_status (json_status t)),
    (String.eqb (json_status t) "failed"),
    (String.eqb (json_status t) "error");
    cbn [negb andb orb List.length] in *; lia.
Qed.

(** X18. The failure list of the report generator against the counters of
    a JSON report with a [tests] list, for one artifact. The failures are
    listed under the file's stem and are the tests whose status is [failed]
    or [error], in the order of the report. A test with any other outcome
    that is not [passed] or [skipped] (or with none) is counted in [errors]
    but not listed: the number of listed tests plus the number of such
    tests is failed + errors of the parsed results. *)
Theorem json_failures_listing (env : Env) (file_path : Path)
    (tests : list JsonTest) (duration : option float)
    (results : PyDict.t TestSuiteResult) (artifact_name : string) :
  json_load env file_path = Returns (JsonTests tests duration) ->
  _parse_json_report env file_path = Returns results ->
  (forall k failures,
      In (k, failures) (_get_all_failures [(artifact_name, results)]) ->
      k = path_stem file_path
      /\ map tr_status failures
         = List.filter status_is_failure (map json_status tests))
  /\ listed_count (_get_all_failures [(artifact_name, results)])
     + count_unlisted tests
     = sum_over sr_failed results + sum_over sr_errors results.
Proof.
  intros Hload Hparse.
  destruct (parse_json_tests_eq env file_path tests duration Hload)
    as (r & _ & _ & Hp & Hf & _ & He & Hst & Heq).
  rewrite Heq in Hparse. injection Hparse as <-.
  pose proof (filter_status_length tests) as Hlen.
  pose proof (filter_map_status (sr_tests r)) as Hmap. rewrite Hst in Hmap.
  destruct (_has_meaningful_results _ _ _) eqn:Hm.
  - unfold _get_all_failures. cbn [fold_left failures_add List.length Nat.ltb
      Nat.leb]. unfold sum_over. cbn [fold_right snd].
    destruct (List.filter is_failure (sr_tests r)) as [|t failures] eqn:Hfil.
    + split; [intros k failures []|].
      rewrite <- Hmap in Hlen. cbn in Hlen. cbn. lia.
    + cbn [PyDict.set PyDict.empty]. split.
      * intros k fs [H | []]. injection H as <- <-. split; [reflexivity|].
        exact Hmap.
      * unfold listed_count. cbn [fold_right snd].
        rewrite <- Hmap, List.length_map in Hlen. lia.
  - split; [intros k failures []|].
    unfold _has_meaningful_results in Hm.
    apply orb_false_elim in Hm as [Hm Hm3].
    apply orb_false_elim in Hm as [Hm1 Hm2].
    apply Z.ltb_ge in Hm1, Hm2, Hm3. cbn.
    assert (0 <= count_unlisted tests) by (unfold count_unlisted; lia).
    assert (0 <= Z.of_nat (List.length
                             (List.filter status_is_failure
                                (map json_status tests)))) by lia.
    lia.
Qed.

Lemma json_failures_listing_witness :
  (forall k failures,
      In (k, failures)
        (_get_all_failures
           [("artifact", [("mixed_report", mixed_report_result)])]) ->
      k = path_stem (mkPath "run" "mixed_report.json")
      /\ map tr_status failures
         = List.filter status_is_failure (map json_status mixed_report_tests))
  /\ listed_count
       (_get_all_failures [("artifact", [("mixed_report", mixed_report_result)])])
     + count_unlisted mixed_report_tests
     = sum_over sr_failed [("mixed_report", mixed_report_result)]
       + sum_over sr_errors [("mixed_report", mixed_report_result)].
Proof.
  apply (json_failures_listing json_tests_env (mkPath "run" "mixed_report.json")
           mixed_report_tests None
           [("mixed_report", mixed_report_result)] "artifact").
  - reflexivity.
  - reflexivity.
Defined.

Lemma set_fresh {V : Type} (k : string) (v : V) (d : PyDict.t V) :
  PyDict.get k d = None -> PyDict.set k v d = (d ++ [(k, v)])%list.
Proof.
  induction d as [|[k' v'] d IH]; cbn [PyDict.get PyDict.set app];
    [reflexivity|].
  destruct (String.eqb k k'); [discriminate|].
  intros H. now rewrite IH.
Qed.

Lemma fold_failures (artifact_name : string)
    (suites : PyDict.t TestSuiteResult) :
  forall acc : PyDict.t (list TestResult),
    NoDup (PyDict.keys acc ++ PyDict.keys suites) ->
    fold_left (failures_add false artifact_name) suites acc
    = (acc ++ flat_map suite_failures suites)%list.
Proof.
  induction suites as [|[k r] suites IH]; intros acc H;
    cbn [fold_left flat_map].
  - now rewrite app_nil_r.
  - cbn [PyDict.keys map fst] in H. fold (PyDict.keys suites) in H.
    pose proof H as H'.
    apply NoDup_app in H' as (H1 & H2 & H3).
    apply NoDup_cons in H3 as [H3 H4].
    assert (PyDict.get k acc = None) as Hk.
    { apply get_none_keys. intros Hin. apply list_elem_of_In in Hin.
      apply (H2 k Hin). left. }
    unfold failures_add at 2. unfold suite_failures at 1. cbn [fst snd].
    destruct (List.filter is_failure (sr_tests r)) as [|t failures].
    + cbn [app]. apply IH. apply NoDup_app. split; [exact H1|].
      split; [|exact H4]. intros x Hx Hx'. apply (H2 x Hx). now right.
    + rewrite IH.
      * rewrite (set_fresh k _ acc Hk), <- app_assoc. reflexivity.
      * rewrite set_keys, Hk, <- app_assoc. exact H.
Qed.

Lemma listed_count_suite_failures (suites : PyDict.t TestSuiteResult) :
  listed_count (flat_map suite_failures suites) = sum_over failing_count suites.
Proof.
  unfold listed_count, sum_over.
  induction suites as [|[k r] suites IH]; cbn [flat_map fold_right];
    [reflexivity|].
  rewrite fold_right_app, <- IH.
  generalize (fold_right
                (fun (item : string * list TestResult) acc =>
                   Z.of_nat (List.length (snd item)) + acc)
                0 (flat_map suite_failures suites)) as rest.
  intros rest. unfold suite_failures, failing_count. cbn [fst snd].
  destruct (List.filter is_failure (sr_tests r)) as [|t failures];
    cbn [fold_right snd List.length]; lia.
Qed.

(** X19. For one artifact, the failure list of the report generator holds
    every failing test of the orchestrator's output once: it has, in the
    order of the output, one entry for each suite with a test of status
    [failed] or [error], under the suite's name, holding these tests in
    their order, and no other entry. Since merging appends the tests, the
    number of listed tests is the number of failing tests the parsers
    returned for the files. *)
Theorem failures_listed_once (P : Parsers) (artifact_name : string)
    (files : list Path) :
  _get_all_failures [(artifact_name, process_test_files_with P files)]
  = flat_map suite_failures (process_test_files_with P files)
  /\ listed_count
       (_get_all_failures [(artifact_name, process_test_files_with P files)])
     = fold_right (fun file_path acc =>
                     sum_over failing_count (file_suites P file_path) + acc)
         0 files.
Proof.
  assert (_get_all_failures [(artifact_name, process_test_files_with P files)]
          = flat_map suite_failures (process_test_files_with P files)) as H.
  { unfold _get_all_failures. cbn [fold_left List.length Nat.ltb Nat.leb].
    rewrite fold_failures; [reflexivity|].
    cbn [PyDict.empty PyDict.keys map app]. apply process_test_files_nodup. }
  split; [exact H|]. rewrite H, listed_count_suite_failures.
  apply sum_over_process. intros a b. unfold failing_count. cbn.
  rewrite List.filter_app, List.length_app. lia.
Qed.

(** ** The cleaned error message *)

Section LineFacts.

Variable a : ascii.

Lemma contains_char_cons (c : ascii) (s : string) :
  PyStr.contains (String a "") (String c s)
  = Ascii.eqb a c || PyStr.contains (String a "") s.
Proof. cbn [PyStr.contains PyStr.startswith]. now rewrite andb_true_r. Qed.

Lemma contains_char_app (s t : string) :
  PyStr.contains (String a "") (s ++ t)
  = PyStr.contains (String a "") s || PyStr.contains (String a "") t.
Proof.
  induction s as [|c s IH].
  - cbn [String.append]. destruct t; reflexivity.
  - cbn [String.append]. rewrite !contains_char_cons, IH. apply orb_assoc.
Qed.

Lemma split_from_head (s : string) :
  forall cur,
    PyStr.contains (String a "") cur = false ->
    exists line rest,
      PyStr.split_from (String a "") 0 cur s = line :: rest
      /\ PyStr.contains (String a "") line = false.
Proof.
  induction s as [|c s IH]; intros cur Hcur; cbn [PyStr.split_from].
  - eauto.
  - cbn [PyStr.startswith]. rewrite andb_true_r.
    destruct (Ascii.eqb a c) eqn:E; [eauto|].
    apply IH. rewrite contains_char_app, Hcur, contains_char_cons, E.
    reflexivity.
Qed.

Lemma lstrip_contains (s : string) :
  PyStr.contains (String a "") s = false ->
  PyStr.contains (String a "") (PyStr.lstrip s) = false.
Proof.
  induction s as [|c s IH]; [reflexivity|].
  intros H. cbn [PyStr.lstrip]. destruct (PyStr.is_space c); [|exact H].
  apply IH. rewrite contains_char_cons in H.
  now apply orb_false_elim in H as [_ H].
Qed.

Lemma rstrip_contains (s : string) :
  PyStr.contains (String a "") s = false ->
  PyStr.contains (String a "") (PyStr.rstrip s) = false.
Proof.
  induction s as [|c s IH]; [reflexivity|].
  rewrite contains_char_cons. intros H.
  apply orb_false_elim in H as [Hc Hs]. specialize (IH Hs).
  rewrite rstrip_cons. destruct (PyStr.rstrip s) as [|d r].
  - destruct (PyStr.is_space c); [reflexivity|].
    now rewrite contains_char_cons, Hc.
  - now rewrite contains_char_cons, Hc, IH.
Qed.

Lemma take_contains (n : nat) :
  forall s,
    PyStr.contains (String a "") s = false ->
    PyStr.contains (String a "") (PyStr.take n s) = false.
Proof.
  induction n as [|n IH]; intros [|c s] H; try reflexivity.
  cbn [PyStr.take]. rewrite contains_char_cons in *.
  apply orb_false_elim in H as [Hc Hs]. now rewrite Hc, IH.
Qed.

End LineFacts.

Lemma take_length (n : nat) :
  forall s, (String.length (PyStr.take n s) <= n)%nat.
Proof.
  induction n as [|n IH]; intros [|c s]; cbn [PyStr.take String.length];
    try lia.
  specialize (IH s). lia.
Qed.

Lemma append_length (s t : string) :
  String.length (s ++ t) = (String.length s + String.length t)%nat.
Proof.
  induction s as [|c s IH]; cbn [String.append String.length]; [reflexivity|].
  now rewrite IH.
Qed.

(** X20. The message cleaner of the e-mail report always returns, and what
    it returns is one line of at most 100 characters: it holds no line
    feed and its length is at most 100, whatever the message. *)
Theorem clean_error_message_one_short_line (message : option string) :
  exists clean,
    _clean_error_message message = Returns clean
    /\ (String.length clean <= 100)%nat
    /\ PyStr.contains LF clean = false.
Proof.
  unfold _clean_error_message.
  destruct message as [[|c message]|];
    try (eexists; split; [reflexivity|]; split; [cbn; lia | reflexivity]).
  unfold PyStr.split, LF.
  destruct (split_from_head "010"%char (PyStr.strip (String c message)) ""
              eq_refl) as (line & rest & -> & Hline).
  assert (PyStr.contains (String "010"%char "") (PyStr.strip line) = false)
    as Hstrip.
  { unfold PyStr.strip. now apply rstrip_contains, lstrip_contains. }
  destruct (100 <? String.length (PyStr.strip line))%nat eqn:E.
  - eexists. split; [reflexivity|]. split.
    + rewrite append_length. pose proof (take_length 97 (PyStr.strip line)).
      cbn [String.length]. lia.
    + rewrite contains_char_app, take_contains; [reflexivity | exact Hstrip].
  - eexists. split; [reflexivity|]. split; [|exact Hstrip].
    apply Nat.ltb_ge in E. exact E.
Qed.
